(** * CRM backend: data access and audit trail

    A shallow embedding of [server/routes.ts], [server/storage.ts] and
    [shared/schema.ts].  The Postgres store is a record of tables (lists of
    rows in physical order), sequences and a clock; the [DatabaseStorage]
    methods and the Express handlers are functions in a state-and-exception
    monad over that record.  The constraints the schema declares (primary
    keys, the unique username, foreign keys, the cascade from clients to
    interactions) are checked by the statements that can violate them.

    Conventions and limits of the model:
    - ids and timestamps (milliseconds) are [Z]; JSON numbers are integers,
      kept exactly also where JavaScript rounds them (beyond 2^53);
    - a statement fails on a parameter that its column cannot hold: a
      number beyond 32 bits for an [integer] column, a text with the
      character U+0000.  The range of a timestamp column is not modelled.
      The sequences of clients and interactions end with the last number of
      an [integer] column; those of admins and audit rows are taken never
      to come that far;
    - request bodies handed to a zod schema are JSON objects whose values
      are scalars; request bodies handed unchecked to an update are values
      of the TypeScript type the storage method declares
      ([Partial<Client>], ...): every property is a column and has the type
      of its column, a timestamp being a [Date], which no JSON body
      carries.  The password of an admin update is kept as the JSON value
      it is, since [updateAdmin] tests it before it takes it for a string;
    - bcrypt digests are symbolic: a digest records the cost, the salt and
      the plaintext it was computed from, and is never equal to a plain
      text; [bcrypt.compare] reads the first 72 bytes of a password;
    - [ILIKE] folds the case of the ASCII letters; [Date.parse] reads the two
      ISO forms the application sends and takes any other string as
      invalid, where [new Date] reads some as the implementation sees fit:
      the statements on dates are made for strings of the two forms;
    - the server and the database share one clock, where the program has
      two that need not agree;
    - the session store, cookies and console output are not modelled: a
      request carries the user passport restored from its session. *)

From Stdlib Require Import ZArith Ascii String List Bool Lia Sorted Permutation.
From stdpp Require Import base option list strings gmap pretty.

Open Scope string_scope.
Open Scope Z_scope.

(** ** Strings *)

Module Str.

(** The double-quote character, for the messages that quote identifiers. *)
Definition dq : string := String "034"%char EmptyString.

Definition quoted (s : string) : string := dq ++ s ++ dq.

Definition is_upper (c : ascii) : bool :=
let n := nat_of_ascii c in (Nat.leb 65 n && Nat.leb n 90)%bool.

(** Case folding as ILIKE does it, on the ASCII letters. *)
Definition lower_char (c : ascii) : ascii :=
if is_upper c then ascii_of_nat (nat_of_ascii c + 32) else c.

Fixpoint lower (s : string) : string :=
match s with
| EmptyString => EmptyString
| String c s' => String (lower_char c) (lower s')
end.

Fixpoint starts_with (p s : string) : bool :=
match p, s with
| EmptyString, _ => true
| String a p', String b s' => (Ascii.eqb a b && starts_with p' s')%bool
| String _ _, EmptyString => false
end.

(** [String.prototype.includes]: [p] occurs in [s]. *)
Fixpoint includes (s p : string) : bool :=
(starts_with p s ||
 match s with
 | EmptyString => false
 | String _ s' => includes s' p
 end)%bool.

Fixpoint join (sep : string) (l : list string) : string :=
match l with
| [] => ""
| [x] => x
| x :: l' => x ++ sep ++ join sep l'
end.

Definition is_digit (c : ascii) : bool :=
let n := nat_of_ascii c in (Nat.leb 48 n && Nat.leb n 57)%bool.

Definition digit_val (c : ascii) : Z := Z.of_nat (nat_of_ascii c) - 48.

(** The white space and line terminators of one byte: U+0009 to U+000D and
  U+0020. *)
Definition is_space (c : ascii) : bool :=
let n := nat_of_ascii c in
(Nat.eqb n 32 || (Nat.leb 9 n && Nat.leb n 13))%bool.

(** The third byte of a white space character whose UTF-8 encoding starts
  with E2 80: U+2000 to U+200A, U+2028, U+2029 and U+202F. *)
Definition is_space_e2_80 (c : ascii) : bool :=
let n := nat_of_ascii c in
((Nat.leb 128 n && Nat.leb n 138) || Nat.eqb n 168 || Nat.eqb n 169
 || Nat.eqb n 175)%bool.

(** [StrWhiteSpaceChar]: the characters [parseInt] skips at the head of its
  argument, a string being the UTF-8 encoding of the JavaScript string.
  Besides the characters of one byte these are U+00A0 (C2 A0), U+1680
  (E1 9A 80), U+2000 to U+200A, U+2028, U+2029 and U+202F (E2 80 ..), U+205F
  (E2 81 9F), U+3000 (E3 80 80) and U+FEFF (EF BB BF). *)
Fixpoint skip_spaces (s : string) : string :=
match s with
| String c s1 =>
    if is_space c then skip_spaces s1
    else
      match s1 with
      | String c1 s2 =>
          if (Ascii.eqb c "194" && Ascii.eqb c1 "160")%bool then skip_spaces s2
          else
            match s2 with
            | String c2 s3 =>
                if ((Ascii.eqb c "225" && Ascii.eqb c1 "154" && Ascii.eqb c2 "128")
                    || (Ascii.eqb c "226" && Ascii.eqb c1 "128" && is_space_e2_80 c2)
                    || (Ascii.eqb c "226" && Ascii.eqb c1 "129" && Ascii.eqb c2 "159")
                    || (Ascii.eqb c "227" && Ascii.eqb c1 "128" && Ascii.eqb c2 "128")
                    || (Ascii.eqb c "239" && Ascii.eqb c1 "187" && Ascii.eqb c2 "191"))%bool
                then skip_spaces s3
                else s
            | EmptyString => s
            end
      | EmptyString => s
      end
| EmptyString => s
end.

(** The longest prefix of decimal digits, read as a number; [None] when the
  string does not start with a digit. *)
Fixpoint digits_from (acc : option Z) (s : string) : option Z :=
match s with
| String c s' =>
    if is_digit c
    then digits_from (Some (10 * default 0 acc + digit_val c)) s'
    else acc
| EmptyString => acc
end.

(** [parseInt(s, 10)]; [None] is [NaN]. *)
Definition parseInt (s : string) : option Z :=
match skip_spaces s with
| String "-" s' => Z.opp <$> digits_from None s'
| String "+" s' => digits_from None s'
| s' => digits_from None s'
end.

(** The text holds the character U+0000. *)
Fixpoint has_nul (s : string) : bool :=
match s with
| String c s' => (Ascii.eqb c "000" || has_nul s')%bool
| EmptyString => false
end.

(** The first [n] bytes. *)
Fixpoint take (n : nat) (s : string) : string :=
match n, s with
| S n', String c s' => String c (take n' s')
| _, _ => EmptyString
end.

End Str.

(** ** JSON scalars and request bodies *)

Inductive JVal :=
  | JNull
  | JBool (b : bool)
  | JNum (n : Z)
  | JStr (s : string).

(** A parsed JSON object: [body !! key] is [None] where JavaScript reads
    [undefined]. *)
Abbreviation Json := (gmap string JVal).

Definition typeof (v : JVal) : string :=
  match v with
  | JNull => "null"
  | JBool _ => "boolean"
  | JNum _ => "number"
  | JStr _ => "string"
  end.

(** ** Data model ([shared/schema.ts]) *)

Inductive MarketType := mt_local | mt_oversea.
Inductive Segment := seg_FIT | seg_Series | seg_Group | seg_OTA | seg_Wellness.
Inductive BusinessType := bt_TourOperator | bt_TravelAgent.
Inductive InteractionType := it_call | it_email | it_meeting | it_note | it_other.

(** What the [password] column of [admins] holds: the text it was given, or
    the digest [bcrypt.hash] computed (symbolically: cost, salt, plaintext). *)
Inductive PasswordText :=
  | Plain (text : string)
  | Digest (rounds : nat) (salt : Z) (plaintext : string).

Module Admin.

Record t := mk {
  id : Z;
  username : string;
  password : PasswordText;
  fullName : string;
  email : string;
  role : string;
  active : bool;
  lastLogin : option Z;
  createdAt : Z
}.

(** [InsertAdmin]: the output type of [insertAdminSchema]. *)
Record insert := mk_insert {
  i_username : string;
  i_password : string;
  i_fullName : string;
  i_email : string;
  i_role : option string;
  i_active : option bool
}.

(** [Partial<Admin>], as [PUT /api/admins/:id] hands it over: the method
    tests [password] for truthiness before it takes it for a string, so the
    property is kept as the JSON value it is. *)
Record partial := mk_partial {
  p_id : option Z;
  p_username : option string;
  p_password : option JVal;
  p_fullName : option string;
  p_email : option string;
  p_role : option string;
  p_active : option bool;
  p_lastLogin : option (option Z);
  p_createdAt : option Z
}.

Definition empty : partial :=
  mk_partial None None None None None None None None None.

(** The admin without its [password] property, as the handlers send it. *)
Record public := mk_public {
  pub_id : Z;
  pub_username : string;
  pub_fullName : string;
  pub_email : string;
  pub_role : string;
  pub_active : bool;
  pub_lastLogin : option Z;
  pub_createdAt : Z
}.

(** [const { password, ...sanitizedAdmin } = admin]. *)
Definition sanitize (a : t) : public :=
  mk_public (id a) (username a) (fullName a) (email a) (role a) (active a)
            (lastLogin a) (createdAt a).

End Admin.

Module Client.

Record t := mk {
  id : Z;
  firstName : string;
  lastName : string;
  email : string;
  phone : string;
  marketType : MarketType;
  market : option string;
  segment : option Segment;
  businessType : option BusinessType;
  headcountName : option string;
  headcountRole : option string;
  headcountEmail : option string;
  if_active : option bool;
  createdAt : Z;
  updatedAt : Z;
  createdBy : option Z
}.

(** [InsertClient]: an optional property is [None] when absent; a nullable
    one carries [Some None] for [null]. *)
Record insert := mk_insert {
  i_firstName : string;
  i_lastName : string;
  i_email : string;
  i_phone : string;
  i_marketType : option MarketType;
  i_market : option (option string);
  i_segment : option (option Segment);
  i_businessType : option (option BusinessType);
  i_headcountName : option (option string);
  i_headcountRole : option (option string);
  i_headcountEmail : option (option string);
  i_if_active : option (option bool);
  i_createdBy : option (option Z)
}.

(** [Partial<Client>]. *)
Record partial := mk_partial {
  p_id : option Z;
  p_firstName : option string;
  p_lastName : option string;
  p_email : option string;
  p_phone : option string;
  p_marketType : option MarketType;
  p_market : option (option string);
  p_segment : option (option Segment);
  p_businessType : option (option BusinessType);
  p_headcountName : option (option string);
  p_headcountRole : option (option string);
  p_headcountEmail : option (option string);
  p_if_active : option (option bool);
  p_createdAt : option Z;
  p_updatedAt : option Z;
  p_createdBy : option (option Z)
}.

Definition empty : partial :=
  mk_partial None None None None None None None None None None None None
             None None None None.

End Client.

Module Interaction.

Record t := mk {
  id : Z;
  clientId : Z;
  type : InteractionType;
  title : string;
  description : string;
  date : Z;
  createdAt : Z;
  updatedAt : Z;
  createdBy : option Z
}.

(** [InsertInteraction]. *)
Record insert := mk_insert {
  i_clientId : Z;
  i_type : InteractionType;
  i_title : string;
  i_description : string;
  i_date : Z;
  i_createdBy : option (option Z)
}.

(** [Partial<Interaction>]. *)
Record partial := mk_partial {
  p_id : option Z;
  p_clientId : option Z;
  p_type : option InteractionType;
  p_title : option string;
  p_description : option string;
  p_date : option Z;
  p_createdAt : option Z;
  p_updatedAt : option Z;
  p_createdBy : option (option Z)
}.

Definition empty : partial :=
  mk_partial None None None None None None None None None.

End Interaction.

Module AuditLog.

Record t := mk {
  id : Z;
  adminId : option Z;
  entityType : string;
  entityId : Z;
  action : string;
  details : string;
  createdAt : Z
}.

(** [InsertAuditLog]. *)
Record insert := mk_insert {
  i_adminId : option (option Z);
  i_entityType : string;
  i_entityId : Z;
  i_action : string;
  i_details : string
}.

End AuditLog.

(** ** The store *)

Record Db := mkDb {
  admins : list Admin.t;
  clients : list Client.t;
  interactions : list Interaction.t;
  auditLogs : list AuditLog.t;
  admins_id_seq : Z;
  clients_id_seq : Z;
  interactions_id_seq : Z;
  audit_logs_id_seq : Z;
  clock : Z;      (* the time the next timestamp read returns *)
  entropy : Z     (* the salt the next bcrypt.hash draws *)
}.

Definition empty_db : Db := mkDb [] [] [] [] 1 1 1 1 0 0.

Definition with_admins (l : list Admin.t) (db : Db) : Db :=
  mkDb l (clients db) (interactions db) (auditLogs db) (admins_id_seq db)
       (clients_id_seq db) (interactions_id_seq db) (audit_logs_id_seq db)
       (clock db) (entropy db).

Definition with_clients (l : list Client.t) (db : Db) : Db :=
  mkDb (admins db) l (interactions db) (auditLogs db) (admins_id_seq db)
       (clients_id_seq db) (interactions_id_seq db) (audit_logs_id_seq db)
       (clock db) (entropy db).

Definition with_interactions (l : list Interaction.t) (db : Db) : Db :=
  mkDb (admins db) (clients db) l (auditLogs db) (admins_id_seq db)
       (clients_id_seq db) (interactions_id_seq db) (audit_logs_id_seq db)
       (clock db) (entropy db).

Definition with_auditLogs (l : list AuditLog.t) (db : Db) : Db :=
  mkDb (admins db) (clients db) (interactions db) l (admins_id_seq db)
       (clients_id_seq db) (interactions_id_seq db) (audit_logs_id_seq db)
       (clock db) (entropy db).

(** ** Exceptions, and the monad of asynchronous store code *)

Record ZodIssue := mkIssue { issue_message : string; issue_path : string }.

Inductive Exn :=
  | ZodError (issues : list ZodIssue)
  | PgError (message : string)       (* rejected by Postgres *)
  | JsError (message : string).      (* [new Error(message)] *)

(** zod-validation-error's [fromZodError(error).message]. *)
Definition fromZodError (issues : list ZodIssue) : string :=
  "Validation error: " ++
  Str.join "; "
    (map (fun i => issue_message i ++ " at " ++ Str.quoted (issue_path i))
         issues).

(** [error.message]. *)
Definition exn_message (e : Exn) : string :=
  match e with
  | ZodError issues => fromZodError issues
  | PgError m => m
  | JsError m => m
  end.

Inductive Res (A : Type) :=
  | Ok (a : A)
  | Throw (e : Exn).
Arguments Ok {A} a.
Arguments Throw {A} e.

Definition M (A : Type) : Type := Db -> Res A * Db.

Definition ret {A} (a : A) : M A := fun db => (Ok a, db).

Definition throw {A} (e : Exn) : M A := fun db => (Throw e, db).

Definition bind {A B} (m : M A) (k : A -> M B) : M B :=
  fun db =>
    match m db with
    | (Ok a, db') => k a db'
    | (Throw e, db') => (Throw e, db')
    end.

(** [try { m } catch (error) { h(error) }]. *)
Definition try_catch {A} (m : M A) (h : Exn -> M A) : M A :=
  fun db =>
    match m db with
    | (Ok a, db') => (Ok a, db')
    | (Throw e, db') => h e db'
    end.

Declare Scope crm_scope.
Delimit Scope crm_scope with crm.
Notation "x <- m ;; k" := (bind m (fun x => k))
  (at level 100, m at next level, right associativity) : crm_scope.
Notation "m ;;; k" := (bind m (fun _ => k))
  (at level 100, right associativity) : crm_scope.
Open Scope crm_scope.

(** [new Date()] in the server and [now()] in the database: read the
    clock; time moves on. The model has one clock where the program has
    two, that of the server and that of the database, which need not
    agree: a statement that compares a stamp of the one with a stamp of the
    other takes their order as a hypothesis. *)
Definition now : M Z :=
  fun db =>
    (Ok (clock db),
     mkDb (admins db) (clients db) (interactions db) (auditLogs db)
          (admins_id_seq db) (clients_id_seq db) (interactions_id_seq db)
          (audit_logs_id_seq db) (clock db + 1) (entropy db)).

(** [bcrypt.hash(plaintext, rounds)]: draws a fresh salt. *)
Definition bcrypt_hash (plaintext : string) (rounds : nat) : M PasswordText :=
  fun db =>
    (Ok (Digest rounds (entropy db) plaintext),
     mkDb (admins db) (clients db) (interactions db) (auditLogs db)
          (admins_id_seq db) (clients_id_seq db) (interactions_id_seq db)
          (audit_logs_id_seq db) (clock db) (entropy db + 1)).

(** [bcrypt.compare(plain, stored)]: bcrypt reads the first 72 bytes of a
    password; a text that is no digest matches nothing. *)
Definition bcrypt_compare (plain : string) (stored : PasswordText) : bool :=
  match stored with
  | Digest _ _ p => String.eqb (Str.take 72 plain) (Str.take 72 p)
  | Plain _ => false
  end.

(** ** Statements against the tables *)

Module Pg.

(** A read of the current state. *)
Definition query {A} (f : Db -> A) : M A := fun db => (Ok (f db), db).

(** A write of the tables. *)
Definition exec (f : Db -> Db) : M unit := fun db => (Ok tt, f db).

Definition unique_violation (constraint : string) : Exn :=
  PgError ("duplicate key value violates unique constraint "
           ++ Str.quoted constraint).

(** The row written refers to a missing parent. *)
Definition fk_violation (table constraint : string) : Exn :=
  PgError ("insert or update on table " ++ Str.quoted table
           ++ " violates foreign key constraint " ++ Str.quoted constraint).

(** The key changed is still referred to by a row of [child]. *)
Definition fk_restrict (table constraint child : string) : Exn :=
  PgError ("update or delete on table " ++ Str.quoted table
           ++ " violates foreign key constraint " ++ Str.quoted constraint
           ++ " on table " ++ Str.quoted child).

Definition opt_eqb (a b : option Z) : bool :=
  match a, b with
  | Some x, Some y => x =? y
  | None, None => true
  | _, _ => false
  end.

Definition has_admin (i : Z) (db : Db) : bool :=
  existsb (fun a => Admin.id a =? i) (admins db).

Definition has_client (i : Z) (db : Db) : bool :=
  existsb (fun c => Client.id c =? i) (clients db).

Definition has_interaction (i : Z) (db : Db) : bool :=
  existsb (fun x => Interaction.id x =? i) (interactions db).

Definition has_auditLog (i : Z) (db : Db) : bool :=
  existsb (fun l => AuditLog.id l =? i) (auditLogs db).

Definition has_username (u : string) (db : Db) : bool :=
  existsb (fun a => String.eqb (Admin.username a) u) (admins db).

(** [references(() => admins.id)] on a nullable column. *)
Definition admin_ref_ok (r : option Z) (db : Db) : bool :=
  match r with
  | Some a => has_admin a db
  | None => true
  end.

(** The constraint and the table of a row that still points at admin [i]. *)
Definition admin_referenced (i : Z) (db : Db) : option (string * string) :=
  if existsb (fun c => opt_eqb (Client.createdBy c) (Some i)) (clients db)
  then Some ("clients_created_by_admins_id_fk", "clients")
  else if existsb (fun x => opt_eqb (Interaction.createdBy x) (Some i))
                  (interactions db)
  then Some ("interactions_created_by_admins_id_fk", "interactions")
  else if existsb (fun l => opt_eqb (AuditLog.adminId l) (Some i))
                  (auditLogs db)
  then Some ("audit_logs_admin_id_admins_id_fk", "audit_logs")
  else None.

Definition client_referenced (i : Z) (db : Db) : bool :=
  existsb (fun x => Interaction.clientId x =? i) (interactions db).

(** [serial]: the next value of the column's sequence; the sequence moves
    on whether or not the insert succeeds. *)
(** The [integer] columns hold 32 bits. *)
Definition in_int4 (i : Z) : bool :=
  ((-2147483648 <=? i) && (i <=? 2147483647))%bool.

(** The message for a number that JavaScript writes digit by digit, as it
    does below 10^21. *)
Definition out_of_range (i : Z) : Exn :=
  PgError ("value " ++ Str.quoted (pretty i)
           ++ " is out of range for type integer").

Definition invalid_byte_sequence : Exn :=
  PgError ("invalid byte sequence for encoding " ++ Str.quoted "UTF8"
           ++ ": 0x00").

Definition not_null_violation (table column : string) : Exn :=
  PgError ("null value in column " ++ Str.quoted column ++ " of relation "
           ++ Str.quoted table ++ " violates not-null constraint").

Definition sequence_exhausted (sequence : string) : Exn :=
  PgError ("nextval: reached maximum value of sequence "
           ++ Str.quoted sequence ++ " (2147483647)").

Definition nextval_admins : M Z :=
  fun db =>
    (Ok (admins_id_seq db),
     mkDb (admins db) (clients db) (interactions db) (auditLogs db)
          (admins_id_seq db + 1) (clients_id_seq db)
          (interactions_id_seq db) (audit_logs_id_seq db)
          (clock db) (entropy db)).

(** The sequences of the clients and of the interactions give the keys
    that the handlers look for again: they end with the last number of an
    [integer] column. Those of the admins and of the audit rows are taken
    never to come that far. *)
Definition nextval_clients : M Z :=
  fun db =>
    if in_int4 (clients_id_seq db)
    then (Ok (clients_id_seq db),
          mkDb (admins db) (clients db) (interactions db) (auditLogs db)
               (admins_id_seq db) (clients_id_seq db + 1)
               (interactions_id_seq db) (audit_logs_id_seq db)
               (clock db) (entropy db))
    else (Throw (sequence_exhausted "clients_id_seq"), db).

Definition nextval_interactions : M Z :=
  fun db =>
    if in_int4 (interactions_id_seq db)
    then (Ok (interactions_id_seq db),
          mkDb (admins db) (clients db) (interactions db) (auditLogs db)
               (admins_id_seq db) (clients_id_seq db)
               (interactions_id_seq db + 1) (audit_logs_id_seq db)
               (clock db) (entropy db))
    else (Throw (sequence_exhausted "interactions_id_seq"), db).

Definition nextval_audit_logs : M Z :=
  fun db =>
    (Ok (audit_logs_id_seq db),
     mkDb (admins db) (clients db) (interactions db) (auditLogs db)
          (admins_id_seq db) (clients_id_seq db)
          (interactions_id_seq db) (audit_logs_id_seq db + 1)
          (clock db) (entropy db)).

(** [if bad then throw e else ok]. *)
Definition reject_if (bad : bool) (e : Exn) : M unit :=
  if bad then throw e else ret tt.

(** What a parameter of a statement is refused for, if it is: a number that
    an [integer] column cannot hold, a text with the character U+0000. *)
Definition int4 (i : Z) : option Exn :=
  if in_int4 i then None else Some (out_of_range i).

Definition text (s : string) : option Exn :=
  if Str.has_nul s then Some invalid_byte_sequence else None.

(** A parameter that may be absent, or [NULL]. *)
Definition opt {A} (check : A -> option Exn) (v : option A) : option Exn :=
  match v with
  | Some a => check a
  | None => None
  end.

Fixpoint first_refused (params : list (option Exn)) : option Exn :=
  match params with
  | [] => None
  | Some e :: _ => Some e
  | None :: rest => first_refused rest
  end.

(** The parameters of a statement are read before it runs: the first that
    is refused fails the statement, and nothing is read or written. *)
Definition bind_params (params : list (option Exn)) : M unit :=
  fun db =>
    (match first_refused params with
     | Some e => Throw e
     | None => Ok tt
     end, db).

(** Insertion of [x] before the first element it precedes: with [foldr]
    a stable sort. *)
Fixpoint insert_by {A} (le : A -> A -> bool) (x : A) (l : list A) : list A :=
  match l with
  | [] => [x]
  | y :: l' => if le x y then x :: l else y :: insert_by le x l'
  end.

(** [ORDER BY]. *)
Definition order_by {A} (le : A -> A -> bool) (l : list A) : list A :=
  foldr (insert_by le) [] l.

(** [LIMIT n]. *)
Definition limit {A} (n : nat) (l : list A) : list A := firstn n l.

(** [UPDATE ... SET ... WHERE p]: the table after, and the rows written. *)
Definition update_where {A} (p : A -> bool) (f : A -> A) (l : list A)
  : list A :=
  map (fun r => if p r then f r else r) l.

End Pg.

(** ** [LIKE] and [ILIKE] *)

Module Like.

(** [text LIKE pattern] with the default escape character: [%] matches any
    run of characters, [_] any one character, a backslash takes the next
    pattern character literally.  [None] is the error Postgres raises for
    a pattern that ends in the escape character. *)
Fixpoint like (p : string) : string -> option bool :=
  match p with
  | EmptyString =>
      fun s => Some match s with EmptyString => true | _ => false end
  | String c p' =>
      if Ascii.eqb c "%" then
        fix any (s : string) : option bool :=
          match like p' s with
          | Some false =>
              match s with
              | EmptyString => Some false
              | String _ s' => any s'
              end
          | r => r
          end
      else if Ascii.eqb c "_" then
        fun s =>
          match s with
          | String _ s' => like p' s'
          | EmptyString => Some false
          end
      else if Ascii.eqb c "\" then
        match p' with
        | EmptyString =>
            fun s => match s with EmptyString => Some false | _ => None end
        | String d p'' =>
            fun s =>
              match s with
              | String e s' => if Ascii.eqb d e then like p'' s' else Some false
              | EmptyString => Some false
              end
        end
      else
        fun s =>
          match s with
          | String e s' => if Ascii.eqb c e then like p' s' else Some false
          | EmptyString => Some false
          end
  end.

(** [text ILIKE pattern]. *)
Definition ilike (text pattern : string) : option bool :=
  like (Str.lower pattern) (Str.lower text).

(** SQL [OR] over conditions that may raise, left to right. *)
Fixpoint any_of (l : list (option bool)) : option bool :=
  match l with
  | [] => Some false
  | None :: _ => None
  | Some true :: _ => Some true
  | Some false :: l' => any_of l'
  end.

(** [WHERE cond]: the rows for which [cond] holds; [None] when it raises. *)
Fixpoint where_ {A} (cond : A -> option bool) (l : list A)
  : option (list A) :=
  match l with
  | [] => Some []
  | r :: l' =>
      match cond r with
      | None => None
      | Some b =>
          match where_ cond l' with
          | None => None
          | Some rest => Some (if b then r :: rest else rest)
          end
      end
  end.

End Like.

(** ** [.set(values)]: the row an update writes *)

(** [password] is the text handed to [.set], already hashed or not. *)
Definition admin_set (v : Admin.partial) (pw : option PasswordText)
  (a : Admin.t) : Admin.t :=
  Admin.mk (default (Admin.id a) (Admin.p_id v))
           (default (Admin.username a) (Admin.p_username v))
           (default (Admin.password a) pw)
           (default (Admin.fullName a) (Admin.p_fullName v))
           (default (Admin.email a) (Admin.p_email v))
           (default (Admin.role a) (Admin.p_role v))
           (default (Admin.active a) (Admin.p_active v))
           (default (Admin.lastLogin a) (Admin.p_lastLogin v))
           (default (Admin.createdAt a) (Admin.p_createdAt v)).

Definition client_set (v : Client.partial) (c : Client.t) : Client.t :=
  Client.mk (default (Client.id c) (Client.p_id v))
            (default (Client.firstName c) (Client.p_firstName v))
            (default (Client.lastName c) (Client.p_lastName v))
            (default (Client.email c) (Client.p_email v))
            (default (Client.phone c) (Client.p_phone v))
            (default (Client.marketType c) (Client.p_marketType v))
            (default (Client.market c) (Client.p_market v))
            (default (Client.segment c) (Client.p_segment v))
            (default (Client.businessType c) (Client.p_businessType v))
            (default (Client.headcountName c) (Client.p_headcountName v))
            (default (Client.headcountRole c) (Client.p_headcountRole v))
            (default (Client.headcountEmail c) (Client.p_headcountEmail v))
            (default (Client.if_active c) (Client.p_if_active v))
            (default (Client.createdAt c) (Client.p_createdAt v))
            (default (Client.updatedAt c) (Client.p_updatedAt v))
            (default (Client.createdBy c) (Client.p_createdBy v)).

Definition interaction_set (v : Interaction.partial) (x : Interaction.t)
  : Interaction.t :=
  Interaction.mk (default (Interaction.id x) (Interaction.p_id v))
                 (default (Interaction.clientId x) (Interaction.p_clientId v))
                 (default (Interaction.type x) (Interaction.p_type v))
                 (default (Interaction.title x) (Interaction.p_title v))
                 (default (Interaction.description x)
                          (Interaction.p_description v))
                 (default (Interaction.date x) (Interaction.p_date v))
                 (default (Interaction.createdAt x) (Interaction.p_createdAt v))
                 (default (Interaction.updatedAt x) (Interaction.p_updatedAt v))
                 (default (Interaction.createdBy x) (Interaction.p_createdBy v)).

(** [{ ...clientData, updatedAt: d }]. *)
Definition client_with_updatedAt (v : Client.partial) (d : Z)
  : Client.partial :=
  Client.mk_partial (Client.p_id v) (Client.p_firstName v)
    (Client.p_lastName v) (Client.p_email v) (Client.p_phone v)
    (Client.p_marketType v) (Client.p_market v) (Client.p_segment v)
    (Client.p_businessType v) (Client.p_headcountName v)
    (Client.p_headcountRole v) (Client.p_headcountEmail v)
    (Client.p_if_active v) (Client.p_createdAt v) (Some d)
    (Client.p_createdBy v).

(** [{ ...interactionData, updatedAt: d }]. *)
Definition interaction_with_updatedAt (v : Interaction.partial) (d : Z)
  : Interaction.partial :=
  Interaction.mk_partial (Interaction.p_id v) (Interaction.p_clientId v)
    (Interaction.p_type v) (Interaction.p_title v)
    (Interaction.p_description v) (Interaction.p_date v)
    (Interaction.p_createdAt v) (Some d) (Interaction.p_createdBy v).

(** No property of the object is defined. *)
Definition admin_set_is_empty {A} (v : Admin.partial) (pw : option A)
  : bool :=
  match Admin.p_id v, Admin.p_username v, pw, Admin.p_fullName v,
        Admin.p_email v, Admin.p_role v, Admin.p_active v,
        Admin.p_lastLogin v, Admin.p_createdAt v with
  | None, None, None, None, None, None, None, None, None => true
  | _, _, _, _, _, _, _, _, _ => false
  end.

(** ** The constraints an update of one row can violate *)

Definition admin_update_violation (db : Db) (old new : Admin.t) : option Exn :=
  if (negb (Admin.id new =? Admin.id old) && Pg.has_admin (Admin.id new) db)%bool
  then Some (Pg.unique_violation "admins_pkey")
  else if (negb (String.eqb (Admin.username new) (Admin.username old))
           && Pg.has_username (Admin.username new) db)%bool
  then Some (Pg.unique_violation "admins_username_unique")
  else if negb (Admin.id new =? Admin.id old)
  then match Pg.admin_referenced (Admin.id old) db with
       | Some (constraint, child) =>
           Some (Pg.fk_restrict "admins" constraint child)
       | None => None
       end
  else None.

Definition client_update_violation (db : Db) (old new : Client.t)
  : option Exn :=
  if (negb (Client.id new =? Client.id old)
      && Pg.has_client (Client.id new) db)%bool
  then Some (Pg.unique_violation "clients_pkey")
  else if (negb (Pg.opt_eqb (Client.createdBy new) (Client.createdBy old))
           && negb (Pg.admin_ref_ok (Client.createdBy new) db))%bool
  then Some (Pg.fk_violation "clients" "clients_created_by_admins_id_fk")
  else if (negb (Client.id new =? Client.id old)
           && Pg.client_referenced (Client.id old) db)%bool
  then Some (Pg.fk_restrict "clients" "interactions_client_id_clients_id_fk"
                            "interactions")
  else None.

Definition interaction_update_violation (db : Db) (old new : Interaction.t)
  : option Exn :=
  if (negb (Interaction.id new =? Interaction.id old)
      && Pg.has_interaction (Interaction.id new) db)%bool
  then Some (Pg.unique_violation "interactions_pkey")
  else if (negb (Interaction.clientId new =? Interaction.clientId old)
           && negb (Pg.has_client (Interaction.clientId new) db))%bool
  then Some (Pg.fk_violation "interactions"
                             "interactions_client_id_clients_id_fk")
  else if (negb (Pg.opt_eqb (Interaction.createdBy new)
                            (Interaction.createdBy old))
           && negb (Pg.admin_ref_ok (Interaction.createdBy new) db))%bool
  then Some (Pg.fk_violation "interactions"
                             "interactions_created_by_admins_id_fk")
  else None.

(** The first violation among the rows an update writes. *)
Fixpoint first_violation {A} (check : A -> option Exn) (l : list A)
  : option Exn :=
  match l with
  | [] => None
  | r :: l' =>
      match check r with
      | Some e => Some e
      | None => first_violation check l'
      end
  end.

(** ** The parameters of the statements

    In the order of the columns; the id of the [WHERE] clause comes last. *)

Definition admin_insert_params (v : Admin.insert) : list (option Exn) :=
  [ Pg.text (Admin.i_username v); Pg.text (Admin.i_fullName v);
    Pg.text (Admin.i_email v); Pg.opt Pg.text (Admin.i_role v) ].

Definition admin_update_params (id : Z) (v : Admin.partial)
  : list (option Exn) :=
  [ Pg.opt Pg.int4 (Admin.p_id v); Pg.opt Pg.text (Admin.p_username v);
    Pg.opt Pg.text (Admin.p_fullName v); Pg.opt Pg.text (Admin.p_email v);
    Pg.opt Pg.text (Admin.p_role v); Pg.int4 id ].

Definition client_insert_params (v : Client.insert) : list (option Exn) :=
  [ Pg.text (Client.i_firstName v); Pg.text (Client.i_lastName v);
    Pg.text (Client.i_email v); Pg.text (Client.i_phone v);
    Pg.opt (Pg.opt Pg.text) (Client.i_market v);
    Pg.opt (Pg.opt Pg.text) (Client.i_headcountName v);
    Pg.opt (Pg.opt Pg.text) (Client.i_headcountRole v);
    Pg.opt (Pg.opt Pg.text) (Client.i_headcountEmail v);
    Pg.opt (Pg.opt Pg.int4) (Client.i_createdBy v) ].

Definition client_update_params (id : Z) (v : Client.partial)
  : list (option Exn) :=
  [ Pg.opt Pg.int4 (Client.p_id v); Pg.opt Pg.text (Client.p_firstName v);
    Pg.opt Pg.text (Client.p_lastName v); Pg.opt Pg.text (Client.p_email v);
    Pg.opt Pg.text (Client.p_phone v);
    Pg.opt (Pg.opt Pg.text) (Client.p_market v);
    Pg.opt (Pg.opt Pg.text) (Client.p_headcountName v);
    Pg.opt (Pg.opt Pg.text) (Client.p_headcountRole v);
    Pg.opt (Pg.opt Pg.text) (Client.p_headcountEmail v);
    Pg.opt (Pg.opt Pg.int4) (Client.p_createdBy v); Pg.int4 id ].

Definition interaction_insert_params (v : Interaction.insert)
  : list (option Exn) :=
  [ Pg.int4 (Interaction.i_clientId v); Pg.text (Interaction.i_title v);
    Pg.text (Interaction.i_description v);
    Pg.opt (Pg.opt Pg.int4) (Interaction.i_createdBy v) ].

Definition interaction_update_params (id : Z) (v : Interaction.partial)
  : list (option Exn) :=
  [ Pg.opt Pg.int4 (Interaction.p_id v);
    Pg.opt Pg.int4 (Interaction.p_clientId v);
    Pg.opt Pg.text (Interaction.p_title v);
    Pg.opt Pg.text (Interaction.p_description v);
    Pg.opt (Pg.opt Pg.int4) (Interaction.p_createdBy v); Pg.int4 id ].

(** ** [DatabaseStorage] ([server/storage.ts]) *)

Module storage.

Definition getAdmin (id : Z) : M (option Admin.t) :=
  Pg.bind_params [Pg.int4 id] ;;;
  Pg.query (fun db => head (List.filter (fun a => Admin.id a =? id) (admins db))).

Definition getAdminByUsername (username : string) : M (option Admin.t) :=
  Pg.bind_params [Pg.text username] ;;;
  Pg.query (fun db =>
    head (List.filter (fun a => String.eqb (Admin.username a) username)
                      (admins db))).

(** [const [admin] = await db.insert(admins).values(v).returning()]: the row
    inserted, [v] carrying the password text to store. *)
Definition insert_admins (v : Admin.insert) (pw : PasswordText)
  : M Admin.t :=
  Pg.bind_params (admin_insert_params v) ;;;
  id <- Pg.nextval_admins ;;
  createdAt <- now ;;
  taken <- Pg.query (Pg.has_admin id) ;;
  Pg.reject_if taken (Pg.unique_violation "admins_pkey") ;;;
  dup <- Pg.query (Pg.has_username (Admin.i_username v)) ;;
  Pg.reject_if dup (Pg.unique_violation "admins_username_unique") ;;;
  let row :=
    Admin.mk id (Admin.i_username v) pw (Admin.i_fullName v) (Admin.i_email v)
             (default "user" (Admin.i_role v))
             (default true (Admin.i_active v)) None createdAt in
  Pg.exec (fun db => with_admins (admins db ++ [row])%list db) ;;;
  ret row.

Definition createAdmin (insertAdmin : Admin.insert) : M Admin.t :=
  hashedPassword <- bcrypt_hash (Admin.i_password insertAdmin) 10 ;;
  admin <- insert_admins insertAdmin hashedPassword ;;
  ret admin.

(** The rows with the id [id] rewritten by [.set(v)], [pw] the password
    text to store, if one is. *)
Definition set_admins (id : Z) (v : Admin.partial) (pw : option PasswordText)
  : M (list Admin.t) :=
  fun db =>
    let targets := List.filter (fun a => Admin.id a =? id) (admins db) in
    match first_violation
            (fun a => admin_update_violation db a (admin_set v pw a))
            targets with
    | Some e => (Throw e, db)
    | None =>
        (Ok (map (admin_set v pw) targets),
         with_admins (Pg.update_where (fun a => Admin.id a =? id)
                                      (admin_set v pw) (admins db)) db)
    end.

(** [db.update(admins).set(v).where(eq(admins.id, id)).returning()]; the
    password handed to [.set] is a text, or [null], which the column
    refuses for every row the statement would write. *)
Definition update_admins (id : Z) (v : Admin.partial)
  (pw : option (option PasswordText)) : M (list Admin.t) :=
  Pg.reject_if (admin_set_is_empty v pw) (JsError "No values to set") ;;;
  Pg.bind_params (admin_update_params id v) ;;;
  match pw with
  | Some (Some text) => set_admins id v (Some text)
  | Some None =>
      targets <- Pg.query (fun db =>
                   List.filter (fun a => Admin.id a =? id) (admins db)) ;;
      Pg.reject_if (negb (Nat.eqb (length targets) 0))
                   (Pg.not_null_violation "admins" "password") ;;;
      ret []
  | None => set_admins id v None
  end.

(** A string is truthy unless it is empty. *)
Definition truthy (s : string) : bool :=
  match s with
  | EmptyString => false
  | String _ _ => true
  end.

(** [if (adminData.password)]: what JavaScript takes for true. *)
Definition truthy_value (v : JVal) : bool :=
  match v with
  | JNull => false
  | JBool b => b
  | JNum n => negb (n =? 0)
  | JStr s => truthy s
  end.

(** The text the driver sends for a value handed to [.set] as it came;
    [null] stays [NULL]. *)
Definition driver_text (v : JVal) : option string :=
  match v with
  | JNull => None
  | JBool true => Some "true"
  | JBool false => Some "false"
  | JNum n => Some (pretty n)
  | JStr s => Some s
  end.

(** [bcrypt.hash(data, 10)] takes a string. *)
Definition bcrypt_data_error : Exn :=
  JsError ("data must be a string or Buffer and salt must either be a salt "
           ++ "string or a number of rounds").

Definition updateAdmin (id : Z) (adminData : Admin.partial)
  : M (option Admin.t) :=
  pw <- match Admin.p_password adminData with
        | Some p =>
            if truthy_value p
            then match p with
                 | JStr s => (h <- bcrypt_hash s 10 ;; ret (Some (Some h)))
                 | _ => throw bcrypt_data_error
                 end
            else ret (Some (Plain <$> driver_text p))
        | None => ret None
        end ;;
  rows <- update_admins id adminData pw ;;
  ret (head rows).

Definition admin_name_le (a b : Admin.t) : bool :=
  String.leb (Admin.fullName a) (Admin.fullName b).

Definition listAdmins : M (list Admin.t) :=
  Pg.query (fun db => Pg.order_by admin_name_le (admins db)).

Definition validatePassword (plainPassword : string)
  (hashedPassword : PasswordText) : M bool :=
  ret (bcrypt_compare plainPassword hashedPassword).

(** The login calls it with the id of the row it has just read: the
    parameter is one the column holds. *)
Definition updateLastLogin (id : Z) : M unit :=
  d <- now ;;
  Pg.exec (fun db =>
    with_admins
      (Pg.update_where (fun a => Admin.id a =? id)
         (fun a => Admin.mk (Admin.id a) (Admin.username a) (Admin.password a)
                            (Admin.fullName a) (Admin.email a) (Admin.role a)
                            (Admin.active a) (Some d) (Admin.createdAt a))
         (admins db)) db).

Definition getClient (id : Z) : M (option Client.t) :=
  Pg.bind_params [Pg.int4 id] ;;;
  Pg.query (fun db => head (List.filter (fun c => Client.id c =? id) (clients db))).

(** [desc(clients.updatedAt)]. *)
Definition client_recent_first (a b : Client.t) : bool :=
  Client.updatedAt b <=? Client.updatedAt a.

Definition listClients (limit : option nat) : M (list Client.t) :=
  Pg.query (fun db =>
    Pg.limit (default 100%nat limit)
             (Pg.order_by client_recent_first (clients db))).

(** The condition of [searchClients] on one row. *)
Definition search_matches (query : string) (c : Client.t) : option bool :=
  let pattern := "%" ++ query ++ "%" in
  Like.any_of
    [ Like.ilike (Client.firstName c ++ " " ++ Client.lastName c) pattern;
      Like.ilike (Client.email c) pattern;
      Like.ilike (Client.phone c) pattern ].

Definition searchClients (query : string) : M (list Client.t) :=
  let pattern := "%" ++ query ++ "%" in
  Pg.bind_params [Pg.text pattern; Pg.text pattern; Pg.text pattern] ;;;
  rows <- Pg.query (fun db => Like.where_ (search_matches query) (clients db)) ;;
  match rows with
  | Some l => ret l
  | None => throw (PgError "LIKE pattern must not end with escape character")
  end.

(** [const [client] = await db.insert(clients).values(v).returning()]. *)
Definition insert_clients (v : Client.insert) : M Client.t :=
  Pg.bind_params (client_insert_params v) ;;;
  id <- Pg.nextval_clients ;;
  t <- now ;;
  taken <- Pg.query (Pg.has_client id) ;;
  Pg.reject_if taken (Pg.unique_violation "clients_pkey") ;;;
  let createdBy := default None (Client.i_createdBy v) in
  known <- Pg.query (Pg.admin_ref_ok createdBy) ;;
  Pg.reject_if (negb known)
    (Pg.fk_violation "clients" "clients_created_by_admins_id_fk") ;;;
  let row :=
    Client.mk id (Client.i_firstName v) (Client.i_lastName v)
      (Client.i_email v) (Client.i_phone v)
      (default mt_local (Client.i_marketType v))
      (default None (Client.i_market v))
      (default None (Client.i_segment v))
      (default None (Client.i_businessType v))
      (default None (Client.i_headcountName v))
      (default None (Client.i_headcountRole v))
      (default None (Client.i_headcountEmail v))
      (default (Some true) (Client.i_if_active v))
      t t createdBy in
  Pg.exec (fun db => with_clients (clients db ++ [row])%list db) ;;;
  ret row.

Definition createClient (insertClient : Client.insert) : M Client.t :=
  client <- insert_clients insertClient ;;
  ret client.

(** [db.update(clients).set(v).where(eq(clients.id, id)).returning()]. *)
Definition update_clients (id : Z) (v : Client.partial) : M (list Client.t) :=
  Pg.bind_params (client_update_params id v) ;;;
  fun db =>
    let targets := List.filter (fun c => Client.id c =? id) (clients db) in
    match first_violation
            (fun c => client_update_violation db c (client_set v c))
            targets with
    | Some e => (Throw e, db)
    | None =>
        (Ok (map (client_set v) targets),
         with_clients (Pg.update_where (fun c => Client.id c =? id)
                                       (client_set v) (clients db)) db)
    end.

Definition updateClient (id : Z) (clientData : Client.partial)
  : M (option Client.t) :=
  d <- now ;;
  rows <- update_clients id (client_with_updatedAt clientData d) ;;
  ret (head rows).

(** [db.delete(clients).where(eq(clients.id, id)).returning({id})]; the
    interactions of a deleted client go with it ([onDelete: 'cascade']),
    in the same statement. *)
Definition delete_clients (id : Z) : M (list Z) :=
  Pg.bind_params [Pg.int4 id] ;;;
  fun db =>
    let gone := List.filter (fun c => Client.id c =? id) (clients db) in
    (Ok (map Client.id gone),
     match gone with
     | [] => db
     | _ :: _ =>
         with_interactions
           (List.filter (fun x => negb (Interaction.clientId x =? id))
                        (interactions db))
           (with_clients
              (List.filter (fun c => negb (Client.id c =? id)) (clients db))
              db)
     end).

Definition deleteClient (id : Z) : M bool :=
  result <- delete_clients id ;;
  ret (Nat.ltb 0 (length result)).

Definition getInteraction (id : Z) : M (option Interaction.t) :=
  Pg.bind_params [Pg.int4 id] ;;;
  Pg.query (fun db =>
    head (List.filter (fun x => Interaction.id x =? id) (interactions db))).

(** [desc(interactions.date)]. *)
Definition interaction_latest_first (a b : Interaction.t) : bool :=
  Interaction.date b <=? Interaction.date a.

Definition listInteractionsByClient (clientId : Z) : M (list Interaction.t) :=
  Pg.bind_params [Pg.int4 clientId] ;;;
  Pg.query (fun db =>
    Pg.order_by interaction_latest_first
      (List.filter (fun x => Interaction.clientId x =? clientId)
                   (interactions db))).

(** [const [interaction] = await db.insert(interactions).values(v)
    .returning()]. *)
Definition insert_interactions (v : Interaction.insert)
  : M Interaction.t :=
  Pg.bind_params (interaction_insert_params v) ;;;
  id <- Pg.nextval_interactions ;;
  t <- now ;;
  taken <- Pg.query (Pg.has_interaction id) ;;
  Pg.reject_if taken (Pg.unique_violation "interactions_pkey") ;;;
  parent <- Pg.query (Pg.has_client (Interaction.i_clientId v)) ;;
  Pg.reject_if (negb parent)
    (Pg.fk_violation "interactions" "interactions_client_id_clients_id_fk") ;;;
  let createdBy := default None (Interaction.i_createdBy v) in
  known <- Pg.query (Pg.admin_ref_ok createdBy) ;;
  Pg.reject_if (negb known)
    (Pg.fk_violation "interactions" "interactions_created_by_admins_id_fk") ;;;
  let row :=
    Interaction.mk id (Interaction.i_clientId v) (Interaction.i_type v)
      (Interaction.i_title v) (Interaction.i_description v)
      (Interaction.i_date v) t t createdBy in
  Pg.exec (fun db => with_interactions (interactions db ++ [row])%list db) ;;;
  ret row.

Definition createInteraction (insertInteraction : Interaction.insert)
  : M Interaction.t :=
  interaction <- insert_interactions insertInteraction ;;
  ret interaction.

(** [db.update(interactions).set(v).where(eq(interactions.id, id))
    .returning()]. *)
Definition update_interactions (id : Z) (v : Interaction.partial)
  : M (list Interaction.t) :=
  Pg.bind_params (interaction_update_params id v) ;;;
  fun db =>
    let targets :=
      List.filter (fun x => Interaction.id x =? id) (interactions db) in
    match first_violation
            (fun x => interaction_update_violation db x (interaction_set v x))
            targets with
    | Some e => (Throw e, db)
    | None =>
        (Ok (map (interaction_set v) targets),
         with_interactions
           (Pg.update_where (fun x => Interaction.id x =? id)
                            (interaction_set v) (interactions db)) db)
    end.

Definition updateInteraction (id : Z) (interactionData : Interaction.partial)
  : M (option Interaction.t) :=
  d <- now ;;
  rows <- update_interactions id (interaction_with_updatedAt interactionData d) ;;
  ret (head rows).

Definition delete_interactions (id : Z) : M (list Z) :=
  Pg.bind_params [Pg.int4 id] ;;;
  fun db =>
    (Ok (map Interaction.id
             (List.filter (fun x => Interaction.id x =? id) (interactions db))),
     with_interactions
       (List.filter (fun x => negb (Interaction.id x =? id)) (interactions db))
       db).

Definition deleteInteraction (id : Z) : M bool :=
  result <- delete_interactions id ;;
  ret (Nat.ltb 0 (length result)).

(** [const [log] = await db.insert(auditLogs).values(v).returning()]. The
    handlers build the row from the session user, from the id of a row of
    the store and from texts of that row, which a statement has accepted
    before; its parameters are not looked at again. *)
Definition insert_auditLogs (v : AuditLog.insert) : M AuditLog.t :=
  id <- Pg.nextval_audit_logs ;;
  createdAt <- now ;;
  taken <- Pg.query (Pg.has_auditLog id) ;;
  Pg.reject_if taken (Pg.unique_violation "audit_logs_pkey") ;;;
  let adminId := default None (AuditLog.i_adminId v) in
  known <- Pg.query (Pg.admin_ref_ok adminId) ;;
  Pg.reject_if (negb known)
    (Pg.fk_violation "audit_logs" "audit_logs_admin_id_admins_id_fk") ;;;
  let row :=
    AuditLog.mk id adminId (AuditLog.i_entityType v) (AuditLog.i_entityId v)
                (AuditLog.i_action v) (AuditLog.i_details v) createdAt in
  Pg.exec (fun db => with_auditLogs (auditLogs db ++ [row])%list db) ;;;
  ret row.

Definition createAuditLog (insertLog : AuditLog.insert) : M AuditLog.t :=
  log <- insert_auditLogs insertLog ;;
  ret log.

(** [desc(auditLogs.createdAt)]. *)
Definition log_newest_first (a b : AuditLog.t) : bool :=
  AuditLog.createdAt b <=? AuditLog.createdAt a.

Definition listAuditLogs (limit : option nat) : M (list AuditLog.t) :=
  Pg.query (fun db =>
    Pg.limit (default 100%nat limit)
             (Pg.order_by log_newest_first (auditLogs db))).

Definition getClientAuditLogs (clientId : Z) : M (list AuditLog.t) :=
  Pg.bind_params [Pg.int4 clientId] ;;;
  Pg.query (fun db =>
    Pg.order_by log_newest_first
      (List.filter
         (fun l => (String.eqb (AuditLog.entityType l) "client"
                    && (AuditLog.entityId l =? clientId))%bool)
         (auditLogs db))).

End storage.

(** ** zod schemas ([shared/schema.ts]) *)

Module Zod.

(** The issues found, or the parsed value. *)
Definition result (A : Type) : Type := list ZodIssue + A.

Definition fmap {A B} (f : A -> B) (r : result A) : result B :=
  match r with
  | inl issues => inl issues
  | inr a => inr (f a)
  end.

(** The properties of an object are all parsed; their issues add up. *)
Definition ap {A B} (f : result (A -> B)) (x : result A) : result B :=
  match f, x with
  | inr f, inr x => inr (f x)
  | inl i, inr _ => inl i
  | inr _, inl j => inl j
  | inl i, inl j => inl (i ++ j)%list
  end.

Definition required {A} (path : string) : result A :=
  inl [mkIssue "Required" path].

Definition invalid_type {A} (expected : string) (v : JVal) (path : string)
  : result A :=
  inl [mkIssue ("Expected " ++ expected ++ ", received " ++ typeof v) path].

(** [z.string()]. *)
Definition string_ (path : string) (v : option JVal) : result string :=
  match v with
  | Some (JStr s) => inr s
  | Some v => invalid_type "string" v path
  | None => required path
  end.

(** [z.string().min(n)]; [least] spells [n]. *)
Definition string_min (n : nat) (least : string) (path : string)
  (v : option JVal) : result string :=
  match string_ path v with
  | inr s =>
      if Nat.ltb (String.length s) n
      then inl [mkIssue ("String must contain at least " ++ least
                         ++ " character(s)") path]
      else inr s
  | inl issues => inl issues
  end.

(** [z.boolean()]. *)
Definition boolean (path : string) (v : option JVal) : result bool :=
  match v with
  | Some (JBool b) => inr b
  | Some v => invalid_type "boolean" v path
  | None => required path
  end.

(** [z.number()]. *)
Definition number (path : string) (v : option JVal) : result Z :=
  match v with
  | Some (JNum n) => inr n
  | Some v => invalid_type "number" v path
  | None => required path
  end.

Definition expected_one_of {A} (values : list (string * A)) : string :=
  Str.join " | " (map (fun p => "'" ++ fst p ++ "'") values).

Fixpoint lookup_enum {A} (values : list (string * A)) (s : string)
  : option A :=
  match values with
  | [] => None
  | (name, a) :: rest => if String.eqb name s then Some a else lookup_enum rest s
  end.

(** [z.enum([...])]. *)
Definition enum {A} (values : list (string * A)) (path : string)
  (v : option JVal) : result A :=
  match v with
  | Some (JStr s) =>
      match lookup_enum values s with
      | Some a => inr a
      | None =>
          inl [mkIssue ("Invalid enum value. Expected "
                        ++ expected_one_of values ++ ", received '" ++ s ++ "'")
                       path]
      end
  | Some v => invalid_type (expected_one_of values) v path
  | None => required path
  end.

(** [schema.optional()]. *)
Definition optional {A} (schema : option JVal -> result A) (v : option JVal)
  : result (option A) :=
  match v with
  | None => inr None
  | Some _ => fmap Some (schema v)
  end.

(** [schema.nullable()]. *)
Definition nullable {A} (schema : option JVal -> result A) (v : option JVal)
  : result (option A) :=
  match v with
  | Some JNull => inr None
  | _ => fmap Some (schema v)
  end.

(** Days from 1970-01-01 to the given day of the proleptic Gregorian
    calendar. *)
Definition days_from_civil (y m d : Z) : Z :=
  let y' := if m <=? 2 then y - 1 else y in
  let era := y' / 400 in
  let yoe := y' - era * 400 in
  let doy := (153 * (if 2 <? m then m - 3 else m + 9) + 2) / 5 + d - 1 in
  let doe := yoe * 365 + yoe / 4 - yoe / 100 + doy in
  era * 146097 + doe - 719468.

Definition is_leap (y : Z) : bool :=
  ((y mod 4 =? 0) && (negb (y mod 100 =? 0) || (y mod 400 =? 0)))%bool.

Definition days_in_month (y m : Z) : Z :=
  if m =? 2 then (if is_leap y then 29 else 28)
  else if ((m =? 4) || (m =? 6) || (m =? 9) || (m =? 11))%bool then 30
  else 31.

(** [n] digits at the head of [s], and the rest. *)
Fixpoint take_digits (n : nat) (acc : Z) (s : string) : option (Z * string) :=
  match n with
  | O => Some (acc, s)
  | S n' =>
      match s with
      | String c s' =>
          if Str.is_digit c
          then take_digits n' (10 * acc + Str.digit_val c) s'
          else None
      | EmptyString => None
      end
  end.

Definition expect (c : ascii) (s : string) : option string :=
  match s with
  | String c' s' => if Ascii.eqb c c' then Some s' else None
  | EmptyString => None
  end.

(** [Date.parse] on the two forms the application produces, [YYYY-MM-DD]
    and [YYYY-MM-DDTHH:mm:ss.sssZ] (both UTC); every other string is taken
    as an invalid date. *)
Definition Date_parse (s : string) : option Z :=
  '(y, s) ← take_digits 4 0 s;
  s ← expect "-" s;
  '(m, s) ← take_digits 2 0 s;
  s ← expect "-" s;
  '(d, s) ← take_digits 2 0 s;
  if negb ((1 <=? m) && (m <=? 12) && (1 <=? d) && (d <=? days_in_month y m))
  then None
  else
    let day := days_from_civil y m d * 86400000 in
    match s with
    | EmptyString => Some day
    | _ =>
        s ← expect "T" s;
        '(hh, s) ← take_digits 2 0 s;
        s ← expect ":" s;
        '(mm, s) ← take_digits 2 0 s;
        s ← expect ":" s;
        '(ss, s) ← take_digits 2 0 s;
        s ← expect "." s;
        '(ms, s) ← take_digits 3 0 s;
        s ← expect "Z" s;
        match s with
        | EmptyString =>
            if ((hh <=? 23) && (mm <=? 59) && (ss <=? 59))%bool
            then Some (day + hh * 3600000 + mm * 60000 + ss * 1000 + ms)
            else None
        | _ => None
        end
    end.

(** The time value of [new Date(v)]; [None] is an invalid date. *)
Definition new_Date (v : option JVal) : option Z :=
  match v with
  | None => None
  | Some JNull => Some 0
  | Some (JBool b) => Some (if b then 1 else 0)
  | Some (JNum n) => if Z.abs n <=? 8640000000000000 then Some n else None
  | Some (JStr s) => Date_parse s
  end.

(** [z.coerce.date()]. *)
Definition coerce_date (path : string) (v : option JVal) : result Z :=
  match new_Date v with
  | Some t => inr t
  | None => inl [mkIssue "Invalid date" path]
  end.

(** [schema.parse(body)]: the value, or a thrown [ZodError]. *)
Definition parse {A} (schema : Json -> result A) (body : Json) : M A :=
  match schema body with
  | inr a => ret a
  | inl issues => throw (ZodError issues)
  end.

End Zod.

Notation "f <&> x" := (Zod.ap f x) (at level 50, left associativity) : crm_scope.

Definition marketTypeEnum : list (string * MarketType) :=
  [("local", mt_local); ("oversea", mt_oversea)].

Definition segmentEnum : list (string * Segment) :=
  [("FIT", seg_FIT); ("Series", seg_Series); ("Group", seg_Group);
   ("OTA", seg_OTA); ("Wellness", seg_Wellness)].

Definition businessTypeEnum : list (string * BusinessType) :=
  [("Tour Operator", bt_TourOperator); ("Travel Agent", bt_TravelAgent)].

Definition interactionTypeEnum : list (string * InteractionType) :=
  [("call", it_call); ("email", it_email); ("meeting", it_meeting);
   ("note", it_note); ("other", it_other)].

(** [createInsertSchema(admins).omit({ id, lastLogin, createdAt })]: a column
    that is [notNull] without default is required, one with a default is
    optional, one that may be null is nullable and optional. *)
Definition insertAdminSchema (body : Json) : Zod.result Admin.insert :=
  inr Admin.mk_insert
  <&> Zod.string_ "username" (body !! "username")
  <&> Zod.string_ "password" (body !! "password")
  <&> Zod.string_ "fullName" (body !! "fullName")
  <&> Zod.string_ "email" (body !! "email")
  <&> Zod.optional (Zod.string_ "role") (body !! "role")
  <&> Zod.optional (Zod.boolean "active") (body !! "active").

Definition loginSchema (body : Json) : Zod.result (string * string) :=
  inr pair
  <&> Zod.string_min 3 "3" "username" (body !! "username")
  <&> Zod.string_min 6 "6" "password" (body !! "password").

(** [createInsertSchema(clients).omit({ id, createdAt, updatedAt })]. *)
Definition insertClientSchema (body : Json) : Zod.result Client.insert :=
  inr Client.mk_insert
  <&> Zod.string_ "firstName" (body !! "firstName")
  <&> Zod.string_ "lastName" (body !! "lastName")
  <&> Zod.string_ "email" (body !! "email")
  <&> Zod.string_ "phone" (body !! "phone")
  <&> Zod.optional (Zod.enum marketTypeEnum "marketType") (body !! "marketType")
  <&> Zod.optional (Zod.nullable (Zod.string_ "market")) (body !! "market")
  <&> Zod.optional (Zod.nullable (Zod.enum segmentEnum "segment"))
                   (body !! "segment")
  <&> Zod.optional (Zod.nullable (Zod.enum businessTypeEnum "businessType"))
                   (body !! "businessType")
  <&> Zod.optional (Zod.nullable (Zod.string_ "headcountName"))
                   (body !! "headcountName")
  <&> Zod.optional (Zod.nullable (Zod.string_ "headcountRole"))
                   (body !! "headcountRole")
  <&> Zod.optional (Zod.nullable (Zod.string_ "headcountEmail"))
                   (body !! "headcountEmail")
  <&> Zod.optional (Zod.nullable (Zod.boolean "if_active")) (body !! "if_active")
  <&> Zod.optional (Zod.nullable (Zod.number "createdBy")) (body !! "createdBy").

(** [createInsertSchema(interactions).omit({ id, createdAt, updatedAt })
    .extend({ date: z.coerce.date() })]. *)
Definition insertInteractionSchema (body : Json)
  : Zod.result Interaction.insert :=
  inr Interaction.mk_insert
  <&> Zod.number "clientId" (body !! "clientId")
  <&> Zod.enum interactionTypeEnum "type" (body !! "type")
  <&> Zod.string_ "title" (body !! "title")
  <&> Zod.string_ "description" (body !! "description")
  <&> Zod.coerce_date "date" (body !! "date")
  <&> Zod.optional (Zod.nullable (Zod.number "createdBy")) (body !! "createdBy").

(** ** The HTTP handlers ([server/routes.ts]) *)

(** The passport kept in the session: [{ id, username, role }]. *)
Record User := mkUser {
  user_id : Z;
  user_username : string;
  user_role : string
}.

(** What [res.json] is given. *)
Inductive Body :=
  | BMessage (message : string)
  | BUser (user : User)
  | BAdmin (admin : Admin.public)
  | BAdmins (admins : list Admin.public)
  | BClient (client : Client.t)
  | BClients (clients : list Client.t)
  | BInteraction (interaction : Interaction.t)
  | BInteractions (interactions : list Interaction.t)
  | BAuditLogs (logs : list AuditLog.t)
  | BUndefined.

(** How a handler ends: a response, or the error handed to [next]. *)
Inductive Outcome :=
  | Respond (status : Z) (body : Body)
  | Next (error : Exn).

(** What the strategy's verify callback hands to [done]. *)
Inductive Done :=
  | DoneError (error : Exn)
  | DoneFail (message : string)
  | DoneUser (user : User).

Module routes.

(** The verify callback of the [LocalStrategy]. *)
Definition verify (username password : string) : M Done :=
  try_catch
    (admin <- storage.getAdminByUsername username ;;
     match admin with
     | None => ret (DoneFail "Invalid username or password")
     | Some admin =>
         if negb (Admin.active admin)
         then ret (DoneFail "Account is disabled")
         else
           isValidPassword <-
             storage.validatePassword password (Admin.password admin) ;;
           if negb isValidPassword
           then ret (DoneFail "Invalid username or password")
           else
             storage.updateLastLogin (Admin.id admin) ;;;
             ret (DoneUser (mkUser (Admin.id admin) (Admin.username admin)
                                   (Admin.role admin)))
     end)
    (fun error => ret (DoneError error)).

(** [requireAuth]: [req.isAuthenticated()] holds when the session restored a
    user. *)
Definition requireAuth (user : option User) (next : User -> M Outcome)
  : M Outcome :=
  match user with
  | None => ret (Respond 401 (BMessage "Unauthorized"))
  | Some u => next u
  end.

Definition requireAdmin (user : option User) (next : User -> M Outcome)
  : M Outcome :=
  match user with
  | None => ret (Respond 401 (BMessage "Unauthorized"))
  | Some u =>
      if negb (String.eqb (user_role u) "admin")
      then ret (Respond 403 (BMessage "Forbidden"))
      else next u
  end.

(** The helper [createAuditLog(req, entityType, entityId, action, details)]. *)
Definition createAuditLog (user : option User) (entityType : string)
  (entityId : Z) (action details : string) : M unit :=
  match user with
  | Some u =>
      storage.createAuditLog
        (AuditLog.mk_insert (Some (Some (user_id u))) entityType entityId
                            action details) ;;;
      ret tt
  | None => ret tt
  end.

(** [catch (error) { if (error instanceof ZodError) 400 else next(error) }]. *)
Definition zod_or_next (error : Exn) : M Outcome :=
  match error with
  | ZodError issues => ret (Respond 400 (BMessage (fromZodError issues)))
  | _ => ret (Next error)
  end.

Definition to_next (error : Exn) : M Outcome := ret (Next error).

(** [POST /api/auth/login]. *)
Definition post_login (body : Json) : M Outcome :=
  try_catch
    (credentials <- Zod.parse loginSchema body ;;
     done <- verify (fst credentials) (snd credentials) ;;
     match done with
     | DoneError err => ret (Next err)
     | DoneFail message => ret (Respond 401 (BMessage message))
     | DoneUser user => ret (Respond 200 (BUser user))
     end)
    zod_or_next.

(** [GET /api/admins]. *)
Definition get_admins (user : option User) : M Outcome :=
  requireAdmin user (fun _ =>
    try_catch
      (admins <- storage.listAdmins ;;
       ret (Respond 200 (BAdmins (map Admin.sanitize admins))))
      to_next).

(** [POST /api/admins]. *)
Definition post_admins (user : option User) (body : Json) : M Outcome :=
  requireAdmin user (fun u =>
    try_catch
      (adminData <- Zod.parse insertAdminSchema body ;;
       admin <- storage.createAdmin adminData ;;
       createAuditLog (Some u) "admin" (Admin.id admin) "create"
         ("Admin " ++ Admin.username admin ++ " created") ;;;
       ret (Respond 201 (BAdmin (Admin.sanitize admin))))
      zod_or_next).

(** [PUT /api/admins/:id]. *)
Definition put_admin (user : option User) (id : string)
  (body : Admin.partial) : M Outcome :=
  requireAdmin user (fun u =>
    try_catch
      match Str.parseInt id with
      | None => ret (Respond 400 (BMessage "Invalid ID"))
      | Some id =>
          updatedAdmin <- storage.updateAdmin id body ;;
          match updatedAdmin with
          | None => ret (Respond 404 (BMessage "Admin not found"))
          | Some updatedAdmin =>
              createAuditLog (Some u) "admin" id "update"
                ("Admin " ++ Admin.username updatedAdmin ++ " updated") ;;;
              ret (Respond 200 (BAdmin (Admin.sanitize updatedAdmin)))
          end
      end
      to_next).

(** [GET /api/clients]: an absent or empty [q] lists the clients. *)
Definition get_clients (user : option User) (q : option string) : M Outcome :=
  requireAuth user (fun _ =>
    try_catch
      (clients <- match q with
                  | Some searchQuery =>
                      if storage.truthy searchQuery
                      then storage.searchClients searchQuery
                      else storage.listClients None
                  | None => storage.listClients None
                  end ;;
       ret (Respond 200 (BClients clients)))
      to_next).

(** [GET /api/clients/:id]. *)
Definition get_client (user : option User) (id : string) : M Outcome :=
  requireAuth user (fun _ =>
    try_catch
      match Str.parseInt id with
      | None => ret (Respond 400 (BMessage "Invalid ID"))
      | Some id =>
          client <- storage.getClient id ;;
          match client with
          | None => ret (Respond 404 (BMessage "Client not found"))
          | Some client => ret (Respond 200 (BClient client))
          end
      end
      to_next).

(** [clientData.createdBy = req.user.id]. *)
Definition client_insert_by (v : Client.insert) (creator : Z) : Client.insert :=
  Client.mk_insert (Client.i_firstName v) (Client.i_lastName v)
    (Client.i_email v) (Client.i_phone v) (Client.i_marketType v)
    (Client.i_market v) (Client.i_segment v) (Client.i_businessType v)
    (Client.i_headcountName v) (Client.i_headcountRole v)
    (Client.i_headcountEmail v) (Client.i_if_active v) (Some (Some creator)).

Definition stale_schema_text : string :=
  "column " ++ Str.quoted "address" ++ " of relation " ++ Str.quoted "clients"
  ++ " does not exist".

(** The [catch] block of [POST /api/clients]. *)
Definition post_clients_catch (error : Exn) : M Outcome :=
  match error with
  | ZodError issues => ret (Respond 400 (BMessage (fromZodError issues)))
  | _ =>
      if Str.includes (exn_message error) stale_schema_text
      then ret (Respond 400 (BMessage
             "The client schema has changed. Please refresh the page and try again."))
      else ret (Respond 500 (BMessage (exn_message error)))
  end.

(** [POST /api/clients]. *)
Definition post_clients (user : option User) (body : Json) : M Outcome :=
  requireAuth user (fun u =>
    try_catch
      (clientData <- Zod.parse insertClientSchema body ;;
       let clientData := client_insert_by clientData (user_id u) in
       client <- storage.createClient clientData ;;
       createAuditLog (Some u) "client" (Client.id client) "create"
         ("Client " ++ Client.firstName client ++ " " ++ Client.lastName client
          ++ " created") ;;;
       ret (Respond 201 (BClient client)))
      post_clients_catch).

(** [res.json(updatedClient)], which may be [undefined]. *)
Definition json_client (c : option Client.t) : Body :=
  match c with
  | Some c => BClient c
  | None => BUndefined
  end.

(** [PUT /api/clients/:id]. *)
Definition put_client (user : option User) (id : string)
  (body : Client.partial) : M Outcome :=
  requireAuth user (fun u =>
    try_catch
      match Str.parseInt id with
      | None => ret (Respond 400 (BMessage "Invalid ID"))
      | Some id =>
          existingClient <- storage.getClient id ;;
          match existingClient with
          | None => ret (Respond 404 (BMessage "Client not found"))
          | Some existingClient =>
              updatedClient <- storage.updateClient id body ;;
              createAuditLog (Some u) "client" id "update"
                ("Client " ++ Client.firstName existingClient ++ " "
                 ++ Client.lastName existingClient ++ " updated") ;;;
              ret (Respond 200 (json_client updatedClient))
          end
      end
      to_next).

(** [DELETE /api/clients/:id]. *)
Definition delete_client (user : option User) (id : string) : M Outcome :=
  requireAuth user (fun u =>
    try_catch
      match Str.parseInt id with
      | None => ret (Respond 400 (BMessage "Invalid ID"))
      | Some id =>
          client <- storage.getClient id ;;
          match client with
          | None => ret (Respond 404 (BMessage "Client not found"))
          | Some client =>
              deleted <- storage.deleteClient id ;;
              if (deleted : bool)
              then
                createAuditLog (Some u) "client" id "delete"
                  ("Client " ++ Client.firstName client ++ " "
                   ++ Client.lastName client ++ " deleted") ;;;
                ret (Respond 200 (BMessage "Client deleted successfully"))
              else ret (Respond 500 (BMessage "Failed to delete client"))
          end
      end
      to_next).

(** [GET /api/clients/:clientId/interactions]. *)
Definition get_interactions (user : option User) (clientId : string)
  : M Outcome :=
  requireAuth user (fun _ =>
    try_catch
      match Str.parseInt clientId with
      | None => ret (Respond 400 (BMessage "Invalid client ID"))
      | Some clientId =>
          client <- storage.getClient clientId ;;
          match client with
          | None => ret (Respond 404 (BMessage "Client not found"))
          | Some _ =>
              interactions <- storage.listInteractionsByClient clientId ;;
              ret (Respond 200 (BInteractions interactions))
          end
      end
      to_next).

(** [POST /api/clients/:clientId/interactions]: the schema parses
    [{ ...req.body, clientId, createdBy: req.user.id }]. *)
Definition post_interactions (user : option User) (clientId : string)
  (body : Json) : M Outcome :=
  requireAuth user (fun u =>
    try_catch
      match Str.parseInt clientId with
      | None => ret (Respond 400 (BMessage "Invalid client ID"))
      | Some clientId =>
          client <- storage.getClient clientId ;;
          match client with
          | None => ret (Respond 404 (BMessage "Client not found"))
          | Some client =>
              interactionData <-
                Zod.parse insertInteractionSchema
                  (<["createdBy" := JNum (user_id u)]>
                     (<["clientId" := JNum clientId]> body)) ;;
              interaction <- storage.createInteraction interactionData ;;
              createAuditLog (Some u) "interaction" (Interaction.id interaction)
                "create"
                ("Interaction created for client " ++ Client.firstName client
                 ++ " " ++ Client.lastName client) ;;;
              ret (Respond 201 (BInteraction interaction))
          end
      end
      zod_or_next).

(** [res.json(updatedInteraction)], which may be [undefined]. *)
Definition json_interaction (x : option Interaction.t) : Body :=
  match x with
  | Some x => BInteraction x
  | None => BUndefined
  end.

(** [PUT /api/interactions/:id]. *)
Definition put_interaction (user : option User) (id : string)
  (body : Interaction.partial) : M Outcome :=
  requireAuth user (fun u =>
    try_catch
      match Str.parseInt id with
      | None => ret (Respond 400 (BMessage "Invalid ID"))
      | Some id =>
          existingInteraction <- storage.getInteraction id ;;
          match existingInteraction with
          | None => ret (Respond 404 (BMessage "Interaction not found"))
          | Some existingInteraction =>
              updatedInteraction <- storage.updateInteraction id body ;;
              createAuditLog (Some u) "interaction" id "update"
                ("Interaction " ++ Interaction.title existingInteraction
                 ++ " updated") ;;;
              ret (Respond 200 (json_interaction updatedInteraction))
          end
      end
      to_next).

(** [DELETE /api/interactions/:id]. *)
Definition delete_interaction (user : option User) (id : string) : M Outcome :=
  requireAuth user (fun u =>
    try_catch
      match Str.parseInt id with
      | None => ret (Respond 400 (BMessage "Invalid ID"))
      | Some id =>
          interaction <- storage.getInteraction id ;;
          match interaction with
          | None => ret (Respond 404 (BMessage "Interaction not found"))
          | Some interaction =>
              deleted <- storage.deleteInteraction id ;;
              if (deleted : bool)
              then
                createAuditLog (Some u) "interaction" id "delete"
                  ("Interaction " ++ Interaction.title interaction
                   ++ " deleted") ;;;
                ret (Respond 200 (BMessage "Interaction deleted successfully"))
              else ret (Respond 500 (BMessage "Failed to delete interaction"))
          end
      end
      to_next).

(** [GET /api/audit-logs]. *)
Definition get_audit_logs (user : option User) : M Outcome :=
  requireAuth user (fun _ =>
    try_catch
      (logs <- storage.listAuditLogs None ;;
       ret (Respond 200 (BAuditLogs logs)))
      to_next).

(** [GET /api/clients/:clientId/audit-logs]. *)
Definition get_client_audit_logs (user : option User) (clientId : string)
  : M Outcome :=
  requireAuth user (fun _ =>
    try_catch
      match Str.parseInt clientId with
      | None => ret (Respond 400 (BMessage "Invalid client ID"))
      | Some clientId =>
          client <- storage.getClient clientId ;;
          match client with
          | None => ret (Respond 404 (BMessage "Client not found"))
          | Some _ =>
              logs <- storage.getClientAuditLogs clientId ;;
              ret (Respond 200 (BAuditLogs logs))
          end
      end
      to_next).

Definition default_admin : Admin.insert :=
  Admin.mk_insert "admin" "admin123" "System Administrator"
                  "admin@travelcrm.com" (Some "admin") (Some true).

(** The end of [registerRoutes]: create a default admin if none exists; a
    failure is reported on the console and start-up goes on. *)
Definition seed : M unit :=
  try_catch
    (admins <- storage.listAdmins ;;
     if Nat.eqb (length admins) 0
     then storage.createAdmin default_admin ;;; ret tt
     else ret tt)
    (fun _ => ret tt).

(** [passport.serializeUser] and [passport.deserializeUser]: the session
    keeps the user object itself, and hands it back on later requests without
    reading the store. *)
Definition serializeUser (user : User) : User := user.

Definition deserializeUser (user : User) : User := user.

(** [POST /api/auth/logout]: [req.logout] removes the user from the session;
    the handler has no guard. *)
Definition post_logout (session : option User) : Outcome * option User :=
  (Respond 200 (BMessage "Logged out successfully"), None).

(** [GET /api/auth/user]. *)
Definition get_auth_user (user : option User) : Outcome :=
  match user with
  | Some u => Respond 200 (BUser u)
  | None => Respond 401 (BMessage "Not authenticated")
  end.

End routes.

(** The store after running [m]. *)
Definition run {A} (m : M A) (db : Db) : Db := snd (m db).

(** What [m] returns or throws. *)
Definition result_of {A} (m : M A) (db : Db) : Res A := fst (m db).

(** * Vocabulary of the properties, and example stores

    The predicates the theorems are stated with, and the concrete stores
    and requests they are run on. *)

(** ** Login failures (C2) *)

Definition generic_failure : Outcome :=
  Respond 401 (BMessage "Invalid username or password").

Definition disabled_failure : Outcome :=
  Respond 401 (BMessage "Account is disabled").

(** The causes of a failed login, as the store decides them. *)
Definition username_absent (db : Db) (username : string) : Prop :=
  result_of (storage.getAdminByUsername username) db = Ok None.

Definition account_inactive (db : Db) (username : string) : Prop :=
  exists a, result_of (storage.getAdminByUsername username) db = Ok (Some a)
            /\ Admin.active a = false.

Definition hash_mismatch (db : Db) (username password : string) : Prop :=
  exists a, result_of (storage.getAdminByUsername username) db = Ok (Some a)
            /\ bcrypt_compare password (Admin.password a) = false.

(** A store with one active and one disabled account. *)
Definition login_db : Db :=
  mkDb [ Admin.mk 1 "alice" (Digest 10 0 "alice-secret") "Alice A"
                  "alice@example.com" "admin" true None 0;
         Admin.mk 2 "carol" (Digest 10 1 "carol-secret") "Carol C"
                  "carol@example.com" "user" false None 1 ]
       [] [] [] 3 1 1 1 2 2.

Definition credentials (username password : string) : Json :=
  {[ "username" := JStr username; "password" := JStr password ]}.

(** ** Bootstrap seeding (C9) *)

(** The administrator the seeder inserts into the store [db]. *)
Definition seeded_admin (db : Db) : Admin.t :=
  Admin.mk (admins_id_seq db) "admin" (Digest 10 (entropy db) "admin123")
           "System Administrator" "admin@travelcrm.com" "admin" true None
           (clock db).

(** ** Deleting a client (C4) *)

(** The store after the client [id] and its interactions are gone. *)
Definition without_client (id : Z) (db : Db) : Db :=
  with_interactions
    (List.filter (fun x => negb (Interaction.clientId x =? id)) (interactions db))
    (with_clients (List.filter (fun c => negb (Client.id c =? id)) (clients db))
                  db).

(** A store with two clients; the first has two interactions. *)
Definition crm_db : Db :=
  mkDb [ Admin.mk 1 "alice" (Digest 10 0 "alice-secret") "Alice A"
                  "alice@example.com" "admin" true None 0 ]
       [ Client.mk 1 "John" "Smith" "jsmith@x.com" "555-0100" mt_local None
                   None None None None None (Some true) 1 1 (Some 1);
         Client.mk 2 "Mary" "Jones" "mary@y.org" "555-0199" mt_oversea
                   (Some "France") (Some seg_FIT) None None None None
                   (Some true) 2 2 (Some 1) ]
       [ Interaction.mk 1 1 it_call "Intro call" "First contact" 10 3 3 (Some 1);
         Interaction.mk 2 2 it_email "Offer" "Sent the offer" 11 4 4 (Some 1);
         Interaction.mk 3 1 it_note "Follow-up" "Asked for dates" 12 5 5 (Some 1) ]
       [ AuditLog.mk 1 (Some 1) "client" 1 "create" "Client John Smith created" 1;
         AuditLog.mk 2 (Some 1) "client" 2 "create" "Client Mary Jones created" 2 ]
       2 3 4 3 6 1.

(** ** The audit helper *)

(** The row the helper inserts for the user [u] in the store [db]. *)
Definition audit_row (db : Db) (u : User) (entityType : string) (entityId : Z)
  (action details : string) : AuditLog.t :=
  AuditLog.mk (audit_logs_id_seq db) (Some (user_id u)) entityType entityId
              action details (clock db).

(** The store once the insert into [audit_logs] has been tried: the sequence
    and the clock have moved on. *)
Definition audit_tried (db : Db) : Db :=
  mkDb (admins db) (clients db) (interactions db) (auditLogs db)
       (admins_id_seq db) (clients_id_seq db) (interactions_id_seq db)
       (audit_logs_id_seq db + 1) (clock db + 1) (entropy db).

Definition audit_appended (db : Db) (row : AuditLog.t) : Db :=
  with_auditLogs (auditLogs db ++ [row])%list (audit_tried db).

(** The insert is accepted: the id is free and the acting admin exists. *)
Definition audit_accepts (db : Db) (u : User) : bool :=
  (negb (Pg.has_auditLog (audit_logs_id_seq db) db)
   && Pg.has_admin (user_id u) db)%bool.

(** ** The audit trail of a client that is gone (C10) *)


Definition client_deleted : Outcome :=
  Respond 200 (BMessage "Client deleted successfully").

Definition alice : User := mkUser 1 "alice" "admin".


(** ** Stored admin passwords (C7) *)

(** The body [{ "password": "" }] of a [PUT /api/admins/:id]. *)
Definition blank_password : Admin.partial :=
  Admin.mk_partial None None (Some (JStr "")) None None None None None None.

(** ** Searching clients (C8) *)

(** The search as the specification words it: the query is a
    case-insensitive substring of the full name, of the email or of the
    phone. *)
Definition spec_search_matches (query : string) (c : Client.t) : bool :=
  (Str.includes (Str.lower (Client.firstName c ++ " " ++ Client.lastName c))
                (Str.lower query)
   || Str.includes (Str.lower (Client.email c)) (Str.lower query)
   || Str.includes (Str.lower (Client.phone c)) (Str.lower query))%bool.

(** No character of the query is special in a [LIKE] pattern. *)
Definition is_wildcard (c : ascii) : bool :=
  (Ascii.eqb c "%" || Ascii.eqb c "_" || Ascii.eqb c "\")%bool.

Fixpoint wildcard_free (q : string) : bool :=
  match q with
  | EmptyString => true
  | String c q' => (negb (is_wildcard c) && wildcard_free q')%bool
  end.

(** ** Partial updates (C6) *)





(** The tables are the same in both stores. *)
Definition same_tables (a b : Db) : Prop :=
  admins a = admins b /\ clients a = clients b
  /\ interactions a = interactions b /\ auditLogs a = auditLogs b.



(** None of the texts holds the character U+0000. *)
Definition nul_free (texts : list string) : Prop :=
  Forall (fun s => Str.has_nul s = false) texts.




(** [{ email: "x@y.com" }]. *)
Definition email_only : Client.partial :=
  Client.mk_partial None None None (Some "x@y.com") None None None None None
                    None None None None None None None.


Definition john : Client.t :=
  Client.mk 1 "John" "Smith" "jsmith@x.com" "555-0100" mt_local None None None
            None None None (Some true) 1 1 (Some 1).


(** ** Validation before persistence (C5) *)

(** *** Invalid input, in the words of the specification

    A property of a body is at fault when it is required and missing, or
    when its value is not of its kind: not of the type, or not a value of
    the enum.  The tables list the properties of the bodies that create an
    admin, a client and an interaction, as the columns of [shared/schema.ts]
    have them: required where the column is [notNull] without a default,
    nullable where it is not [notNull]. *)















(** *** How a schema compares with a table *)










(** ** The mutating handlers, step by step *)

(** A 2xx response. *)
Definition is_success (o : Outcome) : bool :=
  match o with
  | Respond status _ => ((200 <=? status) && (status <? 300))%bool
  | Next _ => false
  end.

(** ** Repository calls leave the audit table alone *)

(** From [db] to [db1] the audit table and its sequence are untouched and
    time has not gone back. *)
Definition audit_untouched (db db1 : Db) : Prop :=
  auditLogs db1 = auditLogs db
  /\ audit_logs_id_seq db1 = audit_logs_id_seq db
  /\ clock db <= clock db1.

(** ** One audit row per successful mutating request (C1) *)

(** The requests that create, update or delete an entity. *)
Inductive Mutation :=
  | CreateAdmin (body : Json)
  | UpdateAdmin (id : string) (body : Admin.partial)
  | CreateClient (body : Json)
  | UpdateClient (id : string) (body : Client.partial)
  | DeleteClient (id : string)
  | CreateInteraction (clientId : string) (body : Json)
  | UpdateInteraction (id : string) (body : Interaction.partial)
  | DeleteInteraction (id : string).

(** The handler registered for each. *)
Definition handle (user : option User) (m : Mutation) : M Outcome :=
  match m with
  | CreateAdmin body => routes.post_admins user body
  | UpdateAdmin id body => routes.put_admin user id body
  | CreateClient body => routes.post_clients user body
  | UpdateClient id body => routes.put_client user id body
  | DeleteClient id => routes.delete_client user id
  | CreateInteraction clientId body => routes.post_interactions user clientId body
  | UpdateInteraction id body => routes.put_interaction user id body
  | DeleteInteraction id => routes.delete_interaction user id
  end.

Definition entity_type_of (m : Mutation) : string :=
  match m with
  | CreateAdmin _ | UpdateAdmin _ _ => "admin"
  | CreateClient _ | UpdateClient _ _ | DeleteClient _ => "client"
  | CreateInteraction _ _ | UpdateInteraction _ _ | DeleteInteraction _ =>
      "interaction"
  end.

Definition action_of (m : Mutation) : string :=
  match m with
  | CreateAdmin _ | CreateClient _ | CreateInteraction _ _ => "create"
  | UpdateAdmin _ _ | UpdateClient _ _ | UpdateInteraction _ _ => "update"
  | DeleteClient _ | DeleteInteraction _ => "delete"
  end.

(** The id of the entity the request is about: the id in the path for an
    update or a delete, the id of the entity sent back for a create. *)
Definition entity_id_of (m : Mutation) (o : Outcome) : option Z :=
  match m, o with
  | CreateAdmin _, Respond _ (BAdmin a) => Some (Admin.pub_id a)
  | CreateClient _, Respond _ (BClient c) => Some (Client.id c)
  | CreateInteraction _ _, Respond _ (BInteraction x) => Some (Interaction.id x)
  | UpdateAdmin id _, _ | UpdateClient id _, _ | DeleteClient id, _
  | UpdateInteraction id _, _ | DeleteInteraction id, _ => Str.parseInt id
  | _, _ => None
  end.

(** [mutated u db m db1]: in the store [db] the handler of [m], run for the
    user [u], gets as far as its repository call, and the call succeeds and
    leaves the store [db1]. *)
Inductive mutated (u : User) (db : Db) : Mutation -> Db -> Prop :=
  | mutated_create_admin body v a db1 :
      user_role u = "admin" ->
      insertAdminSchema body = inr v ->
      storage.createAdmin v db = (Ok a, db1) ->
      mutated u db (CreateAdmin body) db1
  | mutated_update_admin id body i a db1 :
      user_role u = "admin" ->
      Str.parseInt id = Some i ->
      storage.updateAdmin i body db = (Ok (Some a), db1) ->
      mutated u db (UpdateAdmin id body) db1
  | mutated_create_client body v c db1 :
      insertClientSchema body = inr v ->
      storage.createClient (routes.client_insert_by v (user_id u)) db
      = (Ok c, db1) ->
      mutated u db (CreateClient body) db1
  | mutated_update_client id body i c r db1 :
      Str.parseInt id = Some i ->
      result_of (storage.getClient i) db = Ok (Some c) ->
      storage.updateClient i body db = (Ok r, db1) ->
      mutated u db (UpdateClient id body) db1
  | mutated_delete_client id i c db1 :
      Str.parseInt id = Some i ->
      result_of (storage.getClient i) db = Ok (Some c) ->
      storage.deleteClient i db = (Ok true, db1) ->
      mutated u db (DeleteClient id) db1
  | mutated_create_interaction clientId body i c v x db1 :
      Str.parseInt clientId = Some i ->
      result_of (storage.getClient i) db = Ok (Some c) ->
      insertInteractionSchema
        (<["createdBy" := JNum (user_id u)]> (<["clientId" := JNum i]> body))
      = inr v ->
      storage.createInteraction v db = (Ok x, db1) ->
      mutated u db (CreateInteraction clientId body) db1
  | mutated_update_interaction id body i x r db1 :
      Str.parseInt id = Some i ->
      result_of (storage.getInteraction i) db = Ok (Some x) ->
      storage.updateInteraction i body db = (Ok r, db1) ->
      mutated u db (UpdateInteraction id body) db1
  | mutated_delete_interaction id i x db1 :
      Str.parseInt id = Some i ->
      result_of (storage.getInteraction i) db = Ok (Some x) ->
      storage.deleteInteraction i db = (Ok true, db1) ->
      mutated u db (DeleteInteraction id) db1.

(** The request [m] of [u], answered [o], took the store from [db] to [db']
    by a successful repository call followed by the insert of exactly one
    audit row that matches the request. *)
Definition audited_once (db db' : Db) (u : User) (m : Mutation) (o : Outcome)
  : Prop :=
  exists db1 row,
    mutated u db m db1
    /\ auditLogs db1 = auditLogs db
    /\ db' = audit_appended db1 row
    /\ auditLogs db' = (auditLogs db ++ [row])%list
    /\ AuditLog.adminId row = Some (user_id u)
    /\ AuditLog.entityType row = entity_type_of m
    /\ Some (AuditLog.entityId row) = entity_id_of m o
    /\ AuditLog.action row = action_of m
    /\ AuditLog.createdAt row = clock db1
    /\ clock db <= AuditLog.createdAt row.

(** [crm_db] after alice has changed the email of client 1. *)
Definition crm_db_client_updated : Db :=
  Eval vm_compute in run (routes.put_client (Some alice) "1" email_only) crm_db.

Definition john_updated : Client.t :=
  Client.mk 1 "John" "Smith" "x@y.com" "555-0100" mt_local None None None
            None None None (Some true) 1 6 (Some 1).

(** ** When the audit insert fails (C3) *)

(** Two admins, of whom bob has not acted yet, and one client. *)
Definition team_db : Db :=
  mkDb [ Admin.mk 1 "alice" (Digest 10 0 "alice-secret") "Alice A"
                  "alice@example.com" "admin" true None 0;
         Admin.mk 2 "bob" (Digest 10 1 "bob-secret") "Bob B"
                  "bob@example.com" "user" true (Some 2) 1 ]
       [ john ] [] [] 3 2 1 1 6 2.

(** The session bob opened when his id was 2. *)
Definition bob : User := mkUser 2 "bob" "user".

(** [{ id: 5 }]. *)
Definition renumber : Admin.partial :=
  Admin.mk_partial (Some 5) None None None None None None None None.

(** [team_db] after alice has given bob's row the id 5. *)
Definition team_db_renumbered : Db :=
  Eval vm_compute in run (routes.put_admin (Some alice) "2" renumber) team_db.

(** [crm_db] restored from a dump without resetting the sequence of
    [audit_logs]: the next id it hands out is taken. *)
Definition restored_db : Db :=
  mkDb (admins crm_db) (clients crm_db) (interactions crm_db) (auditLogs crm_db)
       2 3 4 2 6 1.

Definition new_client : Json :=
  {[ "firstName" := JStr "Ann"; "lastName" := JStr "Lee";
     "email" := JStr "ann@lee.org"; "phone" := JStr "555-0123" ]}.

(** The row [POST /api/clients] inserts for [new_client] in [restored_db]. *)
Definition ann : Client.t :=
  Client.mk 3 "Ann" "Lee" "ann@lee.org" "555-0123" mt_local None None None
            None None None (Some true) 6 6 (Some 1).

(** How each handler ends when its audit insert is rejected with
    [message]: [POST /api/clients] answers 500 with the message, the others
    hand the error to [next]. *)
Definition audit_failure_outcome (m : Mutation) (message : string) : Outcome :=
  match m with
  | CreateClient _ => Respond 500 (BMessage message)
  | _ => Next (PgError message)
  end.

(** * Vocabulary of the further properties *)

(** ** Requests *)

(** The requests the handlers behind a guard, and the login, answer. *)
Inductive Request :=
  | Login (body : Json)
  | ListAdmins
  | ListClients (q : option string)
  | ReadClient (id : string)
  | ListInteractions (clientId : string)
  | ListAuditLogs
  | ListClientAuditLogs (clientId : string)
  | Mutate (m : Mutation).

(** The handler registered for each, run for the user of the session. *)
Definition serve (user : option User) (r : Request) : M Outcome :=
  match r with
  | Login body => routes.post_login body
  | ListAdmins => routes.get_admins user
  | ListClients q => routes.get_clients user q
  | ReadClient id => routes.get_client user id
  | ListInteractions clientId => routes.get_interactions user clientId
  | ListAuditLogs => routes.get_audit_logs user
  | ListClientAuditLogs clientId => routes.get_client_audit_logs user clientId
  | Mutate m => handle user m
  end.

(** Registered with [requireAuth] or [requireAdmin]. *)
Definition guarded (r : Request) : bool :=
  match r with
  | Login _ => false
  | _ => true
  end.

(** Registered with [requireAdmin]. *)
Definition admin_only (r : Request) : bool :=
  match r with
  | ListAdmins | Mutate (CreateAdmin _) | Mutate (UpdateAdmin _ _) => true
  | _ => false
  end.

(** A [GET]. *)
Definition is_read (r : Request) : bool :=
  match r with
  | Login _ | Mutate _ => false
  | _ => true
  end.

Definition unauthorized : Outcome := Respond 401 (BMessage "Unauthorized").

Definition forbidden : Outcome := Respond 403 (BMessage "Forbidden").

(** A visitor without the admin role. *)
Definition dave : User := mkUser 4 "dave" "user".

(** ** The writes of the repository *)

(** [storage_step db db']: one call of a writing method of [DatabaseStorage]
    takes the store from [db] to [db']. *)
Inductive storage_step (db : Db) : Db -> Prop :=
  | step_createAdmin v :
      storage_step db (run (storage.createAdmin v) db)
  | step_updateAdmin id v :
      storage_step db (run (storage.updateAdmin id v) db)
  | step_updateLastLogin id :
      storage_step db (run (storage.updateLastLogin id) db)
  | step_createClient v :
      storage_step db (run (storage.createClient v) db)
  | step_updateClient id v :
      storage_step db (run (storage.updateClient id v) db)
  | step_deleteClient id :
      storage_step db (run (storage.deleteClient id) db)
  | step_createInteraction v :
      storage_step db (run (storage.createInteraction v) db)
  | step_updateInteraction id v :
      storage_step db (run (storage.updateInteraction id v) db)
  | step_deleteInteraction id :
      storage_step db (run (storage.deleteInteraction id) db)
  | step_createAuditLog v :
      storage_step db (run (storage.createAuditLog v) db).

(** What the process does to the store: it seeds at start-up and serves
    requests. *)
Inductive Activity :=
  | Startup
  | Serving (user : option User) (r : Request).

Definition perform (a : Activity) : Db -> Db :=
  match a with
  | Startup => run routes.seed
  | Serving user r => run (serve user r)
  end.

(** ** Properties every activity keeps *)

(** The password column holds a digest, or the text of a value that
    JavaScript takes for false: the empty string, [0] or [false]. *)
Definition password_protected (db : Db) : Prop :=
  Forall (fun a => match Admin.password a with
                   | Digest _ _ _ => True
                   | Plain text => text = "" \/ text = "0" \/ text = "false"
                   end)
         (admins db).

(** Primary keys and the unique username: no two rows of a table share an
    id, no two admins a username. *)
Definition keys_unique (db : Db) : Prop :=
  List.NoDup (map Admin.id (admins db))
  /\ List.NoDup (map Admin.username (admins db))
  /\ List.NoDup (map Client.id (clients db))
  /\ List.NoDup (map Interaction.id (interactions db))
  /\ List.NoDup (map AuditLog.id (auditLogs db)).

(** A reference to an admin is null or the id of a row of [l]. *)
Definition known_admin (l : list Admin.t) (r : option Z) : Prop :=
  match r with
  | Some a => In a (map Admin.id l)
  | None => True
  end.

(** Foreign keys: every interaction belongs to a client of the table, and
    every [createdBy] and [adminId] is null or the id of an admin of the
    table. *)
Definition references_resolved (db : Db) : Prop :=
  Forall (fun x => In (Interaction.clientId x) (map Client.id (clients db)))
         (interactions db)
  /\ Forall (fun c => known_admin (admins db) (Client.createdBy c)) (clients db)
  /\ Forall (fun x => known_admin (admins db) (Interaction.createdBy x))
            (interactions db)
  /\ Forall (fun l => known_admin (admins db) (AuditLog.adminId l))
            (auditLogs db).

(** ** Logging in *)

(** The row [a] after a login at time [d]. *)
Definition logged_in_at (d : Z) (a : Admin.t) : Admin.t :=
  Admin.mk (Admin.id a) (Admin.username a) (Admin.password a)
           (Admin.fullName a) (Admin.email a) (Admin.role a) (Admin.active a)
           (Some d) (Admin.createdAt a).

(** What the session keeps of the row [a]. *)
Definition user_of (a : Admin.t) : User :=
  mkUser (Admin.id a) (Admin.username a) (Admin.role a).

(** The row a login as [username] is checked against. *)
Definition account (db : Db) (username : string) (a : Admin.t) : Prop :=
  result_of (storage.getAdminByUsername username) db = Ok (Some a).

(** ** Creating rows *)

(** A body that names a client and a creator of its own. *)
Definition site_visit : Json :=
  {[ "type" := JStr "meeting"; "title" := JStr "Site visit";
     "description" := JStr "Visited the hotel"; "date" := JStr "2024-05-01";
     "clientId" := JNum 2; "createdBy" := JNum 9 ]}.

(** The row [POST /api/clients/1/interactions] inserts for [site_visit] in
    [crm_db]. *)
Definition visit : Interaction.t :=
  Interaction.mk 4 1 it_meeting "Site visit" "Visited the hotel" 1714521600000
                 6 6 (Some 1).

(** ** Searching *)

(** The pattern ends in the escape character: its last backslash escapes
    nothing. *)
Fixpoint ends_in_escape (p : string) : bool :=
  match p with
  | EmptyString => false
  | String c p' =>
      if Ascii.eqb c "\" then
        match p' with
        | EmptyString => true
        | String _ p'' => ends_in_escape p''
        end
      else ends_in_escape p'
  end.

(** ** Requests addressed to a row *)

(** The [:id] or [:clientId] of a request addressed to a client. *)
Definition client_of (r : Request) : option string :=
  match r with
  | ReadClient id | ListInteractions id | ListClientAuditLogs id
  | Mutate (UpdateClient id _) | Mutate (DeleteClient id)
  | Mutate (CreateInteraction id _) => Some id
  | _ => None
  end.

(** The [:id] of a request addressed to an interaction. *)
Definition interaction_of (r : Request) : option string :=
  match r with
  | Mutate (UpdateInteraction id _) | Mutate (DeleteInteraction id) => Some id
  | _ => None
  end.

(** The [:id] of a request addressed to an admin. *)
Definition admin_of (r : Request) : option string :=
  match r with
  | Mutate (UpdateAdmin id _) => Some id
  | _ => None
  end.

(** The parameter of the path, whatever it addresses. *)
Definition path_id (r : Request) : option string :=
  match client_of r, interaction_of r with
  | Some id, _ | None, Some id => Some id
  | None, None => admin_of r
  end.

(** The row addressed is not in its table. *)
Definition row_missing (db : Db) (r : Request) (i : Z) : Prop :=
  match client_of r, interaction_of r with
  | Some _, _ => Pg.has_client i db = false
  | None, Some _ => Pg.has_interaction i db = false
  | None, None => False
  end.

(** ** Admins: names taken, and updates of nothing *)

(** A body with the username of a row of [crm_db]. *)
Definition second_alice : Json :=
  {[ "username" := JStr "alice"; "password" := JStr "another-secret";
     "fullName" := JStr "Alice B"; "email" := JStr "alice.b@example.com" ]}.

(** [{ fullName: "Nobody" }]. *)
Definition name_only : Admin.partial :=
  Admin.mk_partial None None None (Some "Nobody") None None None None None.

(** The texts an update of an admin hands to the database, the password
    apart. *)
Definition admin_texts (v : Admin.partial) : list string :=
  (option_list (Admin.p_username v) ++ option_list (Admin.p_fullName v)
   ++ option_list (Admin.p_email v) ++ option_list (Admin.p_role v))%list.

(** A password that [updateAdmin] takes: none, a string, or a value that
    JavaScript takes for false. *)
Definition password_taken (v : Admin.partial) : bool :=
  match Admin.p_password v with
  | None | Some (JStr _) => true
  | Some p => negb (storage.truthy_value p)
  end.

(** ** Sessions *)

(** The user the later requests of a session are served for: what
    [serializeUser] put into the session at the login, as [deserializeUser]
    hands it back. *)
Definition session_user (u : User) : option User :=
  Some (routes.deserializeUser (routes.serializeUser u)).

(** [{ active: false }]. *)
Definition deactivate : Admin.partial :=
  Admin.mk_partial None None None None None None (Some false) None None.

(** ** The clock *)

(** Every client was stamped before the time the clock shows next. The
    stamp of an insert is the database's, that of an update the server's:
    two clocks, so that this is a condition on them, which the requests do
    not establish. *)
Definition stamps_past (db : Db) : Prop :=
  Forall (fun c => Client.updatedAt c < clock db) (clients db).

(** [{ password: 0 }]. *)
Definition zero_password : Admin.partial :=
  Admin.mk_partial None None (Some (JNum 0)) None None None None None None.

(** [{ password: p }]. *)
Definition password_only (p : string) : Admin.partial :=
  Admin.mk_partial None None (Some (JStr p)) None None None None None None.

(** * Properties *)

(** Unfolds the monad and the statement helpers, leaving the table
    operations. *)
Ltac step_m :=
  unfold result_of, run, Pg.reject_if, Pg.bind_params, Zod.parse, Pg.query,
    Pg.exec, now, bcrypt_hash, try_catch, bind, ret, throw in *;
  cbn [fst snd] in *.

Arguments Pg.first_refused : simpl never.

(** Case analysis on the parameters of the first statement of the goal. *)
Ltac case_params :=
  match goal with
  | |- context [Pg.first_refused ?l] => destruct (Pg.first_refused l) eqn:?
  end.

(** Case analysis on the condition of the first [if] of the goal. *)
Ltac case_if :=
  match goal with
  | |- context [if ?b then _ else _] => destruct b eqn:?
  end.

(** ** Parameters of the statements *)

Lemma int4_accepted (i : Z) : Pg.in_int4 i = true -> Pg.int4 i = None.
Proof. unfold Pg.int4. now intros ->. Qed.

Lemma text_accepted (s : string) : Str.has_nul s = false -> Pg.text s = None.
Proof. unfold Pg.text. now intros ->. Qed.

Lemma int4_accepted_inv (i : Z) : Pg.int4 i = None -> Pg.in_int4 i = true.
Proof. unfold Pg.int4. now destruct (Pg.in_int4 i). Qed.

Lemma text_accepted_inv (s : string) : Pg.text s = None -> Str.has_nul s = false.
Proof. unfold Pg.text. now destruct (Str.has_nul s). Qed.

Lemma first_refused_inv (a : option Exn) (l : list (option Exn)) :
  Pg.first_refused (a :: l) = None -> a = None /\ Pg.first_refused l = None.
Proof. destruct a; [discriminate|]. now split. Qed.

Lemma bind_params_cases (params : list (option Exn)) (db : Db) :
  (Pg.first_refused params = None
   /\ Pg.bind_params params db = (Ok tt, db))
  \/ exists e, Pg.first_refused params = Some e
               /\ Pg.bind_params params db = (Throw e, db).
Proof.
  unfold Pg.bind_params. destruct (Pg.first_refused params); eauto.
Qed.

Lemma bind_int4_cases (i : Z) (db : Db) :
  (Pg.in_int4 i = true /\ Pg.bind_params [Pg.int4 i] db = (Ok tt, db))
  \/ (Pg.in_int4 i = false
      /\ Pg.bind_params [Pg.int4 i] db = (Throw (Pg.out_of_range i), db)).
Proof.
  unfold Pg.bind_params, Pg.int4. cbn.
  destruct (Pg.in_int4 i); [left|right]; now split.
Qed.

Lemma bind_int4_accepted (i : Z) (db : Db) :
  Pg.in_int4 i = true -> Pg.bind_params [Pg.int4 i] db = (Ok tt, db).
Proof. unfold Pg.bind_params, Pg.int4. cbn. now intros ->. Qed.

Lemma bind_int4_refused (i : Z) (db : Db) :
  Pg.in_int4 i = false ->
  Pg.bind_params [Pg.int4 i] db = (Throw (Pg.out_of_range i), db).
Proof. unfold Pg.bind_params, Pg.int4. cbn. now intros ->. Qed.

Lemma bind_text_accepted (s : string) (db : Db) :
  Str.has_nul s = false -> Pg.bind_params [Pg.text s] db = (Ok tt, db).
Proof. unfold Pg.bind_params, Pg.text. cbn. now intros ->. Qed.

Lemma bind_text_cases (s : string) (db : Db) :
  (Str.has_nul s = false /\ Pg.bind_params [Pg.text s] db = (Ok tt, db))
  \/ (Str.has_nul s = true
      /\ Pg.bind_params [Pg.text s] db
         = (Throw Pg.invalid_byte_sequence, db)).
Proof.
  unfold Pg.bind_params, Pg.text. cbn.
  destruct (Str.has_nul s); [right|left]; now split.
Qed.

Lemma has_nul_app (a b : string) :
  Str.has_nul (a ++ b) = (Str.has_nul a || Str.has_nul b)%bool.
Proof.
  induction a as [|c a IH]; [reflexivity|].
  change (String c a ++ b) with (String c (a ++ b)).
  cbn [Str.has_nul]. rewrite IH. now destruct (Ascii.eqb c _).
Qed.

Lemma search_params (query : string) :
  let pattern := "%" ++ query ++ "%" in
  Pg.first_refused [Pg.text pattern; Pg.text pattern; Pg.text pattern]
  = if Str.has_nul query then Some Pg.invalid_byte_sequence else None.
Proof.
  cbv zeta. unfold Pg.first_refused, Pg.text.
  rewrite !has_nul_app. cbn [Str.has_nul Ascii.eqb Bool.eqb orb].
  rewrite orb_false_r. now destruct (Str.has_nul query).
Qed.

(** ** Lookups by key *)

Lemma filter_none {A} (p : A -> bool) (l : list A) :
  existsb p l = false -> List.filter p l = [].
Proof.
  induction l as [|x l IH]; cbn; [reflexivity|].
  destruct (p x); cbn; [discriminate|exact IH].
Qed.

Lemma getClient_eq (db : Db) (id : Z) :
  storage.getClient id db = (result_of (storage.getClient id) db, db).
Proof.
  unfold storage.getClient, result_of, bind.
  now destruct (bind_int4_cases id db) as [[_ ->] | [_ ->]].
Qed.

Lemma getClient_accepted (db : Db) (id : Z) :
  Pg.in_int4 id = true ->
  storage.getClient id db
  = (Ok (head (List.filter (fun c => Client.id c =? id) (clients db))), db).
Proof.
  intros Hid. unfold storage.getClient, bind.
  now rewrite (bind_int4_accepted _ _ Hid).
Qed.

Lemma getClient_refused (db : Db) (id : Z) :
  Pg.in_int4 id = false ->
  storage.getClient id db = (Throw (Pg.out_of_range id), db).
Proof.
  intros Hid. unfold storage.getClient, bind.
  now rewrite (bind_int4_refused _ _ Hid).
Qed.

Lemma getClient_inv (db : Db) (id : Z) (o : option Client.t) :
  result_of (storage.getClient id) db = Ok o ->
  Pg.in_int4 id = true
  /\ head (List.filter (fun c => Client.id c =? id) (clients db)) = o.
Proof.
  unfold result_of. destruct (Pg.in_int4 id) eqn:Hid.
  - rewrite (getClient_accepted _ _ Hid). cbn. intros [= <-]. now split.
  - now rewrite (getClient_refused _ _ Hid).
Qed.

Lemma getClient_missing (db : Db) (i : Z) :
  Pg.in_int4 i = true ->
  Pg.has_client i db = false -> result_of (storage.getClient i) db = Ok None.
Proof.
  intros Hi H. unfold result_of. rewrite (getClient_accepted _ _ Hi).
  unfold Pg.has_client in H. now rewrite (filter_none _ _ H).
Qed.

Lemma getInteraction_eq (db : Db) (id : Z) :
  storage.getInteraction id db = (result_of (storage.getInteraction id) db, db).
Proof.
  unfold storage.getInteraction, result_of, bind.
  now destruct (bind_int4_cases id db) as [[_ ->] | [_ ->]].
Qed.

Lemma getInteraction_accepted (db : Db) (id : Z) :
  Pg.in_int4 id = true ->
  storage.getInteraction id db
  = (Ok (head (List.filter (fun x => Interaction.id x =? id)
                           (interactions db))), db).
Proof.
  intros Hid. unfold storage.getInteraction, bind.
  now rewrite (bind_int4_accepted _ _ Hid).
Qed.

Lemma getInteraction_refused (db : Db) (id : Z) :
  Pg.in_int4 id = false ->
  storage.getInteraction id db = (Throw (Pg.out_of_range id), db).
Proof.
  intros Hid. unfold storage.getInteraction, bind.
  now rewrite (bind_int4_refused _ _ Hid).
Qed.

Lemma getInteraction_inv (db : Db) (id : Z) (o : option Interaction.t) :
  result_of (storage.getInteraction id) db = Ok o ->
  Pg.in_int4 id = true
  /\ head (List.filter (fun x => Interaction.id x =? id) (interactions db))
     = o.
Proof.
  unfold result_of. destruct (Pg.in_int4 id) eqn:Hid.
  - rewrite (getInteraction_accepted _ _ Hid). cbn. intros [= <-]. now split.
  - now rewrite (getInteraction_refused _ _ Hid).
Qed.

Lemma getInteraction_missing (db : Db) (i : Z) :
  Pg.in_int4 i = true ->
  Pg.has_interaction i db = false ->
  result_of (storage.getInteraction i) db = Ok None.
Proof.
  intros Hi H. unfold result_of. rewrite (getInteraction_accepted _ _ Hi).
  unfold Pg.has_interaction in H. now rewrite (filter_none _ _ H).
Qed.

Lemma getAdminByUsername_eq (db : Db) (username : string) :
  storage.getAdminByUsername username db
  = (result_of (storage.getAdminByUsername username) db, db).
Proof.
  unfold storage.getAdminByUsername, result_of, bind.
  now destruct (bind_text_cases username db) as [[_ ->] | [_ ->]].
Qed.

Lemma getAdminByUsername_accepted (db : Db) (username : string) :
  Str.has_nul username = false ->
  storage.getAdminByUsername username db
  = (Ok (head (List.filter
                 (fun a => String.eqb (Admin.username a) username)
                 (admins db))), db).
Proof.
  intros Hu. unfold storage.getAdminByUsername, bind.
  now rewrite (bind_text_accepted _ _ Hu).
Qed.

Lemma getAdminByUsername_inv (db : Db) (username : string)
  (o : option Admin.t) :
  result_of (storage.getAdminByUsername username) db = Ok o ->
  Str.has_nul username = false
  /\ head (List.filter (fun a => String.eqb (Admin.username a) username)
                       (admins db)) = o.
Proof.
  unfold result_of. destruct (Str.has_nul username) eqn:Hu.
  - unfold storage.getAdminByUsername, bind.
    now destruct (bind_text_cases username db) as [[E _] | [_ ->]];
      [congruence|].
  - rewrite (getAdminByUsername_accepted _ _ Hu). cbn. intros [= <-].
    now split.
Qed.

(** ** Login failures (C2) *)

(** C2, counterexample: a login with an unknown username and a login to a
    disabled account both fail with status 401, but the disabled account is
    told so: the two bodies differ. *)
Lemma login_inactive_distinguishable :
  username_absent login_db "nobody"
  /\ account_inactive login_db "carol"
  /\ result_of (routes.post_login (credentials "nobody" "carol-secret")) login_db
     = Ok generic_failure
  /\ result_of (routes.post_login (credentials "carol" "carol-secret")) login_db
     = Ok disabled_failure
  /\ generic_failure <> disabled_failure.
Proof.
  repeat split.
  - eexists. split; reflexivity.
  - discriminate.
Qed.

(** C2, as the code has it: a login that passes [loginSchema] and fails
    because the username is absent, or because the password does not match
    the hash of an active account, is answered 401 with the one message
    "Invalid username or password"; a login to an inactive account is
    answered 401 "Account is disabled", whatever the password.  The store
    is left as it was. *)
Theorem login_failure_responses (db : Db) (body : Json)
  (username password : string) :
  loginSchema body = inr (username, password) ->
  (username_absent db username
   \/ (hash_mismatch db username password /\ ~ account_inactive db username)
   -> routes.post_login body db = (Ok generic_failure, db))
  /\ (account_inactive db username
      -> routes.post_login body db = (Ok disabled_failure, db)).
Proof.
  intros Hschema.
  unfold username_absent, account_inactive, hash_mismatch.
  unfold routes.post_login, routes.verify, storage.validatePassword.
  step_m. rewrite Hschema. cbn [fst snd].
  unfold storage.getAdminByUsername. step_m.
  case_params; cbn [fst snd] in *.
  { split; [intros [|[[? []]]]|intros [? []]]; discriminate. }
  destruct (head _) as [a|] eqn:Hfind.
  - split.
    + intros [Habs | [[a' [Ha' Hcmp]] Hact]]; [discriminate|].
      injection Ha' as <-.
      destruct (Admin.active a) eqn:Hactive; cbn.
      * rewrite Hcmp. reflexivity.
      * exfalso. apply Hact. eauto.
    + intros [a' [Ha' Hinactive]]. injection Ha' as <-.
      rewrite Hinactive. reflexivity.
  - split.
    + reflexivity.
    + intros [a' [Ha' _]]. discriminate.
Qed.

Lemma login_failure_responses_witness :
  routes.post_login (credentials "nobody" "carol-secret") login_db
  = (Ok generic_failure, login_db)
  /\ routes.post_login (credentials "alice" "not-her-secret") login_db
     = (Ok generic_failure, login_db)
  /\ routes.post_login (credentials "carol" "whatever") login_db
     = (Ok disabled_failure, login_db).
Proof.
  split; [|split].
  - apply (login_failure_responses login_db _ "nobody" "carol-secret");
      [reflexivity|]. left. reflexivity.
  - apply (login_failure_responses login_db _ "alice" "not-her-secret");
      [reflexivity|]. right. split.
    + eexists. split; reflexivity.
    + intros [a [Ha Hi]]. vm_compute in Ha. injection Ha as <-. discriminate.
  - apply (login_failure_responses login_db _ "carol" "whatever");
      [reflexivity|]. eexists. split; reflexivity.
Defined.

(** ** Sorting keeps the rows *)

Lemma insert_by_length {A} (le : A -> A -> bool) (x : A) (l : list A) :
  length (Pg.insert_by le x l) = S (length l).
Proof.
  induction l as [|y l IH]; cbn; [reflexivity|].
  destruct (le x y); cbn; [reflexivity|]. now rewrite IH.
Qed.

Lemma order_by_length {A} (le : A -> A -> bool) (l : list A) :
  length (Pg.order_by le l) = length l.
Proof.
  unfold Pg.order_by.
  induction l as [|x l IH]; cbn; [reflexivity|].
  now rewrite insert_by_length, IH.
Qed.


(** ** Bootstrap seeding (C9) *)

Lemma seed_on_empty (db : Db) :
  admins db = [] ->
  admins (run routes.seed db) = [seeded_admin db]
  /\ clients (run routes.seed db) = clients db
  /\ interactions (run routes.seed db) = interactions db
  /\ auditLogs (run routes.seed db) = auditLogs db.
Proof.
  intros Hempty.
  unfold routes.seed, storage.listAdmins, storage.createAdmin,
    storage.insert_admins.
  step_m. unfold Pg.nextval_admins, Pg.has_admin, Pg.has_username.
  cbn [admins]. rewrite Hempty. cbn. rewrite Hempty. repeat split.
Qed.

Lemma seed_on_seeded (db : Db) :
  admins db <> [] -> run routes.seed db = db.
Proof.
  intros Hsome.
  unfold routes.seed, storage.listAdmins. step_m.
  destruct (Nat.eqb_spec (length (Pg.order_by storage.admin_name_le (admins db))) 0)
    as [Hlen|Hlen]; [|reflexivity].
  rewrite order_by_length in Hlen. destruct (admins db); [congruence|discriminate].
Qed.

(** C9: on a store without admins the seeder inserts exactly one admin, with
    role [admin] (and writes no other table); on a store that has an admin
    it changes nothing; so seeding twice is seeding once. *)
Theorem seed_once (db : Db) :
  (admins db = [] ->
   exists a, admins (run routes.seed db) = [a] /\ Admin.role a = "admin")
  /\ (admins db <> [] -> run routes.seed db = db)
  /\ run routes.seed (run routes.seed db) = run routes.seed db.
Proof.
  split; [|split].
  - intros Hempty. exists (seeded_admin db).
    split; [apply (seed_on_empty db Hempty)|reflexivity].
  - apply seed_on_seeded.
  - destruct (admins db) as [|a l] eqn:Hadmins.
    + apply seed_on_seeded.
      destruct (seed_on_empty db Hadmins) as [-> _]. discriminate.
    + rewrite (seed_on_seeded db); [|rewrite Hadmins; discriminate].
      apply seed_on_seeded. rewrite Hadmins. discriminate.
Qed.

Lemma seed_once_witness :
  (exists a, admins (run routes.seed empty_db) = [a] /\ Admin.role a = "admin")
  /\ run routes.seed login_db = login_db
  /\ run routes.seed (run routes.seed empty_db) = run routes.seed empty_db.
Proof.
  split; [|split].
  - apply (proj1 (seed_once empty_db)). reflexivity.
  - apply (proj1 (proj2 (seed_once login_db))). discriminate.
  - apply (proj2 (proj2 (seed_once empty_db))).
Defined.

(** ** Deleting a client (C4) *)

Lemma filter_out_then_in {A} (p : A -> bool) (l : list A) :
  List.filter p (List.filter (fun x => negb (p x)) l) = [].
Proof.
  induction l as [|x l IH]; cbn; [reflexivity|].
  destruct (p x) eqn:Hp; cbn; [assumption|].
  now rewrite Hp.
Qed.

Lemma getClient_found (db : Db) (id : Z) (c : Client.t) :
  result_of (storage.getClient id) db = Ok (Some c) ->
  exists rest, List.filter (fun c => Client.id c =? id) (clients db) = c :: rest.
Proof.
  intros H. apply getClient_inv in H as [_ H].
  destruct (List.filter _ _) as [|c' rest]; [discriminate|].
  injection H as <-. now exists rest.
Qed.

Lemma deleteClient_existing (db : Db) (id : Z) (c : Client.t) :
  result_of (storage.getClient id) db = Ok (Some c) ->
  storage.deleteClient id db = (Ok true, without_client id db).
Proof.
  intros H. destruct (getClient_found db id c H) as [rest Hf].
  apply getClient_inv in H as [Hid _].
  unfold storage.deleteClient, storage.delete_clients, bind.
  rewrite (bind_int4_accepted _ _ Hid), Hf. reflexivity.
Qed.

Lemma deleteClient_missing (db : Db) (id : Z) :
  result_of (storage.getClient id) db = Ok None ->
  storage.deleteClient id db = (Ok false, db).
Proof.
  intros H. apply getClient_inv in H as [Hid H].
  unfold storage.deleteClient, storage.delete_clients, bind.
  rewrite (bind_int4_accepted _ _ Hid).
  destruct (List.filter _ _) as [|c' rest]; [reflexivity|discriminate].
Qed.

Lemma without_client_getClient (db : Db) (id : Z) :
  Pg.in_int4 id = true ->
  result_of (storage.getClient id) (without_client id db) = Ok None.
Proof.
  intros Hid. unfold result_of. rewrite (getClient_accepted _ _ Hid).
  unfold without_client. cbn.
  now rewrite (filter_out_then_in (fun c => Client.id c =? id)).
Qed.

Lemma without_client_interactions (db : Db) (id : Z) :
  Pg.in_int4 id = true ->
  result_of (storage.listInteractionsByClient id) (without_client id db) = Ok [].
Proof.
  intros Hid.
  unfold storage.listInteractionsByClient, without_client, result_of, bind.
  rewrite (bind_int4_accepted _ _ Hid). cbn.
  now rewrite (filter_out_then_in (fun x => Interaction.clientId x =? id)).
Qed.

(** C4: for a client that exists, [deleteClient] returns [true] and in the
    one store it leaves behind the client row and every interaction that
    referred to it are gone, all other rows are kept; then
    [listInteractionsByClient] returns the empty list and [getClient]
    finds nothing. *)
Theorem deleteClient_cascade (db : Db) (id : Z) (c : Client.t) :
  result_of (storage.getClient id) db = Ok (Some c) ->
  exists db',
    storage.deleteClient id db = (Ok true, db')
    /\ (forall c', In c' (clients db') <-> In c' (clients db) /\ Client.id c' <> id)
    /\ (forall x, In x (interactions db')
                  <-> In x (interactions db) /\ Interaction.clientId x <> id)
    /\ admins db' = admins db
    /\ auditLogs db' = auditLogs db
    /\ result_of (storage.listInteractionsByClient id) db' = Ok []
    /\ result_of (storage.getClient id) db' = Ok None.
Proof.
  intros H. exists (without_client id db).
  split; [apply (deleteClient_existing db id c H)|].
  split; [|split; [|split; [reflexivity|split; [reflexivity|split]]]].
  - intros c'. cbn. rewrite filter_In, negb_true_iff, Z.eqb_neq. reflexivity.
  - intros x. cbn. rewrite filter_In, negb_true_iff, Z.eqb_neq. reflexivity.
  - apply without_client_interactions. now apply getClient_inv in H.
  - apply without_client_getClient. now apply getClient_inv in H.
Qed.

Lemma deleteClient_cascade_witness :
  exists db',
    storage.deleteClient 1 crm_db = (Ok true, db')
    /\ (forall c', In c' (clients db') <-> In c' (clients crm_db) /\ Client.id c' <> 1)
    /\ (forall x, In x (interactions db')
                  <-> In x (interactions crm_db) /\ Interaction.clientId x <> 1)
    /\ admins db' = admins crm_db
    /\ auditLogs db' = auditLogs crm_db
    /\ result_of (storage.listInteractionsByClient 1) db' = Ok []
    /\ result_of (storage.getClient 1) db' = Ok None.
Proof.
  eapply (deleteClient_cascade crm_db 1). reflexivity.
Defined.

(** ** The audit helper *)

Lemma createAuditLog_accepted (db : Db) (u : User) (entityType : string)
  (entityId : Z) (action details : string) :
  audit_accepts db u = true ->
  routes.createAuditLog (Some u) entityType entityId action details db
  = (Ok tt, audit_appended db (audit_row db u entityType entityId action details)).
Proof.
  unfold audit_accepts. rewrite andb_true_iff, negb_true_iff. intros [Hid Hadmin].
  unfold routes.createAuditLog, storage.createAuditLog, storage.insert_auditLogs.
  step_m. unfold Pg.nextval_audit_logs, Pg.has_auditLog, Pg.admin_ref_ok,
    Pg.has_admin in *. cbn.
  rewrite Hid. cbn. rewrite Hadmin. reflexivity.
Qed.

Lemma createAuditLog_rejected (db : Db) (u : User) (entityType : string)
  (entityId : Z) (action details : string) :
  audit_accepts db u = false ->
  exists m,
    routes.createAuditLog (Some u) entityType entityId action details db
    = (Throw (PgError m), audit_tried db)
    /\ Str.includes m routes.stale_schema_text = false.
Proof.
  unfold audit_accepts. intros H.
  unfold routes.createAuditLog, storage.createAuditLog, storage.insert_auditLogs.
  step_m. unfold Pg.nextval_audit_logs, Pg.has_auditLog, Pg.admin_ref_ok,
    Pg.has_admin in *. cbn.
  destruct (existsb _ (auditLogs db)); cbn in *.
  - eexists. split; reflexivity.
  - rewrite H. cbn. eexists. split; reflexivity.
Qed.


(** ** The audit trail of a client that is gone (C10) *)






(** ** Stored admin passwords (C7) *)

(** [createAdmin] stores the digest of the password it is given. *)
Lemma createAdmin_stores_digest (db db' : Db) (v : Admin.insert) (a : Admin.t) :
  storage.createAdmin v db = (Ok a, db') ->
  Admin.password a = Digest 10 (entropy db) (Admin.i_password v)
  /\ admins db' = (admins db ++ [a])%list.
Proof.
  unfold storage.createAdmin, storage.insert_admins. step_m.
  case_params; [discriminate|].
  unfold Pg.nextval_admins. cbn.
  case_if; [discriminate|]. case_if; [discriminate|].
  intros H. injection H as <- <-. split; reflexivity.
Qed.

(** [updateAdmin] with a non-empty password stores its digest in every row
    it writes. *)
Lemma updateAdmin_stores_digest (db db' : Db) (id : Z) (v : Admin.partial)
  (plaintext : string) (a : Admin.t) :
  Admin.p_password v = Some (JStr plaintext) ->
  storage.truthy plaintext = true ->
  storage.updateAdmin id v db = (Ok (Some a), db') ->
  Admin.password a = Digest 10 (entropy db) plaintext /\ In a (admins db').
Proof.
  intros Hpw Htruthy.
  unfold storage.updateAdmin, storage.update_admins, storage.set_admins.
  step_m. rewrite Hpw. cbn [storage.truthy_value]. rewrite Htruthy. cbn.
  case_if; [discriminate|]. cbn.
  case_params; [discriminate|]. cbn.
  destruct (first_violation _ _); [discriminate|].
  destruct (List.filter _ _) as [|r rest] eqn:Hf; [discriminate|].
  cbn. intros H. injection H as <- <-. split; [reflexivity|].
  unfold Pg.update_where. apply in_map_iff. exists r.
  assert (Hin : In r (List.filter (fun a => Admin.id a =? id) (admins db)))
    by (rewrite Hf; left; reflexivity).
  apply filter_In in Hin. destruct Hin as [Hin Hid]. cbn beta in Hid.
  rewrite Hid. split; [reflexivity|assumption].
Qed.

(** C7, the failing input: [updateAdmin(1, { password: "" })] skips the
    hash, because the empty string is falsy, and writes the text it was
    given over the digest that was stored; the handler answers 200. *)
Theorem updateAdmin_blank_password_unhashed :
  (Admin.password <$> admins crm_db) = [Digest 10 0 "alice-secret"]
  /\ (Admin.password <$> admins (run (storage.updateAdmin 1 blank_password) crm_db))
     = [Plain ""]
  /\ (Admin.password
        <$> admins (run (routes.put_admin (Some alice) "1" blank_password) crm_db))
     = [Plain ""]
  /\ exists a, result_of (routes.put_admin (Some alice) "1" blank_password) crm_db
               = Ok (Respond 200 (BAdmin a)).
Proof.
  split; [reflexivity|]. split; [reflexivity|]. split; [reflexivity|].
  eexists. reflexivity.
Qed.

(** ** Searching clients (C8) *)

Lemma like_percent_all (s : string) : Like.like "%" s = Some true.
Proof. induction s as [|c s IH]; [reflexivity|]. cbn in *. exact IH. Qed.

Lemma like_literal_prefix (q s : string) :
  wildcard_free q = true ->
  Like.like (q ++ "%") s = Some (Str.starts_with q s).
Proof.
  revert s. induction q as [|c q IH]; intros s Hfree.
  - apply like_percent_all.
  - cbn in Hfree. apply andb_true_iff in Hfree. destruct Hfree as [Hc Hq].
    unfold is_wildcard in Hc. rewrite negb_true_iff in Hc.
    apply orb_false_iff in Hc. destruct Hc as [Hc Hbs].
    apply orb_false_iff in Hc. destruct Hc as [Hpc Hus].
    change (String c q ++ "%") with (String c (q ++ "%")).
    cbn [Like.like Str.starts_with].
    rewrite Hpc, Hus, Hbs.
    destruct s as [|e s]; [reflexivity|].
    destruct (Ascii.eqb c e); [apply IH; assumption|reflexivity].
Qed.

Lemma like_contains (q s : string) :
  wildcard_free q = true ->
  Like.like ("%" ++ q ++ "%") s = Some (Str.includes s q).
Proof.
  intros Hfree.
  change (Like.like ("%" ++ q ++ "%") s)
    with ((fix any (s : string) : option bool :=
             match Like.like (q ++ "%") s with
             | Some false =>
                 match s with
                 | EmptyString => Some false
                 | String _ s' => any s'
                 end
             | r => r
             end) s).
  induction s as [|e s IH].
  - rewrite (like_literal_prefix q "" Hfree). cbn.
    destruct (Str.starts_with q ""); reflexivity.
  - rewrite (like_literal_prefix q (String e s) Hfree).
    cbn [Str.includes].
    destruct (Str.starts_with q (String e s)); [reflexivity|exact IH].
Qed.

Lemma lower_app (a b : string) :
  Str.lower (a ++ b) = Str.lower a ++ Str.lower b.
Proof.
  induction a as [|c a IH]; [reflexivity|].
  change (String c a ++ b) with (String c (a ++ b)).
  cbn [Str.lower]. now rewrite IH.
Qed.

Lemma lower_char_wildcard (c : ascii) :
  is_wildcard (Str.lower_char c) = is_wildcard c.
Proof.
  destruct c as [[] [] [] [] [] [] [] []]; reflexivity.
Qed.

Lemma lower_wildcard_free (q : string) :
  wildcard_free (Str.lower q) = wildcard_free q.
Proof.
  induction q as [|c q IH]; cbn; [reflexivity|].
  now rewrite lower_char_wildcard, IH.
Qed.

Lemma ilike_contains (text q : string) :
  wildcard_free q = true ->
  Like.ilike text ("%" ++ q ++ "%")
  = Some (Str.includes (Str.lower text) (Str.lower q)).
Proof.
  intros Hfree. unfold Like.ilike.
  rewrite !lower_app. change (Str.lower "%") with "%".
  apply like_contains. now rewrite lower_wildcard_free.
Qed.

Lemma where_total {A} (cond : A -> option bool) (f : A -> bool) (l : list A) :
  (forall r, cond r = Some (f r)) ->
  Like.where_ cond l = Some (List.filter f l).
Proof.
  intros H. induction l as [|r l IH]; cbn; [reflexivity|].
  rewrite H, IH. reflexivity.
Qed.

(** On a query without [%], [_], backslash and U+0000 the code returns what the
    specification asks for, in the order of the table. *)
Lemma searchClients_literal (db : Db) (query : string) :
  Str.has_nul query = false ->
  wildcard_free query = true ->
  storage.searchClients query db
  = (Ok (List.filter (spec_search_matches query) (clients db)), db).
Proof.
  intros Hnul Hfree. unfold storage.searchClients. step_m.
  rewrite search_params, Hnul.
  rewrite (where_total _ (spec_search_matches query)); [reflexivity|].
  intros c. unfold storage.search_matches, spec_search_matches.
  rewrite !ilike_contains by assumption. cbn.
  repeat case_if; reflexivity.
Qed.

(** C8, the failing input: the query "_" occurs in no name, email or phone
    of [crm_db], so the specification asks for no client; the code hands
    the query to [ILIKE] as a pattern, where [_] stands for any character,
    and returns every client. *)
Theorem searchClients_underscore :
  List.filter (spec_search_matches "_") (clients crm_db) = []
  /\ result_of (storage.searchClients "_") crm_db = Ok (clients crm_db)
  /\ exists l, result_of (routes.get_clients (Some alice) (Some "_")) crm_db
               = Ok (Respond 200 (BClients l)) /\ length l = 2%nat.
Proof.
  split; [reflexivity|]. split; [reflexivity|].
  eexists. split; reflexivity.
Qed.

(** ** Partial updates (C6) *)









(** *** The parameters of an update *)

Lemma first_refused_cons (a : option Exn) (l : list (option Exn)) :
  a = None -> Pg.first_refused (a :: l) = Pg.first_refused l.
Proof. now intros ->. Qed.

Lemma opt_text_accepted (o : option string) :
  nul_free (option_list o) -> Pg.opt Pg.text o = None.
Proof.
  destruct o as [t|]; [|reflexivity]. intros H.
  apply List.Forall_inv in H. now apply text_accepted.
Qed.












(** ** Validation before persistence (C5) *)





















(** ** The mutating handlers, step by step *)

(** Ends a branch in which the handler did not answer 2xx. *)
Ltac not_success :=
  let H := fresh in
  let Hs := fresh in
  intros H Hs; injection H as <- <-; discriminate Hs.

(** Splits on whether the audit insert is accepted in the store [db1]. *)
Ltac audit_cases db1 u Hacc :=
  destruct (audit_accepts db1 u) eqn:Hacc;
  [ rewrite createAuditLog_accepted by assumption
  | let m := fresh "m" in
    let E := fresh "E" in
    match goal with
    | |- context [routes.createAuditLog (Some u) ?et ?id ?a ?d db1] =>
        destruct (createAuditLog_rejected db1 u et id a d Hacc) as [m [E _]];
        rewrite E
    end ].

Lemma post_clients_success (db db' : Db) (u : User) (body : Json)
  (o : Outcome) :
  routes.post_clients (Some u) body db = (Ok o, db') ->
  is_success o = true ->
  exists v c db1,
    insertClientSchema body = inr v
    /\ storage.createClient (routes.client_insert_by v (user_id u)) db
       = (Ok c, db1)
    /\ audit_accepts db1 u = true
    /\ db' = audit_appended db1
               (audit_row db1 u "client" (Client.id c) "create"
                  ("Client " ++ Client.firstName c ++ " " ++ Client.lastName c
                   ++ " created"))
    /\ o = Respond 201 (BClient c).
Proof.
  unfold routes.post_clients, routes.requireAuth, try_catch, bind, Zod.parse.
  destruct (insertClientSchema body) as [issues|v]; [not_success|].
  cbv beta iota delta [ret].
  destruct (storage.createClient _ db) as [[c|e] db1] eqn:Hcreate.
  - audit_cases db1 u Hacc.
    + intros H _. injection H as <- <-. exists v, c, db1. repeat split; try assumption.
    + unfold routes.post_clients_catch. cbn [exn_message].
      case_if; not_success.
  - unfold routes.post_clients_catch. destruct e; try case_if; not_success.
Qed.

Lemma put_client_success (db db' : Db) (u : User) (id : string)
  (body : Client.partial) (o : Outcome) :
  routes.put_client (Some u) id body db = (Ok o, db') ->
  is_success o = true ->
  exists i c r db1,
    Str.parseInt id = Some i
    /\ result_of (storage.getClient i) db = Ok (Some c)
    /\ storage.updateClient i body db = (Ok r, db1)
    /\ audit_accepts db1 u = true
    /\ db' = audit_appended db1
               (audit_row db1 u "client" i "update"
                  ("Client " ++ Client.firstName c ++ " " ++ Client.lastName c
                   ++ " updated"))
    /\ o = Respond 200 (routes.json_client r).
Proof.
  unfold routes.put_client, routes.requireAuth, try_catch, bind.
  destruct (Str.parseInt id) as [i|]; [|not_success].
  rewrite getClient_eq.
  destruct (result_of (storage.getClient i) db) as [[c|]|e] eqn:Hget;
    try not_success.
  destruct (storage.updateClient i body db) as [[r|e] db1] eqn:Hupd;
    [|not_success].
  audit_cases db1 u Hacc; [|not_success].
  intros H _. injection H as <- <-. exists i, c, r, db1. repeat split; try assumption.
Qed.

Lemma post_interactions_success (db db' : Db) (u : User) (clientId : string)
  (body : Json) (o : Outcome) :
  routes.post_interactions (Some u) clientId body db = (Ok o, db') ->
  is_success o = true ->
  exists i c v x db1,
    Str.parseInt clientId = Some i
    /\ result_of (storage.getClient i) db = Ok (Some c)
    /\ insertInteractionSchema
         (<["createdBy" := JNum (user_id u)]> (<["clientId" := JNum i]> body))
       = inr v
    /\ storage.createInteraction v db = (Ok x, db1)
    /\ audit_accepts db1 u = true
    /\ db' = audit_appended db1
               (audit_row db1 u "interaction" (Interaction.id x) "create"
                  ("Interaction created for client " ++ Client.firstName c
                   ++ " " ++ Client.lastName c))
    /\ o = Respond 201 (BInteraction x).
Proof.
  unfold routes.post_interactions, routes.requireAuth, try_catch, bind,
    Zod.parse.
  destruct (Str.parseInt clientId) as [i|]; [|not_success].
  rewrite getClient_eq.
  destruct (result_of (storage.getClient i) db) as [[c|]|e] eqn:Hget;
    try not_success; [|destruct e; not_success].
  destruct (insertInteractionSchema _) as [issues|v] eqn:Hschema;
    [not_success|].
  cbv beta iota delta [ret].
  destruct (storage.createInteraction v db) as [[x|e] db1] eqn:Hcreate;
    [|destruct e; not_success].
  audit_cases db1 u Hacc; [|not_success].
  intros H _. injection H as <- <-. exists i, c, v, x, db1. repeat split; try assumption.
Qed.

Lemma put_interaction_success (db db' : Db) (u : User) (id : string)
  (body : Interaction.partial) (o : Outcome) :
  routes.put_interaction (Some u) id body db = (Ok o, db') ->
  is_success o = true ->
  exists i x r db1,
    Str.parseInt id = Some i
    /\ result_of (storage.getInteraction i) db = Ok (Some x)
    /\ storage.updateInteraction i body db = (Ok r, db1)
    /\ audit_accepts db1 u = true
    /\ db' = audit_appended db1
               (audit_row db1 u "interaction" i "update"
                  ("Interaction " ++ Interaction.title x ++ " updated"))
    /\ o = Respond 200 (routes.json_interaction r).
Proof.
  unfold routes.put_interaction, routes.requireAuth, try_catch, bind.
  destruct (Str.parseInt id) as [i|]; [|not_success].
  rewrite getInteraction_eq.
  destruct (result_of (storage.getInteraction i) db) as [[x|]|e] eqn:Hget;
    try not_success.
  destruct (storage.updateInteraction i body db) as [[r|e] db1] eqn:Hupd;
    [|not_success].
  audit_cases db1 u Hacc; [|not_success].
  intros H _. injection H as <- <-. exists i, x, r, db1. repeat split; try assumption.
Qed.

Lemma delete_interaction_success (db db' : Db) (u : User) (id : string)
  (o : Outcome) :
  routes.delete_interaction (Some u) id db = (Ok o, db') ->
  is_success o = true ->
  exists i x db1,
    Str.parseInt id = Some i
    /\ result_of (storage.getInteraction i) db = Ok (Some x)
    /\ storage.deleteInteraction i db = (Ok true, db1)
    /\ audit_accepts db1 u = true
    /\ db' = audit_appended db1
               (audit_row db1 u "interaction" i "delete"
                  ("Interaction " ++ Interaction.title x ++ " deleted"))
    /\ o = Respond 200 (BMessage "Interaction deleted successfully").
Proof.
  unfold routes.delete_interaction, routes.requireAuth, try_catch, bind.
  destruct (Str.parseInt id) as [i|]; [|not_success].
  rewrite getInteraction_eq.
  destruct (result_of (storage.getInteraction i) db) as [[x|]|e] eqn:Hget;
    try not_success.
  destruct (storage.deleteInteraction i db) as [[[]|e] db1] eqn:Hdel;
    try not_success.
  audit_cases db1 u Hacc; [|not_success].
  intros H _. injection H as <- <-. exists i, x, db1. repeat split; try assumption.
Qed.

Lemma post_admins_success (db db' : Db) (u : User) (body : Json)
  (o : Outcome) :
  routes.post_admins (Some u) body db = (Ok o, db') ->
  is_success o = true ->
  exists v a db1,
    user_role u = "admin"
    /\ insertAdminSchema body = inr v
    /\ storage.createAdmin v db = (Ok a, db1)
    /\ audit_accepts db1 u = true
    /\ db' = audit_appended db1
               (audit_row db1 u "admin" (Admin.id a) "create"
                  ("Admin " ++ Admin.username a ++ " created"))
    /\ o = Respond 201 (BAdmin (Admin.sanitize a)).
Proof.
  unfold routes.post_admins, routes.requireAdmin, try_catch, bind, Zod.parse.
  destruct (String.eqb_spec (user_role u) "admin") as [Hrole|Hrole];
    [|not_success].
  cbv beta iota delta [negb].
  destruct (insertAdminSchema body) as [issues|v]; [not_success|].
  cbv beta iota delta [ret].
  destruct (storage.createAdmin v db) as [[a|e] db1] eqn:Hcreate;
    [|destruct e; not_success].
  audit_cases db1 u Hacc; [|not_success].
  intros H _. injection H as <- <-. exists v, a, db1.
  repeat split; try assumption.
Qed.

Lemma put_admin_success (db db' : Db) (u : User) (id : string)
  (body : Admin.partial) (o : Outcome) :
  routes.put_admin (Some u) id body db = (Ok o, db') ->
  is_success o = true ->
  exists i a db1,
    user_role u = "admin"
    /\ Str.parseInt id = Some i
    /\ storage.updateAdmin i body db = (Ok (Some a), db1)
    /\ audit_accepts db1 u = true
    /\ db' = audit_appended db1
               (audit_row db1 u "admin" i "update"
                  ("Admin " ++ Admin.username a ++ " updated"))
    /\ o = Respond 200 (BAdmin (Admin.sanitize a)).
Proof.
  unfold routes.put_admin, routes.requireAdmin, try_catch, bind.
  destruct (String.eqb_spec (user_role u) "admin") as [Hrole|Hrole];
    [|not_success].
  cbv beta iota delta [negb].
  destruct (Str.parseInt id) as [i|]; [|not_success].
  destruct (storage.updateAdmin i body db) as [[[a|]|e] db1] eqn:Hupd;
    try not_success.
  audit_cases db1 u Hacc; [|not_success].
  intros H _. injection H as <- <-. exists i, a, db1.
  repeat split; try assumption.
Qed.

(** [DELETE /api/clients/:id] answered 2xx. *)
Lemma delete_client_success_any (db db' : Db) (u : User) (id : string)
  (o : Outcome) :
  routes.delete_client (Some u) id db = (Ok o, db') ->
  is_success o = true ->
  exists i c db1,
    Str.parseInt id = Some i
    /\ result_of (storage.getClient i) db = Ok (Some c)
    /\ storage.deleteClient i db = (Ok true, db1)
    /\ audit_accepts db1 u = true
    /\ db' = audit_appended db1
               (audit_row db1 u "client" i "delete"
                  ("Client " ++ Client.firstName c ++ " " ++ Client.lastName c
                   ++ " deleted"))
    /\ o = client_deleted.
Proof.
  unfold routes.delete_client, routes.requireAuth, try_catch, bind.
  destruct (Str.parseInt id) as [i|]; [|not_success].
  rewrite getClient_eq.
  destruct (result_of (storage.getClient i) db) as [[c|]|e] eqn:Hget;
    try not_success.
  destruct (storage.deleteClient i db) as [[[]|e] db1] eqn:Hdel;
    try not_success.
  audit_cases db1 u Hacc; [|not_success].
  intros H _. injection H as <- <-. exists i, c, db1.
  repeat split; try assumption.
Qed.

(** ** Repository calls leave the audit table alone *)

(** Case analysis on a scrutinee of the goal that contains no other. *)
Ltac case_inner :=
  match goal with
  | |- context [match ?x with _ => _ end] =>
      lazymatch x with
      | context [match _ with _ => _ end] => fail
      | _ => destruct x eqn:?
      end
  end.

Ltac audit_untouched_tac :=
  step_m; cbn; repeat (case_inner; cbn);
  unfold audit_untouched; cbn; repeat split; lia.

Lemma createAdmin_audit_untouched (db : Db) (v : Admin.insert) :
  audit_untouched db (run (storage.createAdmin v) db).
Proof.
  unfold storage.createAdmin, storage.insert_admins, Pg.nextval_admins.
  audit_untouched_tac.
Qed.

Lemma updateAdmin_audit_untouched (db : Db) (id : Z) (v : Admin.partial) :
  audit_untouched db (run (storage.updateAdmin id v) db).
Proof.
  unfold storage.updateAdmin, storage.update_admins, storage.set_admins.
  audit_untouched_tac.
Qed.

Lemma createClient_audit_untouched (db : Db) (v : Client.insert) :
  audit_untouched db (run (storage.createClient v) db).
Proof.
  unfold storage.createClient, storage.insert_clients, Pg.nextval_clients.
  audit_untouched_tac.
Qed.

Lemma updateClient_audit_untouched (db : Db) (id : Z) (v : Client.partial) :
  audit_untouched db (run (storage.updateClient id v) db).
Proof.
  unfold storage.updateClient, storage.update_clients.
  audit_untouched_tac.
Qed.

Lemma deleteClient_audit_untouched (db : Db) (id : Z) :
  audit_untouched db (run (storage.deleteClient id) db).
Proof.
  unfold storage.deleteClient, storage.delete_clients.
  audit_untouched_tac.
Qed.

Lemma createInteraction_audit_untouched (db : Db) (v : Interaction.insert) :
  audit_untouched db (run (storage.createInteraction v) db).
Proof.
  unfold storage.createInteraction, storage.insert_interactions,
    Pg.nextval_interactions.
  audit_untouched_tac.
Qed.

Lemma updateInteraction_audit_untouched (db : Db) (id : Z)
  (v : Interaction.partial) :
  audit_untouched db (run (storage.updateInteraction id v) db).
Proof.
  unfold storage.updateInteraction, storage.update_interactions.
  audit_untouched_tac.
Qed.

Lemma deleteInteraction_audit_untouched (db : Db) (id : Z) :
  audit_untouched db (run (storage.deleteInteraction id) db).
Proof.
  unfold storage.deleteInteraction, storage.delete_interactions.
  audit_untouched_tac.
Qed.

(** From an equation on the call to the store it leaves. *)
Lemma run_of {A} (m : M A) (db db1 : Db) (r : Res A) :
  m db = (r, db1) -> run m db = db1.
Proof. unfold run. now intros ->. Qed.

(** ** One audit row per successful mutating request (C1) *)

(** C1, counterexample: the seeder's [createAdmin] succeeds on the empty
    store and no audit row is written; a successful login updates the
    admin's [lastLogin] and no audit row is written. *)
Lemma repository_mutations_without_audit :
  (exists a db1,
     storage.createAdmin routes.default_admin empty_db = (Ok a, db1)
     /\ admins (run routes.seed empty_db) = [a]
     /\ auditLogs (run routes.seed empty_db) = [])
  /\ (exists u db1,
        routes.post_login (credentials "alice" "alice-secret") login_db
        = (Ok (Respond 200 (BUser u)), db1)
        /\ (Admin.lastLogin <$> admins login_db) = [None; None]
        /\ (Admin.lastLogin <$> admins db1) = [Some 2; None]
        /\ auditLogs db1 = []).
Proof.
  split.
  - eexists. eexists. split; [vm_compute; reflexivity|]. split; reflexivity.
  - eexists. eexists. split; [vm_compute; reflexivity|]. repeat split.
Qed.

Lemma mutated_audit_untouched (u : User) (db db1 : Db) (m : Mutation) :
  mutated u db m db1 -> audit_untouched db db1.
Proof.
  intros H. destruct H;
    match goal with
    | Hcall : _ db = (Ok _, db1) |- _ => rewrite <- (run_of _ _ _ _ Hcall)
    end.
  - apply createAdmin_audit_untouched.
  - apply updateAdmin_audit_untouched.
  - apply createClient_audit_untouched.
  - apply updateClient_audit_untouched.
  - apply deleteClient_audit_untouched.
  - apply createInteraction_audit_untouched.
  - apply updateInteraction_audit_untouched.
  - apply deleteInteraction_audit_untouched.
Qed.

Lemma audited_once_intro (db db1 : Db) (u : User) (m : Mutation) (o : Outcome)
  (entityId : Z) (details : string) :
  mutated u db m db1 ->
  entity_id_of m o = Some entityId ->
  audited_once db
    (audit_appended db1
       (audit_row db1 u (entity_type_of m) entityId (action_of m) details))
    u m o.
Proof.
  intros Hmut Hid. eexists. eexists. split; [exact Hmut|].
  destruct (mutated_audit_untouched u db db1 m Hmut) as (Hlogs & _ & Hclock).
  split; [exact Hlogs|]. split; [reflexivity|].
  cbn. rewrite Hlogs, Hid. repeat split. exact Hclock.
Qed.

(** C1, as the code has it: a request to one of the eight mutating
    endpoints that is answered 2xx has appended exactly one audit row, which
    carries the session user's id, the entity type and action of the
    endpoint and the id of the entity; the row is inserted into the store
    the successful repository call left ([db1]), stamped with that store's
    time, and nothing else changes between that store and the one the
    response is sent from. *)
Theorem successful_request_audited_once (db db' : Db) (u : User)
  (m : Mutation) (o : Outcome) :
  handle (Some u) m db = (Ok o, db') ->
  is_success o = true ->
  audited_once db db' u m o.
Proof.
  intros H Hs. destruct m; cbn [handle] in H.
  - destruct (post_admins_success _ _ _ _ _ H Hs)
      as (v & a & db1 & Hrole & Hv & Hcall & _ & -> & ->).
    apply (audited_once_intro db db1 u (CreateAdmin body)); [|reflexivity].
    econstructor; eassumption.
  - destruct (put_admin_success _ _ _ _ _ _ H Hs)
      as (i & a & db1 & Hrole & Hid & Hcall & _ & -> & ->).
    apply (audited_once_intro db db1 u (UpdateAdmin id body)); [|exact Hid].
    econstructor; eassumption.
  - destruct (post_clients_success _ _ _ _ _ H Hs)
      as (v & c & db1 & Hv & Hcall & _ & -> & ->).
    apply (audited_once_intro db db1 u (CreateClient body)); [|reflexivity].
    econstructor; eassumption.
  - destruct (put_client_success _ _ _ _ _ _ H Hs)
      as (i & c & r & db1 & Hid & Hget & Hcall & _ & -> & ->).
    apply (audited_once_intro db db1 u (UpdateClient id body)); [|exact Hid].
    econstructor; eassumption.
  - destruct (delete_client_success_any _ _ _ _ _ H Hs)
      as (i & c & db1 & Hid & Hget & Hcall & _ & -> & ->).
    apply (audited_once_intro db db1 u (DeleteClient id)); [|exact Hid].
    econstructor; eassumption.
  - destruct (post_interactions_success _ _ _ _ _ _ H Hs)
      as (i & c & v & x & db1 & Hid & Hget & Hv & Hcall & _ & -> & ->).
    apply (audited_once_intro db db1 u (CreateInteraction clientId body));
      [|reflexivity].
    econstructor; eassumption.
  - destruct (put_interaction_success _ _ _ _ _ _ H Hs)
      as (i & x & r & db1 & Hid & Hget & Hcall & _ & -> & ->).
    apply (audited_once_intro db db1 u (UpdateInteraction id body));
      [|exact Hid].
    econstructor; eassumption.
  - destruct (delete_interaction_success _ _ _ _ _ H Hs)
      as (i & x & db1 & Hid & Hget & Hcall & _ & -> & ->).
    apply (audited_once_intro db db1 u (DeleteInteraction id)); [|exact Hid].
    econstructor; eassumption.
Qed.

Lemma successful_request_audited_once_witness :
  audited_once crm_db crm_db_client_updated alice
    (UpdateClient "1" email_only) (Respond 200 (BClient john_updated)).
Proof.
  apply successful_request_audited_once.
  - vm_compute. reflexivity.
  - reflexivity.
Defined.

(** ** When the audit insert fails (C3) *)

(** C3, counterexample: alice changes the id of bob's row, which the API
    lets her do; bob's open session then updates a client.  The update is
    written, the audit insert is rejected (its [adminId] refers to no
    admin), and the handler does not send the 200 the update had earned:
    it hands the error to [next].  On a store whose audit sequence is
    behind, [POST /api/clients] inserts the client, the audit insert is
    rejected (duplicate key), and the handler answers 500 instead of 201. *)
Lemma audit_failure_replaces_response :
  (exists a, result_of (routes.put_admin (Some alice) "2" renumber) team_db
             = Ok (Respond 200 (BAdmin a)))
  /\ (exists r db1 message db',
        storage.updateClient 1 email_only team_db_renumbered = (Ok (Some r), db1)
        /\ audit_accepts db1 bob = false
        /\ routes.put_client (Some bob) "1" email_only team_db_renumbered
           = (Ok (Next (PgError message)), db')
        /\ Next (PgError message) <> Respond 200 (BClient r)
        /\ clients db' = [r]
        /\ Client.email r = "x@y.com"
        /\ auditLogs db' = auditLogs team_db_renumbered)
  /\ (exists message db',
        routes.post_clients (Some alice) new_client restored_db
        = (Ok (Respond 500 (BMessage message)), db')
        /\ clients db' = (clients restored_db ++ [ann])%list
        /\ auditLogs db' = auditLogs restored_db).
Proof.
  split; [|split].
  - eexists. vm_compute. reflexivity.
  - do 4 eexists. split; [vm_compute; reflexivity|].
    split; [reflexivity|]. split; [vm_compute; reflexivity|].
    split; [discriminate|]. repeat split.
  - do 2 eexists. split; [vm_compute; reflexivity|]. split; reflexivity.
Qed.

(** Rewrites with the steps recorded in a [mutated] derivation. *)
Ltac replay :=
  repeat match goal with
         | H : Str.parseInt _ = Some _ |- _ => rewrite H; clear H
         | H : user_role _ = "admin" |- _ => rewrite H; clear H
         | H : result_of (storage.getClient ?i) ?db = _ |- _ =>
             rewrite (getClient_eq db i), H; clear H
         | H : result_of (storage.getInteraction ?i) ?db = _ |- _ =>
             rewrite (getInteraction_eq db i), H; clear H
         | H : insertAdminSchema _ = inr _ |- _ => rewrite H; clear H
         | H : insertClientSchema _ = inr _ |- _ => rewrite H; clear H
         | H : insertInteractionSchema _ = inr _ |- _ => rewrite H; clear H
         end;
  cbv beta iota delta [ret negb String.eqb Ascii.eqb Bool.eqb];
  match goal with
  | H : _ = (Ok _, _) |- _ => rewrite H; clear H
  end.

(** C3, as the code has it: when the repository call of a mutating request
    has succeeded and the audit insert is then rejected, the tables stay as
    the repository call left them (nothing is rolled back), but the
    handler does not send the success response: the error goes to its
    [catch] block, which answers 500 with the error's message for
    [POST /api/clients] and hands the error to [next] for the other seven
    endpoints. *)
Theorem audit_failure_after_mutation (u : User) (db db1 : Db) (m : Mutation) :
  mutated u db m db1 ->
  audit_accepts db1 u = false ->
  exists message,
    handle (Some u) m db = (Ok (audit_failure_outcome m message), audit_tried db1)
    /\ is_success (audit_failure_outcome m message) = false
    /\ same_tables (audit_tried db1) db1.
Proof.
  intros Hmut Hacc.
  destruct Hmut; cbn [handle audit_failure_outcome];
    unfold routes.post_admins, routes.put_admin, routes.post_clients,
      routes.put_client, routes.delete_client, routes.post_interactions,
      routes.put_interaction, routes.delete_interaction,
      routes.requireAuth, routes.requireAdmin, try_catch, bind, Zod.parse;
    replay;
    match goal with
    | |- context [routes.createAuditLog (Some u) ?et ?id ?a ?d db1] =>
        destruct (createAuditLog_rejected db1 u et id a d Hacc)
          as [message [E Hstale]];
        rewrite E; exists message
    end;
    unfold routes.post_clients_catch; cbn [exn_message];
    rewrite ?Hstale; repeat split.
Qed.

Lemma audit_failure_after_mutation_witness :
  exists message,
    routes.put_client (Some bob) "1" email_only team_db_renumbered
    = (Ok (Next (PgError message)),
       audit_tried (run (storage.updateClient 1 email_only) team_db_renumbered))
    /\ is_success (Next (PgError message)) = false
    /\ same_tables
         (audit_tried (run (storage.updateClient 1 email_only) team_db_renumbered))
         (run (storage.updateClient 1 email_only) team_db_renumbered).
Proof.
  apply (audit_failure_after_mutation bob team_db_renumbered _
           (UpdateClient "1" email_only)).
  - eapply (mutated_update_client bob team_db_renumbered "1" email_only 1 john);
      vm_compute; reflexivity.
  - vm_compute. reflexivity.
Defined.

(** * Further properties *)

(** ** The guards *)

(** X1: without a session user, every handler behind [requireAuth] or
    [requireAdmin] answers 401 "Unauthorized" and leaves the store as it
    was, whatever the path parameters and the body. *)
Theorem anonymous_is_unauthorized (db : Db) (r : Request) :
  guarded r = true ->
  serve None r db = (Ok unauthorized, db).
Proof.
  destruct r as [| | | | | | |m]; try discriminate; try reflexivity.
  destruct m; reflexivity.
Qed.

Lemma anonymous_is_unauthorized_witness :
  serve None (Mutate (DeleteClient "1")) crm_db = (Ok unauthorized, crm_db).
Proof. apply anonymous_is_unauthorized. reflexivity. Defined.

(** X2: a session user whose role is not "admin" is answered 403
    "Forbidden" by the three admin endpoints, and the store is left as it
    was: no admin is listed, created or changed. *)
Theorem non_admin_is_forbidden (db : Db) (u : User) (r : Request) :
  admin_only r = true ->
  user_role u <> "admin" ->
  serve (Some u) r db = (Ok forbidden, db).
Proof.
  intros Hr Hrole.
  assert (Hneq : negb (String.eqb (user_role u) "admin") = true).
  { destruct (String.eqb_spec (user_role u) "admin"); [contradiction|reflexivity]. }
  destruct r as [| | | | | | |m]; try discriminate.
  - unfold serve, routes.get_admins, routes.requireAdmin. now rewrite Hneq.
  - destruct m; try discriminate; unfold serve, handle, routes.post_admins,
      routes.put_admin, routes.requireAdmin; now rewrite Hneq.
Qed.

Lemma non_admin_is_forbidden_witness :
  serve (Some dave) (Mutate (UpdateAdmin "1" blank_password)) crm_db
  = (Ok forbidden, crm_db).
Proof. apply non_admin_is_forbidden; [reflexivity|discriminate]. Defined.

(** X3: a [GET] handler never writes: for every user, parameter and store,
    the store after the request is the store before it, whether the answer
    is 200, 400, 401, 403, 404 or an error handed to [next]. *)
Theorem reads_leave_store (db : Db) (user : option User) (r : Request) :
  is_read r = true ->
  run (serve user r) db = db.
Proof.
  destruct r as [body | | q | id | id | | id | m]; try discriminate; intros _;
    destruct user as [u|]; try reflexivity;
    unfold serve, routes.get_admins, routes.get_clients, routes.get_client,
      routes.get_interactions, routes.get_audit_logs,
      routes.get_client_audit_logs, routes.requireAuth, routes.requireAdmin,
      storage.listAdmins, storage.listClients, storage.searchClients,
      storage.getClient, storage.listInteractionsByClient,
      storage.listAuditLogs, storage.getClientAuditLogs;
    step_m; cbn; repeat (case_inner; cbn); reflexivity.
Qed.

Lemma reads_leave_store_witness :
  run (serve (Some alice) (ListClients (Some "smith"))) crm_db = crm_db.
Proof. apply reads_leave_store. reflexivity. Defined.

(** ** Every activity is a sequence of repository writes *)

Lemma createAuditLog_run (db : Db) (u : User) (entityType : string)
  (entityId : Z) (action details : string) :
  run (routes.createAuditLog (Some u) entityType entityId action details) db
  = run (storage.createAuditLog
           (AuditLog.mk_insert (Some (Some (user_id u))) entityType entityId
                               action details)) db.
Proof.
  unfold run, routes.createAuditLog, bind.
  destruct (storage.createAuditLog _ db) as [[log|e] db']; reflexivity.
Qed.

(** Turns the equations on the calls made into the stores they left, and
    closes a goal on a store reached by at most two writes. *)
Ltac close_steps :=
  repeat match goal with
         | H : _ = (_, _) |- _ => apply run_of in H
         end;
  subst; rewrite ?createAuditLog_run;
  match goal with
  | |- rtc _ ?a ?a => apply rtc_refl
  | |- rtc _ ?a (run ?m ?a) => apply rtc_once; constructor
  | |- rtc _ ?a (run ?m2 (run ?m1 ?a)) =>
      apply (rtc_l _ _ (run m1 a)); [constructor|apply rtc_once; constructor]
  end.

(** The term has no [match] in it. *)
Ltac plain x :=
  match x with
  | context [match _ with _ => _ end] => fail 1
  | _ => idtac
  end.

(** Case analysis on the first scrutinee of the goal that is [plain]. *)
Ltac case_plain :=
  match goal with
  | |- context [match ?x with _ => _ end] => plain x; destruct x eqn:?
  end.

(** Walks through a handler: case analysis on every test and call, in the
    order the handler makes them. *)
Ltac walk :=
  unfold run;
  cbv beta iota zeta delta
    [serve handle routes.post_login routes.verify routes.get_admins
     routes.get_clients routes.get_client routes.get_interactions
     routes.get_audit_logs routes.get_client_audit_logs routes.post_admins
     routes.put_admin routes.post_clients routes.put_client
     routes.delete_client routes.post_interactions routes.put_interaction
     routes.delete_interaction routes.seed routes.requireAuth
     routes.requireAdmin routes.to_next routes.zod_or_next
     routes.post_clients_catch storage.getAdminByUsername
     storage.validatePassword storage.listAdmins storage.listClients
     storage.searchClients storage.getClient storage.getInteraction
     storage.listInteractionsByClient storage.listAuditLogs
     storage.getClientAuditLogs Pg.query Pg.bind_params Zod.parse try_catch
     bind ret throw];
  repeat (case_plain; cbv beta iota zeta); cbn [snd fst].

Lemma serve_steps (db : Db) (user : option User) (r : Request) :
  rtc storage_step db (run (serve user r) db).
Proof.
  destruct r as [body | | q | id | id | | id | m]; [..|destruct m];
    walk; close_steps.
Qed.

Lemma seed_steps (db : Db) : rtc storage_step db (run routes.seed db).
Proof. walk; close_steps. Qed.

Lemma perform_steps (db : Db) (a : Activity) :
  rtc storage_step db (perform a db).
Proof. destruct a; [apply seed_steps|apply serve_steps]. Qed.

(** A property that every repository write keeps is kept by every
    activity. *)
Lemma invariant_of_steps (P : Db -> Prop) :
  (forall db db', storage_step db db' -> P db -> P db') ->
  forall db a, P db -> P (perform a db).
Proof.
  intros Hstep db a HP. pose proof (perform_steps db a) as Hrtc.
  induction Hrtc as [|x y z Hxy _ IH]; [assumption|].
  apply IH. now apply (Hstep x y).
Qed.

(** ** What each repository write does to the tables *)

Lemma has_admin_In (i : Z) (db : Db) :
  Pg.has_admin i db = true <-> In i (map Admin.id (admins db)).
Proof.
  unfold Pg.has_admin. rewrite existsb_exists, in_map_iff.
  split; intros [a [H1 H2]]; exists a.
  - apply Z.eqb_eq in H2. tauto.
  - rewrite Z.eqb_eq. tauto.
Qed.

Lemma has_client_In (i : Z) (db : Db) :
  Pg.has_client i db = true <-> In i (map Client.id (clients db)).
Proof.
  unfold Pg.has_client. rewrite existsb_exists, in_map_iff.
  split; intros [a [H1 H2]]; exists a.
  - apply Z.eqb_eq in H2. tauto.
  - rewrite Z.eqb_eq. tauto.
Qed.

Lemma has_interaction_In (i : Z) (db : Db) :
  Pg.has_interaction i db = true <-> In i (map Interaction.id (interactions db)).
Proof.
  unfold Pg.has_interaction. rewrite existsb_exists, in_map_iff.
  split; intros [a [H1 H2]]; exists a.
  - apply Z.eqb_eq in H2. tauto.
  - rewrite Z.eqb_eq. tauto.
Qed.

Lemma has_auditLog_In (i : Z) (db : Db) :
  Pg.has_auditLog i db = true <-> In i (map AuditLog.id (auditLogs db)).
Proof.
  unfold Pg.has_auditLog. rewrite existsb_exists, in_map_iff.
  split; intros [a [H1 H2]]; exists a.
  - apply Z.eqb_eq in H2. tauto.
  - rewrite Z.eqb_eq. tauto.
Qed.

Lemma has_username_In (s : string) (db : Db) :
  Pg.has_username s db = true <-> In s (map Admin.username (admins db)).
Proof.
  unfold Pg.has_username. rewrite existsb_exists, in_map_iff.
  split; intros [a [H1 H2]]; exists a.
  - apply String.eqb_eq in H2. tauto.
  - rewrite String.eqb_eq. tauto.
Qed.

Lemma createAdmin_effect (db : Db) (v : Admin.insert) :
  same_tables (run (storage.createAdmin v) db) db
  \/ exists a,
       admins (run (storage.createAdmin v) db) = (admins db ++ [a])%list
       /\ clients (run (storage.createAdmin v) db) = clients db
       /\ interactions (run (storage.createAdmin v) db) = interactions db
       /\ auditLogs (run (storage.createAdmin v) db) = auditLogs db
       /\ Pg.has_admin (Admin.id a) db = false
       /\ Pg.has_username (Admin.username a) db = false
       /\ Admin.password a = Digest 10 (entropy db) (Admin.i_password v).
Proof.
  unfold storage.createAdmin, storage.insert_admins, Pg.nextval_admins.
  step_m. case_params; cbn; [left; repeat split|].
  case_if; cbn; [left; repeat split|].
  case_if; cbn; [left; repeat split|].
  right. eexists.
  repeat split; try assumption; apply negb_false_iff; assumption.
Qed.

Lemma updateLastLogin_effect (db : Db) (id : Z) :
  exists f,
    (forall a, Admin.id (f a) = Admin.id a
               /\ Admin.username (f a) = Admin.username a
               /\ Admin.password (f a) = Admin.password a)
    /\ admins (run (storage.updateLastLogin id) db)
       = Pg.update_where (fun a => Admin.id a =? id) f (admins db)
    /\ clients (run (storage.updateLastLogin id) db) = clients db
    /\ interactions (run (storage.updateLastLogin id) db) = interactions db
    /\ auditLogs (run (storage.updateLastLogin id) db) = auditLogs db.
Proof.
  eexists. split; [|repeat split].
  intros a. repeat split.
Qed.

Lemma createClient_effect (db : Db) (v : Client.insert) :
  same_tables (run (storage.createClient v) db) db
  \/ exists c,
       clients (run (storage.createClient v) db) = (clients db ++ [c])%list
       /\ admins (run (storage.createClient v) db) = admins db
       /\ interactions (run (storage.createClient v) db) = interactions db
       /\ auditLogs (run (storage.createClient v) db) = auditLogs db
       /\ Pg.has_client (Client.id c) db = false
       /\ Pg.admin_ref_ok (Client.createdBy c) db = true.
Proof.
  unfold storage.createClient, storage.insert_clients, Pg.nextval_clients.
  step_m. case_params; cbn; [left; repeat split|].
  case_if; cbn; [|left; repeat split].
  case_if; cbn; [left; repeat split|].
  case_if; cbn; [left; repeat split|].
  right. eexists.
  repeat split; try assumption; apply negb_false_iff; assumption.
Qed.

Lemma createInteraction_effect (db : Db) (v : Interaction.insert) :
  same_tables (run (storage.createInteraction v) db) db
  \/ exists x,
       interactions (run (storage.createInteraction v) db)
       = (interactions db ++ [x])%list
       /\ admins (run (storage.createInteraction v) db) = admins db
       /\ clients (run (storage.createInteraction v) db) = clients db
       /\ auditLogs (run (storage.createInteraction v) db) = auditLogs db
       /\ Pg.has_interaction (Interaction.id x) db = false
       /\ Pg.has_client (Interaction.clientId x) db = true
       /\ Pg.admin_ref_ok (Interaction.createdBy x) db = true.
Proof.
  unfold storage.createInteraction, storage.insert_interactions,
    Pg.nextval_interactions.
  step_m. case_params; cbn; [left; repeat split|].
  case_if; cbn; [|left; repeat split].
  case_if; cbn; [left; repeat split|].
  case_if; cbn; [left; repeat split|].
  case_if; cbn; [left; repeat split|].
  right. eexists.
  repeat split; try assumption; apply negb_false_iff; assumption.
Qed.

Lemma createAuditLog_effect (db : Db) (v : AuditLog.insert) :
  same_tables (run (storage.createAuditLog v) db) db
  \/ exists l,
       auditLogs (run (storage.createAuditLog v) db) = (auditLogs db ++ [l])%list
       /\ admins (run (storage.createAuditLog v) db) = admins db
       /\ clients (run (storage.createAuditLog v) db) = clients db
       /\ interactions (run (storage.createAuditLog v) db) = interactions db
       /\ Pg.has_auditLog (AuditLog.id l) db = false
       /\ Pg.admin_ref_ok (AuditLog.adminId l) db = true.
Proof.
  unfold storage.createAuditLog, storage.insert_auditLogs,
    Pg.nextval_audit_logs.
  step_m. cbn.
  case_if; cbn; [left; repeat split|].
  case_if; cbn; [left; repeat split|].
  right. eexists.
  repeat split; try assumption; apply negb_false_iff; assumption.
Qed.

Lemma deleteClient_effect (db : Db) (id : Z) :
  same_tables (run (storage.deleteClient id) db) db
  \/ (clients (run (storage.deleteClient id) db)
      = List.filter (fun c => negb (Client.id c =? id)) (clients db)
      /\ interactions (run (storage.deleteClient id) db)
         = List.filter (fun x => negb (Interaction.clientId x =? id))
                       (interactions db)
      /\ admins (run (storage.deleteClient id) db) = admins db
      /\ auditLogs (run (storage.deleteClient id) db) = auditLogs db).
Proof.
  unfold storage.deleteClient, storage.delete_clients. step_m.
  case_params; cbn; [left; repeat split|].
  destruct (List.filter _ (clients db)); cbn; [left|right]; repeat split.
Qed.

Lemma deleteInteraction_effect (db : Db) (id : Z) :
  same_tables (run (storage.deleteInteraction id) db) db
  \/ (interactions (run (storage.deleteInteraction id) db)
      = List.filter (fun x => negb (Interaction.id x =? id)) (interactions db)
      /\ admins (run (storage.deleteInteraction id) db) = admins db
      /\ clients (run (storage.deleteInteraction id) db) = clients db
      /\ auditLogs (run (storage.deleteInteraction id) db) = auditLogs db).
Proof.
  unfold storage.deleteInteraction, storage.delete_interactions. step_m.
  case_params; cbn; [left|right]; repeat split.
Qed.

Lemma update_admins_effect (db : Db) (id : Z) (v : Admin.partial)
  (pw : option (option PasswordText)) :
  same_tables (snd (storage.update_admins id v pw db)) db
  \/ (first_violation
        (fun a => admin_update_violation db a (admin_set v (mjoin pw) a))
        (List.filter (fun a => Admin.id a =? id) (admins db)) = None
      /\ admins (snd (storage.update_admins id v pw db))
         = Pg.update_where (fun a => Admin.id a =? id)
                           (admin_set v (mjoin pw)) (admins db)
      /\ clients (snd (storage.update_admins id v pw db)) = clients db
      /\ interactions (snd (storage.update_admins id v pw db))
         = interactions db
      /\ auditLogs (snd (storage.update_admins id v pw db)) = auditLogs db).
Proof.
  unfold storage.update_admins, storage.set_admins, Pg.reject_if,
    Pg.bind_params, Pg.query, bind, ret, throw.
  destruct (admin_set_is_empty v pw); [left; repeat split|].
  case_params; [left; repeat split|].
  destruct pw as [[text|]|]; cbn [mjoin option_join fst snd].
  - destruct (first_violation _ _) eqn:Hv; [left|right]; repeat split.
  - left. destruct (negb _); repeat split.
  - destruct (first_violation _ _) eqn:Hv; [left|right]; repeat split.
Qed.

(** The password text an [updateAdmin] hands to [.set]: none, the text of
    a value that JavaScript takes for false, or a digest. *)
Lemma updateAdmin_effect (db : Db) (id : Z) (v : Admin.partial) :
  same_tables (run (storage.updateAdmin id v) db) db
  \/ exists pw,
       (pw = None
        \/ (exists text, pw = Some (Plain text)
                         /\ (text = "" \/ text = "0" \/ text = "false"))
        \/ exists salt p, pw = Some (Digest 10 salt p))
       /\ first_violation
            (fun a => admin_update_violation db a (admin_set v pw a))
            (List.filter (fun a => Admin.id a =? id) (admins db)) = None
       /\ admins (run (storage.updateAdmin id v) db)
          = Pg.update_where (fun a => Admin.id a =? id) (admin_set v pw)
                            (admins db)
       /\ clients (run (storage.updateAdmin id v) db) = clients db
       /\ interactions (run (storage.updateAdmin id v) db) = interactions db
       /\ auditLogs (run (storage.updateAdmin id v) db) = auditLogs db.
Proof.
  assert (Hcall : forall pw db0,
            same_tables db0 db ->
            (mjoin pw = None
             \/ (exists text, mjoin pw = Some (Plain text)
                              /\ (text = "" \/ text = "0" \/ text = "false"))
             \/ exists salt p, mjoin pw = Some (Digest 10 salt p)) ->
            same_tables
              (snd ((rows <- storage.update_admins id v pw ;;
                     ret (head rows)) db0)) db
            \/ exists text,
                 (text = None
                  \/ (exists t, text = Some (Plain t)
                                /\ (t = "" \/ t = "0" \/ t = "false"))
                  \/ exists salt p, text = Some (Digest 10 salt p))
                 /\ first_violation
                      (fun a => admin_update_violation db a (admin_set v text a))
                      (List.filter (fun a => Admin.id a =? id) (admins db))
                    = None
                 /\ admins (snd ((rows <- storage.update_admins id v pw ;;
                                  ret (head rows)) db0))
                    = Pg.update_where (fun a => Admin.id a =? id)
                                      (admin_set v text) (admins db)
                 /\ clients (snd ((rows <- storage.update_admins id v pw ;;
                                   ret (head rows)) db0)) = clients db
                 /\ interactions
                      (snd ((rows <- storage.update_admins id v pw ;;
                             ret (head rows)) db0)) = interactions db
                 /\ auditLogs
                      (snd ((rows <- storage.update_admins id v pw ;;
                             ret (head rows)) db0)) = auditLogs db).
  { intros pw db0 (Ha & Hc & Hi & Hl) Hpw.
    assert (Hsnd : snd ((rows <- storage.update_admins id v pw ;;
                         ret (head rows)) db0)
                   = snd (storage.update_admins id v pw db0)).
    { unfold bind, ret.
      now destruct (storage.update_admins id v pw db0) as [[] ?]. }
    rewrite Hsnd.
    destruct (update_admins_effect db0 id v pw)
      as [(Ha' & Hc' & Hi' & Hl') | (Hv & Ha' & Hc' & Hi' & Hl')].
    - left. repeat split; congruence.
    - right. exists (mjoin pw). split; [exact Hpw|].
      unfold admin_update_violation, Pg.has_admin, Pg.has_username,
        Pg.admin_referenced in *.
      rewrite Ha, ?Hc, ?Hi, ?Hl in *.
      repeat split; congruence. }
  unfold storage.updateAdmin, run.
  destruct (Admin.p_password v) as [[|b|n|p]|]; unfold bind at 1;
    cbv beta iota zeta delta [storage.truthy_value storage.driver_text ret
                              throw bcrypt_hash bind];
    cbn [option_fmap option_map fmap].
  - apply Hcall; [repeat split|]. now left.
  - destruct b; cbv beta iota zeta; [left; repeat split|].
    apply Hcall; [repeat split|]. right. left. eexists. split; [reflexivity|].
    tauto.
  - destruct (Z.eqb_spec n 0) as [->|]; cbv beta iota zeta delta [negb];
      [|left; repeat split].
    apply Hcall; [repeat split|]. right. left. eexists. split; [reflexivity|].
    tauto.
  - destruct p as [|c p]; cbv beta iota zeta delta [storage.truthy].
    + apply Hcall; [repeat split|]. right. left. eexists.
      split; [reflexivity|]. tauto.
    + apply Hcall; [repeat split|]. right. right. eauto.
  - apply Hcall; [repeat split|]. now left.
Qed.

Lemma updateClient_effect (db : Db) (id : Z) (v : Client.partial) :
  same_tables (run (storage.updateClient id v) db) db
  \/ exists v',
       first_violation
         (fun c => client_update_violation db c (client_set v' c))
         (List.filter (fun c => Client.id c =? id) (clients db)) = None
       /\ clients (run (storage.updateClient id v) db)
          = Pg.update_where (fun c => Client.id c =? id) (client_set v')
                            (clients db)
       /\ admins (run (storage.updateClient id v) db) = admins db
       /\ interactions (run (storage.updateClient id v) db) = interactions db
       /\ auditLogs (run (storage.updateClient id v) db) = auditLogs db.
Proof.
  unfold storage.updateClient, storage.update_clients, Pg.bind_params, run,
    bind, ret, now.
  cbv beta iota zeta. case_params; cbv beta iota zeta; [left; repeat split|].
  match goal with
  | |- context [first_violation ?f ?l] => destruct (first_violation f l) eqn:Hv
  end; cbn [snd fst]; [left; repeat split|].
  right. eexists. split; [exact Hv|repeat split].
Qed.

Lemma updateInteraction_effect (db : Db) (id : Z) (v : Interaction.partial) :
  same_tables (run (storage.updateInteraction id v) db) db
  \/ exists v',
       first_violation
         (fun x => interaction_update_violation db x (interaction_set v' x))
         (List.filter (fun x => Interaction.id x =? id) (interactions db))
       = None
       /\ interactions (run (storage.updateInteraction id v) db)
          = Pg.update_where (fun x => Interaction.id x =? id)
                            (interaction_set v') (interactions db)
       /\ admins (run (storage.updateInteraction id v) db) = admins db
       /\ clients (run (storage.updateInteraction id v) db) = clients db
       /\ auditLogs (run (storage.updateInteraction id v) db) = auditLogs db.
Proof.
  unfold storage.updateInteraction, storage.update_interactions,
    Pg.bind_params, run, bind, ret, now.
  cbv beta iota zeta. case_params; cbv beta iota zeta; [left; repeat split|].
  match goal with
  | |- context [first_violation ?f ?l] => destruct (first_violation f l) eqn:Hv
  end; cbn [snd fst]; [left; repeat split|].
  right. eexists. split; [exact Hv|repeat split].
Qed.

(** ** The audit table only grows, by one row at most *)

Lemma updateLastLogin_audit_untouched (db : Db) (id : Z) :
  audit_untouched db (run (storage.updateLastLogin id) db).
Proof. unfold audit_untouched. cbn. repeat split. lia. Qed.

(** The store an activity leaves is the store it found, or the store one
    write of the data tables left, or that store after one insert into the
    audit table. *)
Lemma activity_shape (db : Db) (a : Activity) :
  perform a db = db
  \/ exists d1,
       auditLogs d1 = auditLogs db
       /\ (perform a db = d1
           \/ exists v, perform a db = run (storage.createAuditLog v) d1).
Proof.
  assert (Hdata : forall d1, audit_untouched db d1 -> auditLogs d1 = auditLogs db)
    by (intros d1 H; apply H).
  destruct a as [|user r]; unfold perform;
    [|destruct r as [body | | q | id | id | | id | m]; [..|destruct m]];
    walk;
    repeat match goal with
           | H : _ = (_, _) |- _ => apply run_of in H
           end;
    subst; rewrite ?createAuditLog_run;
    match goal with
    | |- ?a = ?a \/ _ => left; reflexivity
    | |- run ?m ?a = ?a \/ _ =>
        right; exists (run m a); split; [apply Hdata|left; reflexivity]
    | |- run ?m2 (run ?m1 ?a) = ?a \/ _ =>
        right; exists (run m1 a); split; [apply Hdata|right; eexists; reflexivity]
    end;
    first [ apply createAdmin_audit_untouched
          | apply updateAdmin_audit_untouched
          | apply updateLastLogin_audit_untouched
          | apply createClient_audit_untouched
          | apply updateClient_audit_untouched
          | apply deleteClient_audit_untouched
          | apply createInteraction_audit_untouched
          | apply updateInteraction_audit_untouched
          | apply deleteInteraction_audit_untouched ].
Qed.

(** X4: no activity changes or removes a row of the audit table: after the
    start-up seeding or any request, by any user, the table is the table
    before, followed by at most one new row. *)
Theorem audit_log_append_only (db : Db) (a : Activity) :
  exists more,
    auditLogs (perform a db) = (auditLogs db ++ more)%list
    /\ (length more <= 1)%nat.
Proof.
  destruct (activity_shape db a) as [->|[d1 [Hd1 [->|[v ->]]]]].
  - exists []. split; [now rewrite app_nil_r|cbn; lia].
  - exists []. split; [now rewrite app_nil_r|cbn; lia].
  - destruct (createAuditLog_effect d1 v) as [Hsame|[l [Hl _]]].
    + exists []. destruct Hsame as (_ & _ & _ & ->).
      split; [now rewrite app_nil_r, Hd1|cbn; lia].
    + exists [l]. rewrite Hl, Hd1. split; [reflexivity|cbn; lia].
Qed.

(** ** Admin rows are never removed *)

Lemma update_where_length {A} (p : A -> bool) (f : A -> A) (l : list A) :
  length (Pg.update_where p f l) = length l.
Proof. unfold Pg.update_where. apply length_map. Qed.

Lemma admins_kept_step (db db' : Db) :
  storage_step db db' -> (length (admins db) <= length (admins db'))%nat.
Proof.
  intros H. destruct H.
  - destruct (createAdmin_effect db v) as [(-> & _)|[a (-> & _)]];
      [lia|rewrite length_app; cbn; lia].
  - destruct (updateAdmin_effect db id v) as [(-> & _)|[pw (_ & _ & -> & _)]];
      [lia|rewrite update_where_length; lia].
  - destruct (updateLastLogin_effect db id) as [f (_ & -> & _)].
    rewrite update_where_length. lia.
  - destruct (createClient_effect db v) as [(-> & _)|[c (_ & -> & _)]]; lia.
  - destruct (updateClient_effect db id v) as [(-> & _)|[v' (_ & _ & -> & _)]];
      lia.
  - destruct (deleteClient_effect db id) as [(-> & _)|(_ & _ & -> & _)]; lia.
  - destruct (createInteraction_effect db v) as [(-> & _)|[x (_ & -> & _)]];
      lia.
  - destruct (updateInteraction_effect db id v)
      as [(-> & _)|[v' (_ & _ & -> & _)]]; lia.
  - destruct (deleteInteraction_effect db id) as [(-> & _)|(_ & -> & _)]; lia.
  - destruct (createAuditLog_effect db v) as [(-> & _)|[l (_ & -> & _)]]; lia.
Qed.

(** X5: no activity removes an admin row: the repository has no delete for
    admins, and after the seeding or any request the [admins] table has at
    least as many rows as before. *)
Theorem admins_never_removed (db : Db) (a : Activity) :
  (length (admins db) <= length (admins (perform a db)))%nat.
Proof.
  pose proof (perform_steps db a) as Hrtc.
  induction Hrtc as [|x y z Hxy _ IH]; [lia|].
  apply admins_kept_step in Hxy. lia.
Qed.

(** ** No password that a login could present is stored in clear *)

Lemma password_protected_step (db db' : Db) :
  storage_step db db' -> password_protected db -> password_protected db'.
Proof.
  unfold password_protected. intros H HP. destruct H.
  - destruct (createAdmin_effect db v) as [(-> & _)|[a (-> & _ & _ & _ & _ & _ & Hpw)]];
      [assumption|].
    apply Forall_app. split; [assumption|].
    constructor; [now rewrite Hpw|constructor].
  - destruct (updateAdmin_effect db id v)
      as [(-> & _)|[pw (Hpw & _ & -> & _)]]; [assumption|].
    unfold Pg.update_where. rewrite List.Forall_map.
    revert HP. apply List.Forall_impl. intros a Ha.
    destruct (Admin.id a =? id); [|assumption].
    destruct Hpw as [->|[[text [-> Htext]]|[salt [p ->]]]]; cbn;
      [assumption|exact Htext|exact I].
  - destruct (updateLastLogin_effect db id) as [f (Hf & -> & _)].
    unfold Pg.update_where. rewrite List.Forall_map.
    revert HP. apply List.Forall_impl. intros a Ha.
    destruct (Admin.id a =? id); [|assumption].
    destruct (Hf a) as (_ & _ & ->). assumption.
  - destruct (createClient_effect db v) as [(-> & _)|[c (_ & -> & _)]];
      assumption.
  - destruct (updateClient_effect db id v) as [(-> & _)|[v' (_ & _ & -> & _)]];
      assumption.
  - destruct (deleteClient_effect db id) as [(-> & _)|(_ & _ & -> & _)];
      assumption.
  - destruct (createInteraction_effect db v) as [(-> & _)|[x (_ & -> & _)]];
      assumption.
  - destruct (updateInteraction_effect db id v)
      as [(-> & _)|[v' (_ & _ & -> & _)]]; assumption.
  - destruct (deleteInteraction_effect db id) as [(-> & _)|(_ & -> & _)];
      assumption.
  - destruct (createAuditLog_effect db v) as [(-> & _)|[l (_ & -> & _)]];
      assumption.
Qed.

Lemma crm_db_password_protected : password_protected crm_db.
Proof. repeat constructor. Qed.

(** X6: if every stored password is a bcrypt digest or one of the texts
    "", "0" and "false", the same holds after the seeding and after every
    request: whatever the bodies sent, a password is stored hashed, unless
    it is a value that JavaScript takes for false, the empty string, [0]
    or [false], which [updateAdmin] stores as its text. *)
Theorem passwords_stay_protected (db : Db) (a : Activity) :
  password_protected db -> password_protected (perform a db).
Proof. apply invariant_of_steps. exact password_protected_step. Qed.

Lemma passwords_stay_protected_witness :
  password_protected
    (perform (Serving (Some alice) (Mutate (UpdateAdmin "1" zero_password)))
             crm_db)
  /\ (Admin.password
        <$> admins (perform (Serving (Some alice)
                               (Mutate (UpdateAdmin "1" zero_password)))
                            crm_db))
     = [Plain "0"].
Proof.
  split; [|reflexivity].
  apply passwords_stay_protected. exact crm_db_password_protected.
Defined.

(** ** Lists of rows with unique keys *)

Lemma NoDup_map_snoc {A K} (key : A -> K) (l : list A) (x : A) :
  List.NoDup (map key l) -> ~ In (key x) (map key l) ->
  List.NoDup (map key (l ++ [x])).
Proof.
  intros Hl Hx. induction l as [|a l IH]; cbn in *.
  - constructor; [intros []|constructor].
  - apply List.NoDup_cons_iff in Hl. destruct Hl as [Ha Hl].
    apply List.NoDup_cons_iff. split; [|apply IH; tauto].
    rewrite List.map_app, in_app_iff. cbn. intros [H|[H|[]]]; [tauto|].
    apply Hx. left. congruence.
Qed.

Lemma in_map_filter {A K} (key : A -> K) (p : A -> bool) (l : list A) (k : K) :
  In k (map key (List.filter p l)) -> In k (map key l).
Proof.
  rewrite !in_map_iff. intros [a [Hk Ha]]. apply filter_In in Ha.
  exists a. tauto.
Qed.

Lemma NoDup_map_filter {A K} (key : A -> K) (p : A -> bool) (l : list A) :
  List.NoDup (map key l) -> List.NoDup (map key (List.filter p l)).
Proof.
  induction l as [|a l IH]; cbn; [trivial|].
  intros H. apply List.NoDup_cons_iff in H. destruct H as [Ha Hl].
  destruct (p a); cbn; [|apply IH, Hl].
  apply List.NoDup_cons_iff. split; [|apply IH, Hl].
  intros Hin. apply Ha. eapply in_map_filter, Hin.
Qed.

Lemma NoDup_map_inj {A K} (key : A -> K) (l : list A) (a b : A) :
  List.NoDup (map key l) -> In a l -> In b l -> key a = key b -> a = b.
Proof.
  induction l as [|x l IH]; cbn; [tauto|].
  intros H. apply List.NoDup_cons_iff in H. destruct H as [Hx Hl].
  intros [->|Ha] [->|Hb] Hk; [reflexivity| | |apply IH; assumption].
  - exfalso. apply Hx. rewrite Hk. now apply in_map.
  - exfalso. apply Hx. rewrite <- Hk. now apply in_map.
Qed.

Lemma update_where_none {A} (p : A -> bool) (g : A -> A) (l : list A) :
  (forall a, In a l -> p a = false) -> Pg.update_where p g l = l.
Proof.
  unfold Pg.update_where. induction l as [|x l IH]; cbn; [reflexivity|].
  intros H. rewrite (H x) by tauto. rewrite IH by (intros a Ha; apply H; tauto).
  reflexivity.
Qed.

Lemma in_update_where {A} (p : A -> bool) (g : A -> A) (l : list A) (y : A) :
  In y (Pg.update_where p g l) <->
  exists a, In a l /\ y = if p a then g a else a.
Proof.
  unfold Pg.update_where. rewrite in_map_iff.
  split; intros [a [H1 H2]]; exists a; [now split|now split].
Qed.

(** An update of at most one row, whose new key is the old one or a key not
    in the table, keeps the keys unique. *)
Lemma NoDup_map_update_where {A K} (key : A -> K) (p : A -> bool) (g : A -> A)
  (l : list A) :
  List.NoDup (map key l) ->
  (forall a b, In a l -> In b l -> p a = true -> p b = true -> a = b) ->
  (forall a, In a l -> p a = true ->
             key (g a) = key a \/ ~ In (key (g a)) (map key l)) ->
  List.NoDup (map key (Pg.update_where p g l)).
Proof.
  induction l as [|x l IH]; intros Hnd Hone Hkey; [constructor|].
  cbn in Hnd. apply List.NoDup_cons_iff in Hnd. destruct Hnd as [Hx Hl].
  change (Pg.update_where p g (x :: l))
    with ((if p x then g x else x) :: Pg.update_where p g l).
  cbn [map]. destruct (p x) eqn:Hpx.
  - rewrite update_where_none.
    + apply List.NoDup_cons_iff. split; [|assumption].
      destruct (Hkey x (or_introl eq_refl) Hpx) as [->|Hfresh]; [assumption|].
      intros Hin. apply Hfresh. right. assumption.
    + intros a Ha. destruct (p a) eqn:Hpa; [|reflexivity].
      exfalso. apply Hx.
      rewrite (Hone x a (or_introl eq_refl) (or_intror Ha) Hpx Hpa).
      now apply in_map.
  - apply List.NoDup_cons_iff. split.
    + rewrite in_map_iff. intros [y [Hky Hy]].
      apply in_update_where in Hy. destruct Hy as [a [Ha ->]].
      destruct (p a) eqn:Hpa.
      * destruct (Hkey a (or_intror Ha) Hpa) as [Hsame|Hfresh].
        -- apply Hx. rewrite <- Hky, Hsame. now apply in_map.
        -- apply Hfresh. left. congruence.
      * apply Hx. rewrite <- Hky. now apply in_map.
    + apply IH; [assumption| |].
      * intros a b Ha Hb. apply Hone; now right.
      * intros a Ha Hpa. destruct (Hkey a (or_intror Ha) Hpa) as [H|H];
          [now left|right]. intros Hin. apply H. now right.
Qed.

(** An update that keeps the key of every row keeps the list of keys. *)
Lemma map_update_where_same {A K} (key : A -> K) (p : A -> bool) (g : A -> A)
  (l : list A) :
  (forall a, key (g a) = key a) ->
  map key (Pg.update_where p g l) = map key l.
Proof.
  intros H. unfold Pg.update_where. rewrite List.map_map.
  apply map_ext. intros a. destruct (p a); [apply H|reflexivity].
Qed.

Lemma first_violation_clear {A} (check : A -> option Exn) (l : list A) :
  first_violation check l = None -> forall r, In r l -> check r = None.
Proof.
  induction l as [|x l IH]; cbn; [tauto|].
  destruct (check x) eqn:Hx; [discriminate|].
  intros H r [->|Hr]; [assumption|now apply IH].
Qed.

Lemma opt_eqb_eq (a b : option Z) : Pg.opt_eqb a b = true <-> a = b.
Proof.
  destruct a as [x|], b as [y|]; cbn; try (split; congruence).
  rewrite Z.eqb_eq. split; congruence.
Qed.

(** ** What an accepted update guarantees *)

Lemma admin_update_clear (db : Db) (old new : Admin.t) :
  admin_update_violation db old new = None ->
  (Admin.id new = Admin.id old \/ Pg.has_admin (Admin.id new) db = false)
  /\ (Admin.username new = Admin.username old
      \/ Pg.has_username (Admin.username new) db = false)
  /\ (Admin.id new = Admin.id old
      \/ Pg.admin_referenced (Admin.id old) db = None).
Proof.
  unfold admin_update_violation.
  destruct (Z.eqb_spec (Admin.id new) (Admin.id old)) as [Hid|Hid];
    destruct (String.eqb_spec (Admin.username new) (Admin.username old))
      as [Hname|Hname];
    destruct (Pg.has_admin (Admin.id new) db);
    destruct (Pg.has_username (Admin.username new) db);
    cbn; try discriminate; try tauto;
    destruct (Pg.admin_referenced (Admin.id old) db) as [[c t]|];
    try discriminate; tauto.
Qed.

Lemma client_update_clear (db : Db) (old new : Client.t) :
  client_update_violation db old new = None ->
  (Client.id new = Client.id old \/ Pg.has_client (Client.id new) db = false)
  /\ (Client.createdBy new = Client.createdBy old
      \/ Pg.admin_ref_ok (Client.createdBy new) db = true)
  /\ (Client.id new = Client.id old
      \/ Pg.client_referenced (Client.id old) db = false).
Proof.
  unfold client_update_violation.
  destruct (Z.eqb_spec (Client.id new) (Client.id old)) as [Hid|Hid];
    destruct (Pg.opt_eqb (Client.createdBy new) (Client.createdBy old)) eqn:Hby;
    try (apply opt_eqb_eq in Hby);
    destruct (Pg.has_client (Client.id new) db);
    destruct (Pg.admin_ref_ok (Client.createdBy new) db);
    destruct (Pg.client_referenced (Client.id old) db);
    cbn; try discriminate; tauto.
Qed.

Lemma interaction_update_clear (db : Db) (old new : Interaction.t) :
  interaction_update_violation db old new = None ->
  (Interaction.id new = Interaction.id old
   \/ Pg.has_interaction (Interaction.id new) db = false)
  /\ (Interaction.clientId new = Interaction.clientId old
      \/ Pg.has_client (Interaction.clientId new) db = true)
  /\ (Interaction.createdBy new = Interaction.createdBy old
      \/ Pg.admin_ref_ok (Interaction.createdBy new) db = true).
Proof.
  unfold interaction_update_violation.
  destruct (Z.eqb_spec (Interaction.id new) (Interaction.id old)) as [Hid|Hid];
    destruct (Z.eqb_spec (Interaction.clientId new) (Interaction.clientId old))
      as [Hcl|Hcl];
    destruct (Pg.opt_eqb (Interaction.createdBy new)
                         (Interaction.createdBy old)) eqn:Hby;
    try (apply opt_eqb_eq in Hby);
    destruct (Pg.has_interaction (Interaction.id new) db);
    destruct (Pg.has_client (Interaction.clientId new) db);
    destruct (Pg.admin_ref_ok (Interaction.createdBy new) db);
    cbn; try discriminate; tauto.
Qed.

(** ** Keys stay unique *)

Lemma not_has (b : bool) (P : Prop) : (b = true <-> P) -> b = false -> ~ P.
Proof. intros H Hb HP. apply H in HP. congruence. Qed.

Lemma admins_update_keys (db : Db) (id : Z) (v : Admin.partial)
  (pw : option PasswordText) :
  List.NoDup (map Admin.id (admins db)) ->
  List.NoDup (map Admin.username (admins db)) ->
  first_violation (fun a => admin_update_violation db a (admin_set v pw a))
                  (List.filter (fun a => Admin.id a =? id) (admins db)) = None ->
  List.NoDup (map Admin.id
                  (Pg.update_where (fun a => Admin.id a =? id)
                                   (admin_set v pw) (admins db)))
  /\ List.NoDup (map Admin.username
                     (Pg.update_where (fun a => Admin.id a =? id)
                                      (admin_set v pw) (admins db))).
Proof.
  intros Hid Hname Hv.
  assert (Hone : forall a b, In a (admins db) -> In b (admins db) ->
                             (Admin.id a =? id) = true ->
                             (Admin.id b =? id) = true -> a = b).
  { intros a b Ha Hb Hpa Hpb. apply Z.eqb_eq in Hpa, Hpb.
    apply (NoDup_map_inj Admin.id (admins db)); congruence. }
  assert (Hok : forall a, In a (admins db) -> (Admin.id a =? id) = true ->
                          admin_update_violation db a (admin_set v pw a) = None).
  { intros a Ha Hpa. apply (first_violation_clear _ _ Hv).
    apply filter_In. now split. }
  split; apply NoDup_map_update_where; try assumption; intros a Ha Hpa;
    destruct (admin_update_clear db a _ (Hok a Ha Hpa)) as (H1 & H2 & _).
  - destruct H1 as [H1|H1]; [now left|right].
    exact (not_has _ _ (has_admin_In _ db) H1).
  - destruct H2 as [H2|H2]; [now left|right].
    exact (not_has _ _ (has_username_In _ db) H2).
Qed.

Lemma clients_update_keys (db : Db) (id : Z) (v : Client.partial) :
  List.NoDup (map Client.id (clients db)) ->
  first_violation (fun c => client_update_violation db c (client_set v c))
                  (List.filter (fun c => Client.id c =? id) (clients db)) = None ->
  List.NoDup (map Client.id
                  (Pg.update_where (fun c => Client.id c =? id)
                                   (client_set v) (clients db))).
Proof.
  intros Hid Hv. apply NoDup_map_update_where; [assumption| |].
  - intros a b Ha Hb Hpa Hpb. apply Z.eqb_eq in Hpa, Hpb.
    apply (NoDup_map_inj Client.id (clients db)); congruence.
  - intros a Ha Hpa.
    assert (Hok : client_update_violation db a (client_set v a) = None).
    { apply (first_violation_clear _ _ Hv). apply filter_In. now split. }
    destruct (client_update_clear db a _ Hok) as ([H1|H1] & _); [now left|right].
    exact (not_has _ _ (has_client_In _ db) H1).
Qed.

Lemma interactions_update_keys (db : Db) (id : Z) (v : Interaction.partial) :
  List.NoDup (map Interaction.id (interactions db)) ->
  first_violation
    (fun x => interaction_update_violation db x (interaction_set v x))
    (List.filter (fun x => Interaction.id x =? id) (interactions db)) = None ->
  List.NoDup (map Interaction.id
                  (Pg.update_where (fun x => Interaction.id x =? id)
                                   (interaction_set v) (interactions db))).
Proof.
  intros Hid Hv. apply NoDup_map_update_where; [assumption| |].
  - intros a b Ha Hb Hpa Hpb. apply Z.eqb_eq in Hpa, Hpb.
    apply (NoDup_map_inj Interaction.id (interactions db)); congruence.
  - intros a Ha Hpa.
    assert (Hok : interaction_update_violation db a (interaction_set v a) = None).
    { apply (first_violation_clear _ _ Hv). apply filter_In. now split. }
    destruct (interaction_update_clear db a _ Hok) as ([H1|H1] & _);
      [now left|right].
    exact (not_has _ _ (has_interaction_In _ db) H1).
Qed.

Lemma keys_unique_step (db db' : Db) :
  storage_step db db' -> keys_unique db -> keys_unique db'.
Proof.
  unfold keys_unique. intros H (K1 & K2 & K3 & K4 & K5). destruct H.
  - destruct (createAdmin_effect db v)
      as [(-> & -> & -> & ->)|[a (-> & -> & -> & -> & Hid & Hname & _)]];
      [tauto|].
    repeat split; try assumption; apply NoDup_map_snoc; try assumption.
    + exact (not_has _ _ (has_admin_In _ db) Hid).
    + exact (not_has _ _ (has_username_In _ db) Hname).
  - destruct (updateAdmin_effect db id v)
      as [(-> & -> & -> & ->)|[pw (_ & Hv & -> & -> & -> & ->)]]; [tauto|].
    destruct (admins_update_keys db id v pw K1 K2 Hv). tauto.
  - destruct (updateLastLogin_effect db id) as [f (Hf & -> & -> & -> & ->)].
    rewrite !map_update_where_same by (intros a; apply Hf). tauto.
  - destruct (createClient_effect db v)
      as [(-> & -> & -> & ->)|[c (-> & -> & -> & -> & Hid & _)]]; [tauto|].
    repeat split; try assumption. apply NoDup_map_snoc; [assumption|].
    exact (not_has _ _ (has_client_In _ db) Hid).
  - destruct (updateClient_effect db id v)
      as [(-> & -> & -> & ->)|[v' (Hv & -> & -> & -> & ->)]]; [tauto|].
    repeat split; try assumption. now apply clients_update_keys.
  - destruct (deleteClient_effect db id)
      as [(-> & -> & -> & ->)|(-> & -> & -> & ->)]; [tauto|].
    repeat split; try assumption; now apply NoDup_map_filter.
  - destruct (createInteraction_effect db v)
      as [(-> & -> & -> & ->)|[x (-> & -> & -> & -> & Hid & _)]]; [tauto|].
    repeat split; try assumption. apply NoDup_map_snoc; [assumption|].
    exact (not_has _ _ (has_interaction_In _ db) Hid).
  - destruct (updateInteraction_effect db id v)
      as [(-> & -> & -> & ->)|[v' (Hv & -> & -> & -> & ->)]]; [tauto|].
    repeat split; try assumption. now apply interactions_update_keys.
  - destruct (deleteInteraction_effect db id)
      as [(-> & -> & -> & ->)|(-> & -> & -> & ->)]; [tauto|].
    repeat split; try assumption. now apply NoDup_map_filter.
  - destruct (createAuditLog_effect db v)
      as [(-> & -> & -> & ->)|[l (-> & -> & -> & -> & Hid & _)]]; [tauto|].
    repeat split; try assumption. apply NoDup_map_snoc; [assumption|].
    exact (not_has _ _ (has_auditLog_In _ db) Hid).
Qed.

Lemma crm_db_keys_unique : keys_unique crm_db.
Proof.
  unfold keys_unique. cbn.
  repeat split; repeat (constructor; [cbn; intuition discriminate|]);
    constructor.
Qed.

(** X7: primary keys and the unique username are kept: if no two rows of a
    table share an id and no two admins share a username, the same holds
    after the seeding and after every request, including the updates whose
    body sets [id] or [username]. *)
Theorem keys_stay_unique (db : Db) (a : Activity) :
  keys_unique db -> keys_unique (perform a db).
Proof. apply invariant_of_steps. exact keys_unique_step. Qed.

Lemma keys_stay_unique_witness :
  keys_unique
    (perform (Serving (Some alice) (Mutate (UpdateClient "1" email_only)))
             crm_db).
Proof. apply keys_stay_unique. exact crm_db_keys_unique. Defined.

(** ** References stay resolved *)

Lemma known_admin_ok (db : Db) (r : option Z) :
  Pg.admin_ref_ok r db = true -> known_admin (admins db) r.
Proof. destruct r as [a|]; cbn; [apply has_admin_In|trivial]. Qed.

Lemma known_admin_snoc (l : list Admin.t) (a : Admin.t) (r : option Z) :
  known_admin l r -> known_admin (l ++ [a]) r.
Proof.
  destruct r as [k|]; cbn; [|trivial].
  rewrite List.map_app, in_app_iff. tauto.
Qed.

(** Nothing refers to the admin [i]. *)
Lemma admin_unreferenced (db : Db) (i : Z) :
  Pg.admin_referenced i db = None ->
  Forall (fun c => Client.createdBy c <> Some i) (clients db)
  /\ Forall (fun x => Interaction.createdBy x <> Some i) (interactions db)
  /\ Forall (fun l => AuditLog.adminId l <> Some i) (auditLogs db).
Proof.
  unfold Pg.admin_referenced.
  destruct (existsb _ (clients db)) eqn:H1; [discriminate|].
  destruct (existsb _ (interactions db)) eqn:H2; [discriminate|].
  destruct (existsb _ (auditLogs db)) eqn:H3; [discriminate|].
  intros _. repeat split; apply List.Forall_forall; intros r Hr Hby.
  - assert (existsb (fun c => Pg.opt_eqb (Client.createdBy c) (Some i))
                    (clients db) = true); [|congruence].
    apply existsb_exists. exists r. split; [assumption|now apply opt_eqb_eq].
  - assert (existsb (fun x => Pg.opt_eqb (Interaction.createdBy x) (Some i))
                    (interactions db) = true); [|congruence].
    apply existsb_exists. exists r. split; [assumption|now apply opt_eqb_eq].
  - assert (existsb (fun l => Pg.opt_eqb (AuditLog.adminId l) (Some i))
                    (auditLogs db) = true); [|congruence].
    apply existsb_exists. exists r. split; [assumption|now apply opt_eqb_eq].
Qed.

(** A reference that some row holds is still resolved after an accepted
    update of the admins: the row it points to kept its id. *)
Lemma known_admin_update (db : Db) (id : Z) (v : Admin.partial)
  (pw : option PasswordText) (r : option Z) :
  first_violation (fun a => admin_update_violation db a (admin_set v pw a))
                  (List.filter (fun a => Admin.id a =? id) (admins db)) = None ->
  (forall k, r = Some k -> Pg.admin_referenced k db <> None) ->
  known_admin (admins db) r ->
  known_admin (Pg.update_where (fun a => Admin.id a =? id) (admin_set v pw)
                               (admins db)) r.
Proof.
  intros Hv Href. destruct r as [k|]; cbn; [|trivial].
  rewrite !in_map_iff. intros [a [Hk Ha]].
  exists (if Admin.id a =? id then admin_set v pw a else a). split.
  - destruct (Z.eqb_spec (Admin.id a) id) as [Hid|Hid]; [|assumption].
    assert (Hok : admin_update_violation db a (admin_set v pw a) = None).
    { apply (first_violation_clear _ _ Hv). apply filter_In.
      split; [assumption|]. now apply Z.eqb_eq. }
    destruct (admin_update_clear db a _ Hok) as (_ & _ & [H|H]); [congruence|].
    exfalso. apply (Href k eq_refl). congruence.
  - apply in_update_where. now exists a.
Qed.

Lemma referenced_by_client (db : Db) (c : Client.t) (k : Z) :
  In c (clients db) -> Client.createdBy c = Some k ->
  Pg.admin_referenced k db <> None.
Proof.
  intros Hc Hby Hnone. destruct (admin_unreferenced db k Hnone) as (H & _).
  rewrite List.Forall_forall in H. exact (H c Hc Hby).
Qed.

Lemma referenced_by_interaction (db : Db) (x : Interaction.t) (k : Z) :
  In x (interactions db) -> Interaction.createdBy x = Some k ->
  Pg.admin_referenced k db <> None.
Proof.
  intros Hx Hby Hnone. destruct (admin_unreferenced db k Hnone) as (_ & H & _).
  rewrite List.Forall_forall in H. exact (H x Hx Hby).
Qed.

Lemma referenced_by_log (db : Db) (l : AuditLog.t) (k : Z) :
  In l (auditLogs db) -> AuditLog.adminId l = Some k ->
  Pg.admin_referenced k db <> None.
Proof.
  intros Hl Hby Hnone. destruct (admin_unreferenced db k Hnone) as (_ & _ & H).
  rewrite List.Forall_forall in H. exact (H l Hl Hby).
Qed.

(** An interaction's client is still in the table after an accepted update
    of the clients. *)
Lemma client_kept_by_update (db : Db) (id : Z) (v : Client.partial)
  (x : Interaction.t) :
  first_violation (fun c => client_update_violation db c (client_set v c))
                  (List.filter (fun c => Client.id c =? id) (clients db)) = None ->
  In x (interactions db) ->
  In (Interaction.clientId x) (map Client.id (clients db)) ->
  In (Interaction.clientId x)
     (map Client.id (Pg.update_where (fun c => Client.id c =? id)
                                     (client_set v) (clients db))).
Proof.
  intros Hv Hx. rewrite !in_map_iff. intros [c [Hk Hc]].
  exists (if Client.id c =? id then client_set v c else c). split.
  - destruct (Z.eqb_spec (Client.id c) id) as [Hid|Hid]; [|assumption].
    assert (Hok : client_update_violation db c (client_set v c) = None).
    { apply (first_violation_clear _ _ Hv). apply filter_In.
      split; [assumption|]. now apply Z.eqb_eq. }
    destruct (client_update_clear db c _ Hok) as (_ & _ & [H|H]); [congruence|].
    exfalso.
    assert (Pg.client_referenced (Client.id c) db = true); [|congruence].
    apply existsb_exists. exists x. split; [assumption|].
    apply Z.eqb_eq. congruence.
  - apply in_update_where. now exists c.
Qed.

Lemma Forall_snoc {A} (P : A -> Prop) (l : list A) (x : A) :
  Forall P l -> P x -> Forall P (l ++ [x]).
Proof. intros Hl Hx. apply List.Forall_app. split; [assumption|now constructor]. Qed.

Lemma Forall_filter_keep {A} (P : A -> Prop) (p : A -> bool) (l : list A) :
  Forall P l -> Forall P (List.filter p l).
Proof.
  rewrite !List.Forall_forall. intros H x Hx. apply filter_In in Hx. apply H, Hx.
Qed.

Lemma Forall_update_where {A} (P Q : A -> Prop) (p : A -> bool) (g : A -> A)
  (l : list A) :
  Forall P l ->
  (forall a, In a l -> P a -> p a = false -> Q a) ->
  (forall a, In a l -> P a -> p a = true -> Q (g a)) ->
  Forall Q (Pg.update_where p g l).
Proof.
  rewrite !List.Forall_forall. intros HP H0 H1 y Hy.
  apply in_update_where in Hy. destruct Hy as [a [Ha ->]].
  destruct (p a) eqn:Hpa; [apply H1|apply H0]; auto.
Qed.

Lemma known_admin_same_ids (l l' : list Admin.t) (r : option Z) :
  map Admin.id l' = map Admin.id l -> known_admin l r -> known_admin l' r.
Proof. destruct r; cbn; [intros ->|]; trivial. Qed.

Lemma in_ids_snoc {A} (key : A -> Z) (l : list A) (a : A) (k : Z) :
  In k (map key l) -> In k (map key (l ++ [a])).
Proof. rewrite List.map_app, in_app_iff. tauto. Qed.

Lemma update_checked {A} (check : A -> option Exn) (p : A -> bool)
  (l : list A) (a : A) :
  first_violation check (List.filter p l) = None ->
  In a l -> p a = true -> check a = None.
Proof.
  intros Hv Ha Hp. apply (first_violation_clear _ _ Hv).
  apply filter_In. now split.
Qed.

Lemma references_resolved_step (db db' : Db) :
  storage_step db db' -> references_resolved db -> references_resolved db'.
Proof.
  unfold references_resolved. intros H (R1 & R2 & R3 & R4). destruct H.
  - destruct (createAdmin_effect db v)
      as [(-> & -> & -> & ->)|[a (-> & -> & -> & -> & _)]]; [tauto|].
    repeat split; try assumption;
      (eapply List.Forall_impl; [|eassumption]);
      intros r; apply known_admin_snoc.
  - destruct (updateAdmin_effect db id v)
      as [(-> & -> & -> & ->)|[pw (_ & Hv & -> & -> & -> & ->)]]; [tauto|].
    repeat split; try assumption; apply List.Forall_forall; intros r Hr.
    + apply (known_admin_update db id v pw _ Hv).
      * intros k. now apply referenced_by_client.
      * rewrite List.Forall_forall in R2. now apply R2.
    + apply (known_admin_update db id v pw _ Hv).
      * intros k. now apply referenced_by_interaction.
      * rewrite List.Forall_forall in R3. now apply R3.
    + apply (known_admin_update db id v pw _ Hv).
      * intros k. now apply referenced_by_log.
      * rewrite List.Forall_forall in R4. now apply R4.
  - destruct (updateLastLogin_effect db id) as [f (Hf & -> & -> & -> & ->)].
    repeat split; try assumption;
      (eapply List.Forall_impl; [|eassumption]);
      intros r; apply known_admin_same_ids;
      apply map_update_where_same; intros a; apply Hf.
  - destruct (createClient_effect db v)
      as [(-> & -> & -> & ->)|[c (-> & -> & -> & -> & _ & Hby)]]; [tauto|].
    repeat split; try assumption.
    + eapply List.Forall_impl; [|exact R1]. intros x. apply in_ids_snoc.
    + apply Forall_snoc; [assumption|now apply known_admin_ok].
  - destruct (updateClient_effect db id v)
      as [(-> & -> & -> & ->)|[v' (Hv & -> & -> & -> & ->)]]; [tauto|].
    repeat split; try assumption.
    + apply List.Forall_forall. intros x Hx.
      apply (client_kept_by_update db id v' x Hv Hx).
      rewrite List.Forall_forall in R1. now apply R1.
    + apply (Forall_update_where _ _ _ _ _ R2); [auto|].
      intros c Hc Hknown Hp.
      destruct (client_update_clear db c _ (update_checked _ _ _ _ Hv Hc Hp))
        as (_ & [Hby|Hby] & _); [now rewrite Hby|now apply known_admin_ok].
  - destruct (deleteClient_effect db id)
      as [(-> & -> & -> & ->)|(-> & -> & -> & ->)]; [tauto|].
    repeat split; try assumption; try (now apply Forall_filter_keep).
    apply List.Forall_forall. intros x Hx. apply filter_In in Hx.
    destruct Hx as [Hx Hid]. rewrite List.Forall_forall in R1.
    specialize (R1 x Hx). apply in_map_iff in R1. destruct R1 as [c [Hk Hc]].
    apply in_map_iff. exists c. split; [assumption|].
    apply filter_In. split; [assumption|]. now rewrite Hk.
  - destruct (createInteraction_effect db v)
      as [(-> & -> & -> & ->)|[x (-> & -> & -> & -> & _ & Hc & Hby)]]; [tauto|].
    repeat split; try assumption; apply Forall_snoc; try assumption.
    + now apply has_client_In.
    + now apply known_admin_ok.
  - destruct (updateInteraction_effect db id v)
      as [(-> & -> & -> & ->)|[v' (Hv & -> & -> & -> & ->)]]; [tauto|].
    repeat split; try assumption.
    + apply (Forall_update_where _ _ _ _ _ R1); [auto|].
      intros x Hx Hknown Hp.
      destruct (interaction_update_clear db x _
                  (update_checked _ _ _ _ Hv Hx Hp))
        as (_ & [Hc|Hc] & _); [now rewrite Hc|now apply has_client_In].
    + apply (Forall_update_where _ _ _ _ _ R3); [auto|].
      intros x Hx Hknown Hp.
      destruct (interaction_update_clear db x _
                  (update_checked _ _ _ _ Hv Hx Hp))
        as (_ & _ & [Hby|Hby]); [now rewrite Hby|now apply known_admin_ok].
  - destruct (deleteInteraction_effect db id)
      as [(-> & -> & -> & ->)|(-> & -> & -> & ->)]; [tauto|].
    repeat split; try assumption; now apply Forall_filter_keep.
  - destruct (createAuditLog_effect db v)
      as [(-> & -> & -> & ->)|[l (-> & -> & -> & -> & _ & Hby)]]; [tauto|].
    repeat split; try assumption.
    apply Forall_snoc; [assumption|now apply known_admin_ok].
Qed.

Lemma crm_db_references_resolved : references_resolved crm_db.
Proof.
  unfold references_resolved, known_admin. cbn.
  repeat split; repeat (constructor; [cbn; tauto|]); constructor.
Qed.

(** X8: foreign keys are kept: if every interaction belongs to a client of
    the table and every [createdBy] and [adminId] is null or the id of an
    admin of the table, the same holds after the seeding and after every
    request: a client's deletion takes its interactions with it, and an
    update that would leave a reference dangling is refused. *)
Theorem references_stay_resolved (db : Db) (a : Activity) :
  references_resolved db -> references_resolved (perform a db).
Proof. apply invariant_of_steps. exact references_resolved_step. Qed.

Lemma references_stay_resolved_witness :
  references_resolved
    (perform (Serving (Some alice) (Mutate (DeleteClient "1"))) crm_db).
Proof. apply references_stay_resolved. exact crm_db_references_resolved. Defined.

(** ** Logging in *)

Lemma string_min_length (n : nat) (least path : string) (v : option JVal)
  (s : string) :
  Zod.string_min n least path v = inr s ->
  v = Some (JStr s) /\ (n <= String.length s)%nat.
Proof.
  unfold Zod.string_min, Zod.string_, Zod.invalid_type, Zod.required.
  destruct v as [[]|]; try discriminate.
  destruct (Nat.ltb_spec (String.length s0) n); [discriminate|].
  intros [= ->]. split; [reflexivity|assumption].
Qed.

Lemma loginSchema_accepts (body : Json) (username password : string) :
  loginSchema body = inr (username, password) ->
  body !! "username" = Some (JStr username)
  /\ body !! "password" = Some (JStr password)
  /\ (3 <= String.length username)%nat
  /\ (6 <= String.length password)%nat.
Proof.
  unfold loginSchema, Zod.ap.
  destruct (Zod.string_min 3 _ _ _) as [i|s] eqn:Hu;
    destruct (Zod.string_min 6 _ _ _) as [j|p] eqn:Hp; try discriminate.
  intros [= <- <-].
  apply string_min_length in Hu, Hp. tauto.
Qed.

(** X9: a login that passes [loginSchema], names an active account and
    gives the password its digest was made of is answered 200 with the id,
    username and role of the row.  The rows with that id get the time of the
    login as [lastLogin]; nothing else is written, and no audit entry. *)
Theorem login_success (db : Db) (body : Json) (username password : string)
  (a : Admin.t) :
  loginSchema body = inr (username, password) ->
  account db username a ->
  Admin.active a = true ->
  bcrypt_compare password (Admin.password a) = true ->
  exists db',
    routes.post_login body db = (Ok (Respond 200 (BUser (user_of a))), db')
    /\ admins db'
       = map (fun r => if Admin.id r =? Admin.id a
                       then logged_in_at (clock db) r else r) (admins db)
    /\ clients db' = clients db
    /\ interactions db' = interactions db
    /\ auditLogs db' = auditLogs db.
Proof.
  unfold account. intros Hschema Hfind Hactive Hcmp.
  apply getAdminByUsername_inv in Hfind as [Hnul Hfind].
  unfold routes.post_login, routes.verify, storage.validatePassword,
    storage.updateLastLogin.
  step_m. rewrite Hschema. cbn [fst snd].
  rewrite (getAdminByUsername_accepted _ _ Hnul), Hfind, Hactive, Hcmp. cbn.
  eexists. split; [reflexivity|]. cbn. repeat split.
Qed.

Lemma login_success_witness :
  exists db',
    routes.post_login (credentials "alice" "alice-secret") login_db
    = (Ok (Respond 200 (BUser (mkUser 1 "alice" "admin"))), db')
    /\ admins db'
       = map (fun r => if Admin.id r =? 1 then logged_in_at 2 r else r)
             (admins login_db)
    /\ clients db' = clients login_db
    /\ interactions db' = interactions login_db
    /\ auditLogs db' = auditLogs login_db.
Proof.
  apply (login_success login_db _ "alice" "alice-secret"
           (Admin.mk 1 "alice" (Digest 10 0 "alice-secret") "Alice A"
                     "alice@example.com" "admin" true None 0));
    reflexivity.
Defined.

(** X10: a login is answered 200 only if the body carries a username of
    at least 3 and a password of at least 6 characters, the first account of
    that name is active, and [bcrypt.compare] accepts the password for the
    text of its password column, which is no plain text; the user of the
    response is that account. *)
Theorem login_needs_password (db db' : Db) (body : Json) (u : User) :
  routes.post_login body db = (Ok (Respond 200 (BUser u)), db') ->
  exists username password a,
    body !! "username" = Some (JStr username)
    /\ body !! "password" = Some (JStr password)
    /\ (3 <= String.length username)%nat
    /\ (6 <= String.length password)%nat
    /\ account db username a
    /\ Admin.active a = true
    /\ bcrypt_compare password (Admin.password a) = true
    /\ (forall text, Admin.password a <> Plain text)
    /\ u = user_of a.
Proof.
  unfold account, routes.post_login, routes.verify, storage.validatePassword,
    storage.updateLastLogin.
  step_m.
  destruct (loginSchema body) as [issues|[username password]] eqn:Hschema;
    [discriminate|].
  cbn [fst snd]. unfold storage.getAdminByUsername. step_m.
  destruct (Pg.first_refused [Pg.text username]) eqn:Hparams; [discriminate|].
  cbn [fst snd].
  destruct (head _) as [a|] eqn:Hfind; [|discriminate].
  destruct (Admin.active a) eqn:Hactive; cbn; [|discriminate].
  destruct (bcrypt_compare password (Admin.password a)) eqn:Hcmp; cbn;
    [|discriminate].
  intros [= <- <-].
  destruct (loginSchema_accepts _ _ _ Hschema) as (Hu & Hp & Hlu & Hlp).
  exists username, password, a.
  repeat (split; [assumption|]).
  split; [now rewrite Hparams, Hfind|]. repeat (split; [assumption|]).
  split; [|reflexivity].
  unfold bcrypt_compare in Hcmp.
  destruct (Admin.password a) as [text|rounds salt p]; [discriminate|].
  discriminate.
Qed.

Lemma login_needs_password_witness :
  exists username password a,
    credentials "alice" "alice-secret" !! "username" = Some (JStr username)
    /\ credentials "alice" "alice-secret" !! "password" = Some (JStr password)
    /\ (3 <= String.length username)%nat
    /\ (6 <= String.length password)%nat
    /\ account login_db username a
    /\ Admin.active a = true
    /\ bcrypt_compare password (Admin.password a) = true
    /\ (forall text, Admin.password a <> Plain text)
    /\ mkUser 1 "alice" "admin" = user_of a.
Proof.
  apply (login_needs_password login_db
           (run (routes.post_login (credentials "alice" "alice-secret"))
                login_db)).
  reflexivity.
Defined.

(** ** From an account to a session *)

Lemma verify_accepts (db : Db) (username password : string) (a : Admin.t) :
  account db username a ->
  Admin.active a = true ->
  bcrypt_compare password (Admin.password a) = true ->
  result_of (routes.verify username password) db = Ok (DoneUser (user_of a)).
Proof.
  unfold account. intros Hfind Hactive Hcmp.
  apply getAdminByUsername_inv in Hfind as [Hnul Hfind].
  unfold routes.verify, storage.validatePassword, storage.updateLastLogin.
  step_m.
  now rewrite (getAdminByUsername_accepted _ _ Hnul), Hfind, Hactive, Hcmp.
Qed.


(** The account of a name no row had is the row appended. *)
Lemma account_appended (db db' : Db) (a : Admin.t) :
  Str.has_nul (Admin.username a) = false ->
  Pg.has_username (Admin.username a) db = false ->
  admins db' = (admins db ++ [a])%list ->
  account db' (Admin.username a) a.
Proof.
  unfold account, Pg.has_username, result_of. intros Hnul Hfree Hdb.
  rewrite (getAdminByUsername_accepted _ _ Hnul), Hdb.
  rewrite List.filter_app, (filter_none _ _ Hfree). cbn.
  now rewrite String.eqb_refl.
Qed.

Lemma createAdmin_row (db db' : Db) (v : Admin.insert) (a : Admin.t) :
  storage.createAdmin v db = (Ok a, db') ->
  a = Admin.mk (admins_id_seq db) (Admin.i_username v)
               (Digest 10 (entropy db) (Admin.i_password v))
               (Admin.i_fullName v) (Admin.i_email v)
               (default "user" (Admin.i_role v))
               (default true (Admin.i_active v)) None (clock db)
  /\ Pg.has_username (Admin.i_username v) db = false
  /\ Str.has_nul (Admin.i_username v) = false
  /\ admins db' = (admins db ++ [a])%list.
Proof.
  unfold storage.createAdmin, storage.insert_admins, Pg.nextval_admins.
  step_m. case_params; [discriminate|]. cbn.
  case_if; cbn; [discriminate|].
  case_if; cbn; [discriminate|].
  intros [= <- <-]. repeat split; [assumption|].
  unfold admin_insert_params in *.
  match goal with
  | H : Pg.first_refused _ = None |- _ =>
      apply first_refused_inv in H as [H _]; now apply text_accepted_inv
  end.
Qed.

(** X11: an admin that [createAdmin] stored, not switched off, passes the
    strategy's check with the username and password it was created with:
    the password is compared with the digest made of it.  The session user
    has the new id, and the role given or [user]. *)
Theorem created_admin_logs_in (db db' : Db) (v : Admin.insert) (a : Admin.t) :
  storage.createAdmin v db = (Ok a, db') ->
  Admin.i_active v <> Some false ->
  result_of (routes.verify (Admin.i_username v) (Admin.i_password v)) db'
  = Ok (DoneUser (mkUser (admins_id_seq db) (Admin.i_username v)
                         (default "user" (Admin.i_role v)))).
Proof.
  intros Hcreate Hactive.
  destruct (createAdmin_row _ _ _ _ Hcreate)
    as (Hrow & Hfree & Hnul & Hadmins).
  assert (Hname : Admin.username a = Admin.i_username v) by now subst a.
  rewrite <- Hname in Hfree, Hnul.
  rewrite (verify_accepts db' _ _ a).
  - now subst a.
  - rewrite <- Hname. exact (account_appended db db' a Hnul Hfree Hadmins).
  - subst a. cbn. destruct (Admin.i_active v) as [[]|]; cbn; congruence.
  - subst a. cbn. apply String.eqb_refl.
Qed.

Lemma created_admin_logs_in_witness :
  result_of (routes.verify "admin" "admin123") (run routes.seed empty_db)
  = Ok (DoneUser (mkUser 1 "admin" "admin")).
Proof.
  apply (created_admin_logs_in empty_db (run routes.seed empty_db)
           routes.default_admin
           (Admin.mk 1 "admin" (Digest 10 0 "admin123") "System Administrator"
                     "admin@travelcrm.com" "admin" true None 0)).
  - reflexivity.
  - discriminate.
Defined.

Lemma post_login_of_verify (db : Db) (body : Json) (username password : string)
  (u : User) :
  loginSchema body = inr (username, password) ->
  result_of (routes.verify username password) db = Ok (DoneUser u) ->
  result_of (routes.post_login body) db = Ok (Respond 200 (BUser u)).
Proof.
  intros Hschema. unfold routes.post_login. step_m. rewrite Hschema.
  cbn [fst snd]. destruct (routes.verify username password db) as [[d|e] db1].
  - cbn. now intros [= ->].
  - discriminate.
Qed.

Lemma seed_creates (db : Db) :
  admins db = [] ->
  exists a, storage.createAdmin routes.default_admin db
            = (Ok a, run routes.seed db).
Proof.
  intros Hempty.
  unfold routes.seed, storage.listAdmins, storage.createAdmin,
    storage.insert_admins.
  step_m. unfold Pg.nextval_admins, Pg.has_admin, Pg.has_username.
  cbn [admins]. rewrite Hempty. cbn. rewrite Hempty. cbn. eauto.
Qed.

(** X12: after a start on a store without admins, a login with the
    username [admin] and the password [admin123] is answered 200, with the
    role [admin]. *)
Theorem default_credentials_log_in (db : Db) :
  admins db = [] ->
  result_of (routes.post_login (credentials "admin" "admin123"))
            (perform Startup db)
  = Ok (Respond 200 (BUser (mkUser (admins_id_seq db) "admin" "admin"))).
Proof.
  intros Hempty. destruct (seed_creates db Hempty) as [a Hcreate].
  destruct (createAdmin_row _ _ _ _ Hcreate) as (Hrow & Hfree & _ & Hadmins).
  apply (post_login_of_verify _ _ "admin" "admin123"); [reflexivity|].
  rewrite (verify_accepts _ _ _ a).
  - now subst a.
  - replace "admin" with (Admin.username a) by now subst a.
    apply (account_appended db); [now subst a|now subst a|assumption].
  - now subst a.
  - now subst a.
Qed.

Lemma default_credentials_log_in_witness :
  result_of (routes.post_login (credentials "admin" "admin123"))
            (perform Startup empty_db)
  = Ok (Respond 200 (BUser (mkUser 1 "admin" "admin"))).
Proof. apply (default_credentials_log_in empty_db). reflexivity. Defined.

(** ** What a created row carries *)

Lemma createClient_row (db db1 : Db) (v : Client.insert) (c : Client.t) :
  storage.createClient v db = (Ok c, db1) ->
  Client.id c = clients_id_seq db
  /\ Client.createdAt c = clock db
  /\ Client.updatedAt c = clock db
  /\ Client.createdBy c = default None (Client.i_createdBy v)
  /\ Pg.has_client (Client.id c) db = false
  /\ Pg.in_int4 (Client.id c) = true
  /\ clients db1 = (clients db ++ [c])%list.
Proof.
  unfold storage.createClient, storage.insert_clients, Pg.nextval_clients.
  step_m. case_params; [discriminate|]. cbn.
  case_if; cbn; [|discriminate].
  case_if; cbn; [discriminate|].
  case_if; cbn; [discriminate|].
  intros [= <- <-]. repeat split; assumption.
Qed.

Lemma createInteraction_row (db db1 : Db) (v : Interaction.insert)
  (x : Interaction.t) :
  storage.createInteraction v db = (Ok x, db1) ->
  Interaction.id x = interactions_id_seq db
  /\ Interaction.clientId x = Interaction.i_clientId v
  /\ Interaction.createdBy x = default None (Interaction.i_createdBy v)
  /\ Interaction.createdAt x = clock db
  /\ Interaction.updatedAt x = clock db
  /\ Pg.has_interaction (Interaction.id x) db = false
  /\ Pg.in_int4 (Interaction.id x) = true
  /\ interactions db1 = (interactions db ++ [x])%list.
Proof.
  unfold storage.createInteraction, storage.insert_interactions,
    Pg.nextval_interactions.
  step_m. case_params; [discriminate|]. cbn.
  case_if; cbn; [|discriminate].
  case_if; cbn; [discriminate|].
  case_if; cbn; [discriminate|].
  case_if; cbn; [discriminate|].
  intros [= <- <-]. repeat split; assumption.
Qed.

(** The row appended under a free key is the one a lookup by key finds. *)
Lemma head_filter_snoc {A} (p : A -> bool) (l : list A) (a : A) :
  existsb p l = false -> p a = true ->
  head (List.filter p (l ++ [a])) = Some a.
Proof.
  intros Hfree Ha. rewrite List.filter_app, (filter_none _ _ Hfree). cbn.
  now rewrite Ha.
Qed.

Lemma insertInteractionSchema_overlay (body : Json) (i uid : Z)
  (v : Interaction.insert) :
  insertInteractionSchema
    (<["createdBy" := JNum uid]> (<["clientId" := JNum i]> body)) = inr v ->
  Interaction.i_clientId v = i
  /\ Interaction.i_createdBy v = Some (Some uid).
Proof.
  unfold insertInteractionSchema.
  rewrite lookup_insert_eq.
  rewrite !(lookup_insert_ne _ "createdBy") by discriminate.
  rewrite lookup_insert_eq.
  rewrite !(lookup_insert_ne _ "clientId") by discriminate.
  cbn [Zod.number Zod.optional Zod.nullable].
  destruct (Zod.enum _ _ _); destruct (Zod.string_ "title" _);
    destruct (Zod.string_ "description" _); destruct (Zod.coerce_date _ _);
    cbn; try discriminate.
  intros [= <-]. split; reflexivity.
Qed.

(** X13: the client of a 201 answer of [POST /api/clients] has the session
    user as [createdBy], whatever the body said, the next value of the id
    sequence as id and the time of the request in both timestamps; it is in
    the table, where a lookup by its id finds it. *)
Theorem created_client_is_stamped (db db' : Db) (u : User) (body : Json)
  (c : Client.t) :
  routes.post_clients (Some u) body db = (Ok (Respond 201 (BClient c)), db') ->
  Client.createdBy c = Some (user_id u)
  /\ Client.id c = clients_id_seq db
  /\ Client.createdAt c = clock db
  /\ Client.updatedAt c = clock db
  /\ clients db' = (clients db ++ [c])%list
  /\ result_of (storage.getClient (Client.id c)) db' = Ok (Some c).
Proof.
  intros H.
  destruct (post_clients_success _ _ _ _ _ H eq_refl)
    as (v & c' & db1 & _ & Hcreate & _ & -> & [= <-]).
  destruct (createClient_row _ _ _ _ Hcreate)
    as (Hid & Hat & Hup & Hby & Hfree & Hrange & Hclients).
  repeat split; try assumption.
  unfold result_of. rewrite (getClient_accepted _ _ Hrange).
  cbn [fst clients audit_appended with_auditLogs audit_tried].
  rewrite Hclients. f_equal.
  apply head_filter_snoc; [exact Hfree|apply Z.eqb_refl].
Qed.

Lemma created_client_is_stamped_witness :
  Client.createdBy ann = Some (user_id alice)
  /\ Client.id ann = clients_id_seq crm_db
  /\ Client.createdAt ann = clock crm_db
  /\ Client.updatedAt ann = clock crm_db
  /\ clients (run (routes.post_clients (Some alice) new_client) crm_db)
     = (clients crm_db ++ [ann])%list
  /\ result_of (storage.getClient (Client.id ann))
               (run (routes.post_clients (Some alice) new_client) crm_db)
     = Ok (Some ann).
Proof.
  apply (created_client_is_stamped crm_db
           (run (routes.post_clients (Some alice) new_client) crm_db)
           alice new_client ann).
  reflexivity.
Defined.

(** X14: the interaction of a 201 answer of
    [POST /api/clients/:clientId/interactions] belongs to the client of the
    address, a client of the table, and has the session user as
    [createdBy], whatever the body said of either; it is the last row of the
    table, and a lookup by its id finds it. *)
Theorem created_interaction_is_stamped (db db' : Db) (u : User)
  (clientId : string) (body : Json) (x : Interaction.t) :
  routes.post_interactions (Some u) clientId body db
  = (Ok (Respond 201 (BInteraction x)), db') ->
  Str.parseInt clientId = Some (Interaction.clientId x)
  /\ Pg.has_client (Interaction.clientId x) db = true
  /\ Interaction.createdBy x = Some (user_id u)
  /\ Interaction.id x = interactions_id_seq db
  /\ interactions db' = (interactions db ++ [x])%list
  /\ result_of (storage.getInteraction (Interaction.id x)) db' = Ok (Some x).
Proof.
  intros H.
  destruct (post_interactions_success _ _ _ _ _ _ H eq_refl)
    as (i & c & v & x' & db1 & Hparse & Hclient & Hschema & Hcreate & _ & ->
        & [= <-]).
  destruct (insertInteractionSchema_overlay _ _ _ _ Hschema) as [Hi Hu].
  destruct (createInteraction_row _ _ _ _ Hcreate)
    as (Hid & Hcid & Hby & _ & _ & Hfree & Hrange & Hrows).
  rewrite Hcid, Hi, Hby, Hu. repeat split; try assumption.
  - destruct (getClient_found _ _ _ Hclient) as [rest Hrest].
    apply has_client_In. apply in_map_iff. exists c.
    assert (Hin : In c (List.filter (fun c => Client.id c =? i) (clients db)))
      by (rewrite Hrest; now left).
    apply filter_In in Hin. destruct Hin as [Hin Heq].
    split; [now apply Z.eqb_eq|assumption].
  - unfold result_of. rewrite (getInteraction_accepted _ _ Hrange).
    cbn [fst interactions audit_appended with_auditLogs audit_tried].
    rewrite Hrows. f_equal.
    apply head_filter_snoc; [exact Hfree|apply Z.eqb_refl].
Qed.

Lemma created_interaction_is_stamped_witness :
  Str.parseInt "1" = Some (Interaction.clientId visit)
  /\ Pg.has_client (Interaction.clientId visit) crm_db = true
  /\ Interaction.createdBy visit = Some (user_id alice)
  /\ Interaction.id visit = interactions_id_seq crm_db
  /\ interactions
       (run (routes.post_interactions (Some alice) "1" site_visit) crm_db)
     = (interactions crm_db ++ [visit])%list
  /\ result_of (storage.getInteraction (Interaction.id visit))
       (run (routes.post_interactions (Some alice) "1" site_visit) crm_db)
     = Ok (Some visit).
Proof.
  apply (created_interaction_is_stamped crm_db
           (run (routes.post_interactions (Some alice) "1" site_visit) crm_db)
           alice "1" site_visit visit).
  reflexivity.
Defined.

(** ** Listings *)

Section Ordering.

Context {A : Type} (le : A -> A -> bool).

Hypothesis le_total : forall a b, le a b = true \/ le b a = true.
Hypothesis le_trans : forall a b c, le a b = true -> le b c = true -> le a c = true.

Lemma insert_by_perm (x : A) (l : list A) :
  Permutation (Pg.insert_by le x l) (x :: l).
Proof.
  induction l as [|y l IH]; cbn; [reflexivity|].
  destruct (le x y); [reflexivity|].
  rewrite IH. apply perm_swap.
Qed.

Lemma order_by_perm (l : list A) : Permutation (Pg.order_by le l) l.
Proof.
  unfold Pg.order_by. induction l as [|x l IH]; cbn; [reflexivity|].
  rewrite insert_by_perm. now constructor.
Qed.

Lemma insert_by_sorted (x : A) (l : list A) :
  StronglySorted (fun a b => le a b = true) l ->
  StronglySorted (fun a b => le a b = true) (Pg.insert_by le x l).
Proof.
  induction 1 as [|y l Hl IH Hy]; cbn.
  - repeat constructor.
  - destruct (le x y) eqn:Hxy.
    + constructor; [now constructor|].
      constructor; [exact Hxy|].
      eapply List.Forall_impl; [|exact Hy].
      intros z Hz. exact (le_trans _ _ _ Hxy Hz).
    + constructor; [exact IH|].
      assert (Hall : Forall (fun b => le y b = true) (x :: l)).
      { constructor; [|exact Hy].
        destruct (le_total x y) as [H|H]; [congruence|exact H]. }
      rewrite List.Forall_forall in *. intros z Hz. apply Hall.
      apply (Permutation_in _ (insert_by_perm x l) Hz).
Qed.

Lemma order_by_sorted (l : list A) :
  StronglySorted (fun a b => le a b = true) (Pg.order_by le l).
Proof.
  unfold Pg.order_by. induction l as [|x l IH]; cbn; [constructor|].
  now apply insert_by_sorted.
Qed.

End Ordering.

Lemma sorted_firstn {A} (R : A -> A -> Prop) (n : nat) (l : list A) :
  StronglySorted R l -> StronglySorted R (firstn n l).
Proof.
  intros H. revert n. induction H as [|x l Hl IH Hx]; intros [|n]; cbn;
    try constructor.
  - apply IH.
  - rewrite List.Forall_forall in *. intros y Hy. apply Hx.
    rewrite <- (firstn_skipn n l). apply in_or_app. now left.
Qed.

(** In a sorted list, the rows a [LIMIT] lets through come before those it
    leaves out. *)
Lemma sorted_firstn_skipn {A} (R : A -> A -> Prop) (n : nat) (l : list A) :
  StronglySorted R l ->
  forall a b, In a (firstn n l) -> In b (skipn n l) -> R a b.
Proof.
  intros H. revert n. induction H as [|x l Hl IH Hx]; intros [|n] a b; cbn;
    try tauto.
  intros [<-|Ha] Hb.
  - rewrite List.Forall_forall in Hx. apply Hx.
    rewrite <- (firstn_skipn n l). apply in_or_app. now right.
  - now apply (IH n).
Qed.

Lemma sorted_impl {A} (R S : A -> A -> Prop) (l : list A) :
  (forall a b, R a b -> S a b) -> StronglySorted R l -> StronglySorted S l.
Proof.
  intros HRS. induction 1 as [|x l Hl IH Hx]; constructor; [exact IH|].
  eapply List.Forall_impl; [|exact Hx]. intros b. apply HRS.
Qed.

(** [ORDER BY key DESC]: the rows, each once, a greater key first. *)
Lemma order_by_desc {A} (key : A -> Z) (l : list A) :
  Permutation (Pg.order_by (fun a b => key b <=? key a) l) l
  /\ StronglySorted (fun a b => key b <= key a)
                    (Pg.order_by (fun a b => key b <=? key a) l).
Proof.
  split; [apply order_by_perm|].
  apply (sorted_impl (fun a b => (key b <=? key a) = true)).
  - intros a b. apply Z.leb_le.
  - apply order_by_sorted.
    + intros a b. rewrite !Z.leb_le. lia.
    + intros a b c. rewrite !Z.leb_le. lia.
Qed.

(** [ORDER BY key DESC LIMIT n]: [n] rows, or all there are; a greater key
    first; no row left out has a greater key than a row let through. *)
Lemma limit_order_by_desc {A} (key : A -> Z) (n : nat) (l : list A) :
  length (Pg.limit n (Pg.order_by (fun a b => key b <=? key a) l))
  = Nat.min n (length l)
  /\ StronglySorted (fun a b => key b <= key a)
       (Pg.limit n (Pg.order_by (fun a b => key b <=? key a) l))
  /\ exists rest,
       Permutation
         (Pg.limit n (Pg.order_by (fun a b => key b <=? key a) l) ++ rest) l
       /\ forall a b,
            In a (Pg.limit n (Pg.order_by (fun a b => key b <=? key a) l)) ->
            In b rest -> key b <= key a.
Proof.
  destruct (order_by_desc key l) as [Hperm Hsorted].
  unfold Pg.limit. split; [|split].
  - now rewrite length_firstn, order_by_length.
  - now apply sorted_firstn.
  - exists (skipn n (Pg.order_by (fun a b => key b <=? key a) l)). split.
    + now rewrite firstn_skipn.
    + apply (sorted_firstn_skipn _ _ _ Hsorted).
Qed.

(** X15: [GET /api/clients] without a search text answers 200 with 100
    clients, or with all if there are fewer, the most recently updated
    first; every client left out was updated no later than every client
    listed.  The store is not written. *)
Theorem clients_listed_recent_first (db : Db) (u : User) :
  exists l rest,
    serve (Some u) (ListClients None) db = (Ok (Respond 200 (BClients l)), db)
    /\ length l = Nat.min 100 (length (clients db))
    /\ StronglySorted
         (fun a b => Client.updatedAt b <= Client.updatedAt a) l
    /\ Permutation (l ++ rest) (clients db)
    /\ forall a b, In a l -> In b rest ->
                   Client.updatedAt b <= Client.updatedAt a.
Proof.
  destruct (limit_order_by_desc Client.updatedAt 100 (clients db))
    as (Hlen & Hsorted & rest & Hperm & Hrest).
  exists (Pg.limit 100 (Pg.order_by storage.client_recent_first (clients db))),
    rest.
  split; [reflexivity|]. repeat split; assumption.
Qed.

(** X16: [GET /api/audit-logs] answers 200 with 100 entries, or with all
    if there are fewer, the newest first; every entry left out is no newer
    than every entry listed.  The store is not written. *)
Theorem audit_logs_listed_newest_first (db : Db) (u : User) :
  exists l rest,
    serve (Some u) ListAuditLogs db = (Ok (Respond 200 (BAuditLogs l)), db)
    /\ length l = Nat.min 100 (length (auditLogs db))
    /\ StronglySorted
         (fun a b => AuditLog.createdAt b <= AuditLog.createdAt a) l
    /\ Permutation (l ++ rest) (auditLogs db)
    /\ forall a b, In a l -> In b rest ->
                   AuditLog.createdAt b <= AuditLog.createdAt a.
Proof.
  destruct (limit_order_by_desc AuditLog.createdAt 100 (auditLogs db))
    as (Hlen & Hsorted & rest & Hperm & Hrest).
  exists (Pg.limit 100 (Pg.order_by storage.log_newest_first (auditLogs db))),
    rest.
  split; [reflexivity|]. repeat split; assumption.
Qed.

(** X17: for a client of the table, [GET /api/clients/:clientId/interactions]
    answers 200 with the interactions of that client, each once and no
    other, the latest date first.  The store is not written. *)
Theorem interactions_listed_latest_first (db : Db) (u : User)
  (clientId : string) (i : Z) (c : Client.t) :
  Str.parseInt clientId = Some i ->
  result_of (storage.getClient i) db = Ok (Some c) ->
  exists l,
    serve (Some u) (ListInteractions clientId) db
    = (Ok (Respond 200 (BInteractions l)), db)
    /\ Permutation l (List.filter (fun x => Interaction.clientId x =? i)
                                  (interactions db))
    /\ StronglySorted
         (fun a b => Interaction.date b <= Interaction.date a) l.
Proof.
  intros Hparse Hclient.
  destruct (order_by_desc Interaction.date
              (List.filter (fun x => Interaction.clientId x =? i)
                           (interactions db))) as [Hperm Hsorted].
  eexists. split; [|split; [exact Hperm|exact Hsorted]].
  cbn [serve]. unfold routes.get_interactions, routes.requireAuth.
  unfold try_catch, bind. rewrite Hparse, getClient_eq, Hclient.
  apply getClient_inv in Hclient as [Hrange _].
  unfold storage.listInteractionsByClient, bind.
  rewrite (bind_int4_accepted _ _ Hrange). reflexivity.
Qed.

Lemma interactions_listed_latest_first_witness :
  exists l,
    serve (Some alice) (ListInteractions "1") crm_db
    = (Ok (Respond 200 (BInteractions l)), crm_db)
    /\ Permutation l (List.filter (fun x => Interaction.clientId x =? 1)
                                  (interactions crm_db))
    /\ StronglySorted
         (fun a b => Interaction.date b <= Interaction.date a) l.
Proof.
  apply (interactions_listed_latest_first crm_db alice "1" 1 john);
    reflexivity.
Defined.

(** X18: [GET /api/admins] answers an admin 200 with every row of the
    table once, each without its password.  The store is not written. *)
Theorem admins_listed_once (db : Db) (u : User) :
  user_role u = "admin" ->
  exists l,
    serve (Some u) ListAdmins db = (Ok (Respond 200 (BAdmins l)), db)
    /\ Permutation l (map Admin.sanitize (admins db)).
Proof.
  intros Hrole. eexists. split.
  - cbn [serve]. unfold routes.get_admins, routes.requireAdmin.
    rewrite Hrole. reflexivity.
  - apply Permutation_map. apply order_by_perm.
Qed.

Lemma admins_listed_once_witness :
  exists l,
    serve (Some alice) ListAdmins login_db
    = (Ok (Respond 200 (BAdmins l)), login_db)
    /\ Permutation l (map Admin.sanitize (admins login_db)).
Proof. apply (admins_listed_once login_db alice). reflexivity. Defined.

(** ** Searching *)

Lemma like_defined_upto (n : nat) (p : string) :
  (String.length p <= n)%nat -> ends_in_escape p = false ->
  forall s, Like.like p s <> None.
Proof.
  revert p. induction n as [|n IH]; intros [|c p] Hlen Hend s;
    cbn in Hlen; try lia.
  - destruct s; discriminate.
  - destruct s; discriminate.
  - cbn [Like.like]. cbn [ends_in_escape] in Hend.
    destruct (Ascii.eqb_spec c "%") as [->|_];
      [|destruct (Ascii.eqb_spec c "_") as [->|_];
        [|destruct (Ascii.eqb_spec c "\") as [->|_]]].
    + cbn in Hend.
      induction s as [|e s IHs].
      * generalize (IH p ltac:(lia) Hend ""%string).
        destruct (Like.like p "") as [[]|]; congruence.
      * generalize (IH p ltac:(lia) Hend (String e s)).
        destruct (Like.like p (String e s)) as [[]|]; congruence.
    + cbn in Hend. destruct s as [|e s]; [discriminate|].
      apply IH; [lia|assumption].
    + destruct p as [|d p]; [discriminate|].
      destruct s as [|e s]; [discriminate|].
      destruct (Ascii.eqb d e); [|discriminate].
      apply IH; [cbn in Hlen; lia|assumption].
    + destruct s as [|e s]; [discriminate|].
      destruct (Ascii.eqb c e); [|discriminate].
      apply IH; [lia|assumption].
Qed.

Lemma ends_in_percent_upto (n : nat) (p : string) :
  (String.length p <= n)%nat -> ends_in_escape (p ++ "%") = false.
Proof.
  revert p. induction n as [|n IH]; intros [|c p] Hlen; cbn in Hlen;
    try lia; try reflexivity.
  change (String c p ++ "%") with (String c (p ++ "%")).
  cbn [ends_in_escape].
  destruct (Ascii.eqb c "\"); [|apply IH; lia].
  destruct p as [|d p]; [reflexivity|].
  change (String d p ++ "%") with (String d (p ++ "%")).
  apply IH. cbn in Hlen. lia.
Qed.

(** A search pattern is never refused: it ends in [%]. *)
Lemma ilike_search_defined (text query : string) :
  Like.ilike text ("%" ++ query ++ "%") <> None.
Proof.
  unfold Like.ilike.
  apply (like_defined_upto (String.length (Str.lower ("%" ++ query ++ "%"))));
    [lia|].
  change ("%" ++ query ++ "%") with (String "%" (query ++ "%")).
  cbn [Str.lower]. rewrite lower_app.
  change (Str.lower_char "%") with "%"%char.
  change (Str.lower "%") with "%".
  cbn [ends_in_escape]. change (Ascii.eqb "%" "\") with false. cbv iota.
  apply (ends_in_percent_upto (String.length (Str.lower query))). lia.
Qed.

Lemma search_matches_defined (query : string) (c : Client.t) :
  exists b, storage.search_matches query c = Some b.
Proof.
  unfold storage.search_matches.
  generalize (ilike_search_defined
                (Client.firstName c ++ " " ++ Client.lastName c) query),
    (ilike_search_defined (Client.email c) query),
    (ilike_search_defined (Client.phone c) query).
  cbv zeta.
  destruct (Like.ilike _ _) as [[]|]; [cbn; eauto| |congruence].
  destruct (Like.ilike _ _) as [[]|]; [cbn; eauto| |congruence].
  destruct (Like.ilike _ _) as [[]|]; [cbn; eauto|cbn; eauto|congruence].
Qed.

Lemma searchClients_defined (db : Db) (query : string) :
  Str.has_nul query = false ->
  exists keep,
    storage.searchClients query db = (Ok (List.filter keep (clients db)), db).
Proof.
  intros Hnul.
  exists (fun c => match storage.search_matches query c with
                   | Some b => b
                   | None => false
                   end).
  unfold storage.searchClients. step_m. rewrite search_params, Hnul.
  rewrite (where_total _ (fun c => match storage.search_matches query c with
                                   | Some b => b
                                   | None => false
                                   end)); [reflexivity|].
  intros c. destruct (search_matches_defined query c) as [b ->]. reflexivity.
Qed.

(** X19: [GET /api/clients] answers 200 with clients of the table,
    whatever the search text, so long as it holds no character U+0000: no
    such text makes the search fail, also not one that ends in a
    backslash.  The store is not written. *)
Theorem client_search_never_fails (db : Db) (u : User) (q : option string) :
  (forall s, q = Some s -> Str.has_nul s = false) ->
  exists l,
    serve (Some u) (ListClients q) db = (Ok (Respond 200 (BClients l)), db)
    /\ forall c, In c l -> In c (clients db).
Proof.
  intros Hnul.
  assert (Hlist : exists l,
             storage.listClients None db = (Ok l, db)
             /\ forall c, In c l -> In c (clients db)).
  { eexists. split; [reflexivity|]. intros c Hc. cbn [default] in Hc.
    unfold Pg.limit in Hc.
    apply (Permutation_in _ (order_by_perm storage.client_recent_first _)).
    rewrite <- (firstn_skipn 100 (Pg.order_by _ _)).
    apply in_or_app. now left. }
  assert (Hsearch : forall s, Str.has_nul s = false -> exists l,
             storage.searchClients s db = (Ok l, db)
             /\ forall c, In c l -> In c (clients db)).
  { intros s Hs. destruct (searchClients_defined db s Hs) as [keep Hkeep].
    eexists. split; [exact Hkeep|]. intros c Hc.
    apply filter_In in Hc. tauto. }
  cbn [serve]. unfold routes.get_clients, routes.requireAuth, try_catch, bind.
  destruct q as [s|].
  - destruct (storage.truthy s).
    + destruct (Hsearch s (Hnul s eq_refl)) as [l [-> Hl]]. now exists l.
    + destruct Hlist as [l [-> Hl]]. now exists l.
  - destruct Hlist as [l [-> Hl]]. now exists l.
Qed.

Lemma client_search_never_fails_witness :
  exists l,
    serve (Some alice) (ListClients (Some "100\")) crm_db
    = (Ok (Respond 200 (BClients l)), crm_db)
    /\ forall c, In c l -> In c (clients crm_db).
Proof.
  apply (client_search_never_fails crm_db alice (Some "100\")).
  intros s [= <-]. reflexivity.
Defined.

(** ** Requests addressed to a row *)



(** X20: a request whose [:id] or [:clientId] does not start with a number
    is answered 400, and the store is left as it was. *)
Theorem invalid_id_is_bad_request (db : Db) (u : User) (r : Request)
  (id : string) :
  path_id r = Some id ->
  Str.parseInt id = None ->
  (admin_only r = true -> user_role u = "admin") ->
  exists message,
    serve (Some u) r db = (Ok (Respond 400 (BMessage message)), db).
Proof.
  intros Hid Hparse Hrole.
  destruct r as [body | | q | s | s | | s | m]; try discriminate;
    [| | |destruct m as [body|s body|body|s body|s|s body|s body|s]];
    try discriminate; injection Hid as ->; cbn [serve handle];
    try (unfold routes.put_admin, routes.requireAdmin;
         rewrite (Hrole eq_refl); cbn [String.eqb Ascii.eqb Bool.eqb negb]);
    unfold routes.get_client, routes.get_interactions,
      routes.get_client_audit_logs, routes.put_client, routes.delete_client,
      routes.post_interactions, routes.put_interaction,
      routes.delete_interaction, routes.requireAuth, try_catch, bind, ret;
    rewrite Hparse; eexists; reflexivity.
Qed.

Lemma invalid_id_is_bad_request_witness :
  exists message,
    serve (Some alice) (Mutate (DeleteClient "first")) crm_db
    = (Ok (Respond 400 (BMessage message)), crm_db).
Proof.
  apply (invalid_id_is_bad_request crm_db alice _ "first");
    [reflexivity|reflexivity|discriminate].
Defined.

(** X21: a request addressed to a client or an interaction that is not
    in the table, by a number that an [integer] column holds, is answered
    404, before the body is looked at, and the store is left as it was. *)
Theorem missing_row_is_not_found (db : Db) (u : User) (r : Request)
  (id : string) (i : Z) :
  path_id r = Some id ->
  Str.parseInt id = Some i ->
  Pg.in_int4 i = true ->
  row_missing db r i ->
  exists message,
    serve (Some u) r db = (Ok (Respond 404 (BMessage message)), db).
Proof.
  intros Hid Hparse Hrange Hmissing.
  destruct r as [body | | q | s | s | | s | m]; try discriminate;
    [| | |destruct m as [body|s body|body|s body|s|s body|s body|s]];
    try discriminate; try contradiction; injection Hid as ->;
    cbn [serve handle]; cbv in Hmissing;
    unfold routes.get_client, routes.get_interactions,
      routes.get_client_audit_logs, routes.put_client, routes.delete_client,
      routes.post_interactions, routes.put_interaction,
      routes.delete_interaction, routes.requireAuth, try_catch, bind, ret;
    rewrite Hparse, ?getClient_eq, ?getInteraction_eq;
    first [ rewrite (getClient_missing db i Hrange Hmissing)
          | rewrite (getInteraction_missing db i Hrange Hmissing) ];
    eexists; reflexivity.
Qed.

Lemma missing_row_is_not_found_witness :
  exists message,
    serve (Some alice) (Mutate (CreateInteraction "7" site_visit)) crm_db
    = (Ok (Respond 404 (BMessage message)), crm_db).
Proof.
  apply (missing_row_is_not_found crm_db alice _ "7" 7); reflexivity.
Defined.

(** ** Admins: names taken, and updates of nothing *)

Lemma admin_insert_refusal (v : Admin.insert) (e : Exn) :
  Pg.first_refused (admin_insert_params v) = Some e ->
  exists m, e = PgError m.
Proof.
  unfold admin_insert_params, Pg.first_refused, Pg.opt, Pg.text,
    Pg.invalid_byte_sequence.
  destruct (Admin.i_role v);
    repeat match goal with
           | |- context [if ?b then _ else _] => destruct b
           end;
    try discriminate; intros [= <-]; eauto.
Qed.

Lemma createAdmin_duplicate (db : Db) (v : Admin.insert) :
  Pg.has_username (Admin.i_username v) db = true ->
  exists e, result_of (storage.createAdmin v) db = Throw (PgError e)
            /\ same_tables (run (storage.createAdmin v) db) db.
Proof.
  intros Hdup.
  unfold storage.createAdmin, storage.insert_admins, Pg.nextval_admins.
  step_m.
  destruct (Pg.first_refused _) as [e|] eqn:Hparams.
  { destruct (admin_insert_refusal v e Hparams) as [m ->].
    exists m. repeat split. }
  cbn. unfold Pg.unique_violation.
  case_if; cbn; [eexists; repeat split|].
  change (Pg.has_username (Admin.i_username v) db) with
    (existsb (fun a => String.eqb (Admin.username a) (Admin.i_username v))
             (admins db)) in Hdup.
  rewrite Hdup. cbn. eexists. repeat split.
Qed.

(** X22: [POST /api/admins] with a username that a row of the table has
    is not answered by the handler: the error of the insert goes to [next].
    No admin is inserted and no audit entry written. *)
Theorem duplicate_username_refused (db : Db) (u : User) (body : Json)
  (v : Admin.insert) :
  user_role u = "admin" ->
  insertAdminSchema body = inr v ->
  Pg.has_username (Admin.i_username v) db = true ->
  (exists e, result_of (serve (Some u) (Mutate (CreateAdmin body))) db
             = Ok (Next (PgError e)))
  /\ same_tables (run (serve (Some u) (Mutate (CreateAdmin body))) db) db.
Proof.
  intros Hrole Hschema Hdup.
  destruct (createAdmin_duplicate db v Hdup) as [e [He Hsame]].
  cbn [serve handle]. unfold routes.post_admins, routes.requireAdmin.
  rewrite Hrole. cbn [String.eqb Ascii.eqb Bool.eqb negb].
  unfold result_of, run, try_catch, bind, Zod.parse in *. rewrite Hschema.
  cbv beta iota delta [ret].
  destruct (storage.createAdmin v db) as [[a|e'] db1]; cbn [fst snd] in *;
    [discriminate|].
  injection He as ->. cbn. split; [eauto|assumption].
Qed.

Lemma duplicate_username_refused_witness :
  (exists e, result_of (serve (Some alice) (Mutate (CreateAdmin second_alice)))
                       crm_db
             = Ok (Next (PgError e)))
  /\ same_tables (run (serve (Some alice) (Mutate (CreateAdmin second_alice)))
                      crm_db) crm_db.
Proof.
  apply (duplicate_username_refused crm_db alice second_alice
           (Admin.mk_insert "alice" "another-secret" "Alice B"
                            "alice.b@example.com" None None));
    reflexivity.
Defined.

Lemma admin_set_is_empty_iff {A} (v : Admin.partial) (pw : option A) :
  (Admin.p_password v = None <-> pw = None) ->
  admin_set_is_empty v pw = true <-> v = Admin.empty.
Proof.
  intros Hpw. unfold admin_set_is_empty, Admin.empty.
  destruct v as [i n p f e r a l c]; cbn in *.
  split.
  - destruct i, n, pw, f, e, r, a, l, c; try discriminate.
    intros _. destruct p; [|reflexivity].
    destruct Hpw as [_ H]. now specialize (H eq_refl).
  - intros [= -> -> -> -> -> -> -> -> ->].
    destruct Hpw as [H _]. now rewrite (H eq_refl).
Qed.

(** The password [updateAdmin] hands to [.set], when it takes the one it
    is given. *)
Lemma updateAdmin_password (db : Db) (v : Admin.partial) :
  password_taken v = true ->
  exists (pw : option (option PasswordText)) db1,
    (Admin.p_password v = None <-> pw = None)
    /\ same_tables db1 db
    /\ (Admin.p_password v = None -> db1 = db)
    /\ forall id,
         storage.updateAdmin id v db
         = (rows <- storage.update_admins id v pw ;; ret (head rows)) db1.
Proof.
  unfold storage.updateAdmin, password_taken.
  destruct (Admin.p_password v) as [p|];
    [|intros _; exists None, db; repeat split; trivial].
  destruct (storage.truthy_value p) eqn:Htruthy.
  - destruct p as [|b|n|t]; try discriminate. intros _.
    eexists _, _. split; [|split; [|split]]; cycle 3.
    + intros id. unfold bind at 1 2. unfold bcrypt_hash, ret. reflexivity.
    + split; discriminate.
    + repeat split.
    + discriminate.
  - intros _. exists (Some (Plain <$> storage.driver_text p)), db.
    repeat split; try discriminate.
Qed.

Lemma admin_update_params_accepted (id : Z) (v : Admin.partial) :
  Pg.in_int4 id = true ->
  Admin.p_id v = None ->
  nul_free (admin_texts v) ->
  Pg.first_refused (admin_update_params id v) = None.
Proof.
  intros Hrange Hid. unfold nul_free, admin_texts.
  rewrite !List.Forall_app. intros (H1 & H2 & H3 & H4).
  unfold admin_update_params. rewrite Hid.
  rewrite (opt_text_accepted _ H1), (opt_text_accepted _ H2),
    (opt_text_accepted _ H3), (opt_text_accepted _ H4),
    (int4_accepted _ Hrange).
  reflexivity.
Qed.

(** An update that finds no row returns none and writes none. *)
Lemma update_admins_missing (db : Db) (id : Z) (v : Admin.partial)
  (pw : option (option PasswordText)) :
  admin_set_is_empty v pw = false ->
  Pg.first_refused (admin_update_params id v) = None ->
  Pg.has_admin id db = false ->
  exists db', storage.update_admins id v pw db = (Ok [], db')
              /\ same_tables db' db.
Proof.
  intros Hempty Hparams Hmissing.
  assert (Hnone : List.filter (fun a => Admin.id a =? id) (admins db) = [])
    by now apply filter_none.
  unfold storage.update_admins, storage.set_admins, Pg.reject_if,
    Pg.bind_params, Pg.query, bind, ret.
  rewrite Hempty, Hparams.
  assert (Hkept : Pg.update_where (fun a => Admin.id a =? id)
                    (admin_set v (mjoin pw)) (admins db) = admins db).
  { apply update_where_none. intros a Ha.
    destruct (Z.eqb_spec (Admin.id a) id) as [Heq|]; [|reflexivity].
    exfalso.
    assert (In a (List.filter (fun a => Admin.id a =? id) (admins db))).
    { apply filter_In. split; [assumption|now apply Z.eqb_eq]. }
    now rewrite Hnone in *. }
  destruct pw as [[text|]|]; cbn [mjoin option_join] in Hkept;
    rewrite ?Hnone; cbn; rewrite ?Hkept; eexists; repeat split.
Qed.

(** X23: [PUT /api/admins/:id] with the body [{}] is answered by no
    handler: drizzle's error "No values to set" goes to [next], whether or
    not the admin exists, and the store is left as it was.  With a body
    that sets a name, an email, a role, the switch or a password that is a
    string or a value JavaScript takes for false, no text with U+0000, and
    neither the id nor a time, and with an id that an [integer] column
    holds and no row has, it is answered 404, and no table is written. *)
Theorem update_admin_edge_cases (db : Db) (u : User) (id : string) (i : Z)
  (body : Admin.partial) :
  user_role u = "admin" ->
  Str.parseInt id = Some i ->
  (body = Admin.empty ->
   serve (Some u) (Mutate (UpdateAdmin id body)) db
   = (Ok (Next (JsError "No values to set")), db))
  /\ (body <> Admin.empty ->
      Pg.in_int4 i = true ->
      Pg.has_admin i db = false ->
      Admin.p_id body = None ->
      Admin.p_lastLogin body = None ->
      Admin.p_createdAt body = None ->
      nul_free (admin_texts body) ->
      password_taken body = true ->
      result_of (serve (Some u) (Mutate (UpdateAdmin id body))) db
      = Ok (Respond 404 (BMessage "Admin not found"))
      /\ same_tables (run (serve (Some u) (Mutate (UpdateAdmin id body))) db)
                     db).
Proof.
  intros Hrole Hparse.
  cbn [serve handle]. unfold routes.put_admin, routes.requireAdmin.
  rewrite Hrole. cbn [String.eqb Ascii.eqb Bool.eqb negb].
  rewrite Hparse. split.
  - intros ->.
    unfold storage.updateAdmin, storage.update_admins, try_catch, bind, ret.
    reflexivity.
  - intros Hbody Hrange Hmissing Hid _ _ Htexts Htaken.
    destruct (updateAdmin_password db body Htaken)
      as (pw & db1 & Hpw & Hsame & Hdb & Hupd).
    pose proof (admin_set_is_empty_iff body pw Hpw) as Hempty.
    destruct (update_admins_missing db1 i body pw) as [db2 [Hrows Hsame2]].
    + destruct (admin_set_is_empty body pw); [|reflexivity].
      exfalso. apply Hbody. now apply Hempty.
    + now apply admin_update_params_accepted.
    + unfold Pg.has_admin in *. destruct Hsame as (-> & _). exact Hmissing.
    + unfold result_of, run, try_catch. unfold bind at 1 3.
      rewrite !Hupd. unfold bind. rewrite Hrows. cbn.
      destruct Hsame as (? & ? & ? & ?), Hsame2 as (? & ? & ? & ?).
      repeat split; congruence.
Qed.

Lemma update_admin_edge_cases_witness :
  serve (Some alice) (Mutate (UpdateAdmin "1" Admin.empty)) crm_db
  = (Ok (Next (JsError "No values to set")), crm_db)
  /\ result_of (serve (Some alice) (Mutate (UpdateAdmin "9" name_only))) crm_db
     = Ok (Respond 404 (BMessage "Admin not found"))
  /\ same_tables (run (serve (Some alice) (Mutate (UpdateAdmin "9" name_only)))
                      crm_db) crm_db.
Proof.
  split.
  - apply (proj1 (update_admin_edge_cases crm_db alice "1" 1 Admin.empty
                    eq_refl eq_refl)).
    reflexivity.
  - apply (proj2 (update_admin_edge_cases crm_db alice "9" 9 name_only
                    eq_refl eq_refl)); try reflexivity.
    + discriminate.
    + repeat constructor.
Defined.

(** ** Deleting an interaction *)

Lemma existsb_filter_out {A} (p : A -> bool) (l : list A) :
  existsb p (List.filter (fun a => negb (p a)) l) = false.
Proof.
  induction l as [|x l IH]; cbn; [reflexivity|].
  destruct (p x) eqn:Hx; cbn; [exact IH|]. now rewrite Hx.
Qed.

(** X24: when [DELETE /api/interactions/:id] is answered 200 the
    interactions with that id are gone, the other interactions, the clients
    and the admins are as they were, and the same request again, by
    whichever user, is answered 404. *)
Theorem deleted_interaction_is_gone (db db' : Db) (u : User) (id : string)
  (body : Body) :
  serve (Some u) (Mutate (DeleteInteraction id)) db
  = (Ok (Respond 200 body), db') ->
  exists i,
    Str.parseInt id = Some i
    /\ interactions db'
       = List.filter (fun x => negb (Interaction.id x =? i)) (interactions db)
    /\ clients db' = clients db
    /\ admins db' = admins db
    /\ forall u',
         serve (Some u') (Mutate (DeleteInteraction id)) db'
         = (Ok (Respond 404 (BMessage "Interaction not found")), db').
Proof.
  cbn [serve handle]. intros H.
  destruct (delete_interaction_success _ _ _ _ _ H eq_refl)
    as (i & x & db1 & Hparse & Hget & Hdel & _ & -> & _).
  apply getInteraction_inv in Hget as [Hrange _].
  unfold storage.deleteInteraction, storage.delete_interactions, bind in Hdel.
  rewrite (bind_int4_accepted _ _ Hrange) in Hdel. cbn in Hdel.
  injection Hdel as _ <-.
  exists i. split; [assumption|]. repeat (split; [reflexivity|]).
  intros u'. unfold routes.delete_interaction, routes.requireAuth, try_catch,
    bind.
  rewrite Hparse, getInteraction_eq, getInteraction_missing;
    [reflexivity|exact Hrange|].
  unfold Pg.has_interaction. cbn [interactions audit_appended with_auditLogs
    audit_tried]. apply existsb_filter_out.
Qed.

Lemma deleted_interaction_is_gone_witness :
  exists i,
    Str.parseInt "2" = Some i
    /\ interactions
         (run (serve (Some alice) (Mutate (DeleteInteraction "2"))) crm_db)
       = List.filter (fun x => negb (Interaction.id x =? i))
                     (interactions crm_db)
    /\ clients (run (serve (Some alice) (Mutate (DeleteInteraction "2"))) crm_db)
       = clients crm_db
    /\ admins (run (serve (Some alice) (Mutate (DeleteInteraction "2"))) crm_db)
       = admins crm_db
    /\ forall u',
         serve (Some u') (Mutate (DeleteInteraction "2"))
               (run (serve (Some alice) (Mutate (DeleteInteraction "2"))) crm_db)
         = (Ok (Respond 404 (BMessage "Interaction not found")),
            run (serve (Some alice) (Mutate (DeleteInteraction "2"))) crm_db).
Proof.
  apply (deleted_interaction_is_gone crm_db _ alice "2"
           (BMessage "Interaction deleted successfully")).
  reflexivity.
Defined.

(** ** Sessions *)

Lemma post_login_inactive (db : Db) (body : Json) (username password : string)
  (a : Admin.t) :
  loginSchema body = inr (username, password) ->
  account db username a ->
  Admin.active a = false ->
  routes.post_login body db = (Ok disabled_failure, db).
Proof.
  unfold account. intros Hschema Hfind Hactive.
  apply getAdminByUsername_inv in Hfind as [Hnul Hfind].
  unfold routes.post_login, routes.verify, storage.validatePassword.
  step_m. rewrite Hschema. cbn [fst snd].
  now rewrite (getAdminByUsername_accepted _ _ Hnul), Hfind, Hactive.
Qed.

Lemma filter_update_where {A} (p q : A -> bool) (g : A -> A) (l : list A) :
  (forall a, p (g a) = p a) ->
  List.filter p (Pg.update_where q g l) = Pg.update_where q g (List.filter p l).
Proof.
  intros H. unfold Pg.update_where.
  induction l as [|x l IH]; cbn; [reflexivity|].
  replace (p (if q x then g x else x)) with (p x)
    by (destruct (q x); [now rewrite H|reflexivity]).
  destruct (p x); cbn; now rewrite IH.
Qed.

Lemma updateAdmin_deactivate (db db' : Db) (i : Z) (r : option Admin.t) :
  storage.updateAdmin i deactivate db = (Ok r, db') ->
  admins db'
  = Pg.update_where (fun a => Admin.id a =? i) (admin_set deactivate None)
                    (admins db).
Proof.
  unfold storage.updateAdmin, storage.update_admins, storage.set_admins,
    Pg.reject_if, Pg.bind_params, bind, ret.
  cbn. case_params; [discriminate|].
  destruct (first_violation _ _); [discriminate|].
  now intros [= _ <-].
Qed.

(** X25: switching an account off ends its logins, not its sessions.
    After [PUT /api/admins/:id] with [{ active: false }] is answered 200, a
    login to that account is answered 401 "Account is disabled" whatever
    the password; a session opened before still carries the user, and its
    requests pass the guard: the session hands back the user it kept,
    without reading the store. *)
Theorem disabled_account_keeps_session (db db' : Db) (body : Json)
  (username password id : string) (a : Admin.t) (boss : User) (b : Body) :
  loginSchema body = inr (username, password) ->
  account db username a ->
  Str.parseInt id = Some (Admin.id a) ->
  serve (Some boss) (Mutate (UpdateAdmin id deactivate)) db
  = (Ok (Respond 200 b), db') ->
  routes.post_login body db' = (Ok disabled_failure, db')
  /\ routes.get_auth_user (session_user (user_of a))
     = Respond 200 (BUser (user_of a))
  /\ exists l,
       serve (session_user (user_of a)) (ListClients None) db'
       = (Ok (Respond 200 (BClients l)), db').
Proof.
  intros Hschema Haccount Hparse Hput. split; [|split].
  - cbn [serve handle] in Hput.
    destruct (put_admin_success _ _ _ _ _ _ Hput eq_refl)
      as (i & a' & db1 & _ & Hi & Hupdate & _ & -> & _).
    rewrite Hparse in Hi. injection Hi as <-.
    apply updateAdmin_deactivate in Hupdate.
    apply (post_login_inactive _ _ username password
             (admin_set deactivate None a) Hschema); [|reflexivity].
    apply getAdminByUsername_inv in Haccount as [Hnul Haccount].
    unfold account, result_of.
    rewrite (getAdminByUsername_accepted _ _ Hnul).
    cbn [fst admins audit_appended with_auditLogs audit_tried].
    rewrite Hupdate. rewrite filter_update_where by reflexivity.
    destruct (List.filter _ (admins db)) as [|a0 rest]; [discriminate|].
    injection Haccount as ->. cbn. now rewrite Z.eqb_refl.
  - reflexivity.
  - eexists. reflexivity.
Qed.

Lemma disabled_account_keeps_session_witness :
  routes.post_login (credentials "alice" "alice-secret")
    (run (serve (Some alice) (Mutate (UpdateAdmin "1" deactivate))) login_db)
  = (Ok disabled_failure,
     run (serve (Some alice) (Mutate (UpdateAdmin "1" deactivate))) login_db)
  /\ routes.get_auth_user (session_user alice) = Respond 200 (BUser alice)
  /\ exists l,
       serve (session_user alice) (ListClients None)
         (run (serve (Some alice) (Mutate (UpdateAdmin "1" deactivate)))
              login_db)
       = (Ok (Respond 200 (BClients l)),
          run (serve (Some alice) (Mutate (UpdateAdmin "1" deactivate)))
              login_db).
Proof.
  apply (disabled_account_keeps_session login_db _
           (credentials "alice" "alice-secret") "alice" "alice-secret" "1"
           (Admin.mk 1 "alice" (Digest 10 0 "alice-secret") "Alice A"
                     "alice@example.com" "admin" true None 0)
           alice
           (BAdmin (Admin.mk_public 1 "alice" "Alice A" "alice@example.com"
                                    "admin" false None 0)));
    reflexivity.
Defined.

(** ** The clock *)

Lemma updateClient_row (db db1 : Db) (i : Z) (body : Client.partial)
  (c : Client.t) :
  storage.updateClient i body db = (Ok (Some c), db1) ->
  exists a,
    In a (clients db) /\ Client.id a = i
    /\ c = client_set (client_with_updatedAt body (clock db)) a
    /\ clients db1
       = Pg.update_where (fun c => Client.id c =? i)
           (client_set (client_with_updatedAt body (clock db))) (clients db).
Proof.
  unfold storage.updateClient, storage.update_clients, Pg.bind_params, bind,
    ret, now.
  cbv beta iota zeta. case_params; cbv beta iota zeta; [discriminate|].
  match goal with
  | |- context [first_violation ?f ?l] => destruct (first_violation f l)
  end; [discriminate|].
  cbn [clients admins interactions auditLogs clock].
  destruct (List.filter _ (clients db)) as [|a rest] eqn:Hrows;
    [discriminate|].
  cbn. intros [= <- <-]. exists a.
  assert (Ha : In a (List.filter (fun c => Client.id c =? i) (clients db)))
    by (rewrite Hrows; now left).
  apply filter_In in Ha. destruct Ha as [Ha Hid].
  repeat split; [assumption|now apply Z.eqb_eq].
Qed.

(** The head of a list sorted downwards is a row of the greatest key. *)
Lemma greatest_first {A} (key : A -> Z) (l sorted : list A) (c : A) :
  Permutation sorted l ->
  StronglySorted (fun a b => key b <= key a) sorted ->
  In c l ->
  (forall x, In x l -> key x <= key c) ->
  (forall x, In x l -> key x = key c -> x = c) ->
  exists rest, sorted = c :: rest.
Proof.
  intros Hperm Hsorted Hc Hmax Honly.
  destruct sorted as [|h t].
  - apply Permutation_nil in Hperm. subst l. contradiction.
  - exists t. f_equal. apply Honly.
    + apply (Permutation_in _ Hperm). now left.
    + apply Z.le_antisymm.
      * apply Hmax. apply (Permutation_in _ Hperm). now left.
      * apply StronglySorted_inv in Hsorted. destruct Hsorted as [_ Hh].
        rewrite List.Forall_forall in Hh.
        apply (Permutation_in _ (Permutation_sym Hperm)) in Hc.
        destruct Hc as [->|Hc]; [lia|now apply Hh].
Qed.

(** X26: where every client of the table was stamped before the time the
    server's clock shows and ids are unique, a client that
    [PUT /api/clients/:id] answers 200 with carries that time as
    [updatedAt] and heads the list of [GET /api/clients]: no other client
    was updated as late.  The condition on the stamps is one on the clocks
    of the server and of the database, which no request establishes. *)
Theorem updated_client_listed_first (db db' : Db) (u : User) (id : string)
  (body : Client.partial) (c : Client.t) :
  stamps_past db ->
  keys_unique db ->
  serve (Some u) (Mutate (UpdateClient id body)) db
  = (Ok (Respond 200 (BClient c)), db') ->
  Client.updatedAt c = clock db
  /\ exists rest, forall u',
       serve (Some u') (ListClients None) db'
       = (Ok (Respond 200 (BClients (c :: rest))), db').
Proof.
  intros Hpast (_ & _ & Hids & _) Hput.
  cbn [serve handle] in Hput.
  destruct (put_client_success _ _ _ _ _ _ Hput eq_refl)
    as (i & c0 & r & db1 & _ & _ & Hupdate & _ & -> & Hbody).
  destruct r as [c'|]; [|discriminate]. injection Hbody as ->.
  destruct (updateClient_row _ _ _ _ _ Hupdate) as (a & Ha & Hid & Hc & Hrows).
  assert (Hstamp : Client.updatedAt c' = clock db) by now subst c'.
  split; [exact Hstamp|].
  destruct (order_by_desc Client.updatedAt (clients db1)) as [Hperm Hsorted].
  destruct (greatest_first Client.updatedAt (clients db1) _ c' Hperm Hsorted)
    as [rest Hrest].
  - rewrite Hrows. apply in_update_where. exists a.
    split; [assumption|]. rewrite Hid, Z.eqb_refl. exact Hc.
  - intros x Hx. rewrite Hrows in Hx. apply in_update_where in Hx.
    destruct Hx as (a' & Ha' & ->). rewrite Hstamp.
    unfold stamps_past in Hpast. rewrite List.Forall_forall in Hpast.
    destruct (Client.id a' =? i); [cbn; lia|].
    specialize (Hpast a' Ha'). lia.
  - intros x Hx Hkey. rewrite Hrows in Hx. apply in_update_where in Hx.
    destruct Hx as (a' & Ha' & ->). rewrite Hstamp in Hkey.
    unfold stamps_past in Hpast. rewrite List.Forall_forall in Hpast.
    destruct (Z.eqb_spec (Client.id a') i) as [Hi|Hi].
    + rewrite Hc. f_equal.
      apply (NoDup_map_inj Client.id (clients db)); try assumption. congruence.
    + specialize (Hpast a' Ha'). lia.
  - exists (Pg.limit 99 rest). intros u'.
    cbn [serve]. unfold routes.get_clients, routes.requireAuth, try_catch, bind,
      storage.listClients, Pg.query, ret.
    cbn [clients audit_appended with_auditLogs audit_tried default].
    unfold storage.client_recent_first.
    change (fun a b => Client.updatedAt b <=? Client.updatedAt a)
      with (fun a b : Client.t => Client.updatedAt b <=? Client.updatedAt a)
      in Hrest.
    rewrite Hrest. reflexivity.
Qed.

Lemma crm_db_stamps_past : stamps_past crm_db.
Proof. repeat constructor. Qed.

Lemma updated_client_listed_first_witness :
  Client.updatedAt john_updated = clock crm_db
  /\ exists rest, forall u',
       serve (Some u') (ListClients None)
         (run (serve (Some alice) (Mutate (UpdateClient "1" email_only)))
              crm_db)
       = (Ok (Respond 200 (BClients (john_updated :: rest))),
          run (serve (Some alice) (Mutate (UpdateClient "1" email_only)))
              crm_db).
Proof.
  apply (updated_client_listed_first crm_db _ alice "1" email_only
           john_updated crm_db_stamps_past crm_db_keys_unique).
  reflexivity.
Defined.

Lemma updateAdmin_password_only (db db' : Db) (i : Z) (p : string)
  (r : option Admin.t) :
  storage.truthy p = true ->
  storage.updateAdmin i (password_only p) db = (Ok r, db') ->
  admins db'
  = Pg.update_where (fun a => Admin.id a =? i)
      (admin_set (password_only p) (Some (Digest 10 (entropy db) p)))
      (admins db).
Proof.
  intros Hp.
  unfold storage.updateAdmin, storage.update_admins, storage.set_admins,
    Pg.reject_if, Pg.bind_params, bind, ret, bcrypt_hash.
  cbn [Admin.p_password password_only storage.truthy_value]. rewrite Hp. cbn.
  case_params; [discriminate|].
  destruct (first_violation _ _); [discriminate|].
  now intros [= _ <-].
Qed.

(** The account of a name after an update that leaves names alone. *)
Lemma account_updated (db db' : Db) (username : string) (a : Admin.t)
  (g : Admin.t -> Admin.t) :
  (forall r, Admin.username (g r) = Admin.username r) ->
  account db username a ->
  admins db' = Pg.update_where (fun r => Admin.id r =? Admin.id a) g (admins db) ->
  account db' username (g a).
Proof.
  unfold account. intros Hname Haccount Hdb.
  apply getAdminByUsername_inv in Haccount as [Hnul Haccount].
  unfold result_of. rewrite (getAdminByUsername_accepted _ _ Hnul), Hdb.
  rewrite filter_update_where by (intros r; now rewrite Hname).
  destruct (List.filter _ (admins db)) as [|a0 rest]; [discriminate|].
  injection Haccount as ->. cbn. now rewrite Z.eqb_refl.
Qed.

(** X27: after [PUT /api/admins/:id] with [{ password: p }], [p] not
    empty, is answered 200, the account, if it is active, passes the
    strategy's check with [p]: the update stored a digest of [p]. *)
Theorem changed_password_logs_in (db db' : Db) (username id p : string)
  (a : Admin.t) (boss : User) (b : Body) :
  account db username a ->
  Admin.active a = true ->
  Str.parseInt id = Some (Admin.id a) ->
  storage.truthy p = true ->
  serve (Some boss) (Mutate (UpdateAdmin id (password_only p))) db
  = (Ok (Respond 200 b), db') ->
  result_of (routes.verify username p) db' = Ok (DoneUser (user_of a)).
Proof.
  intros Haccount Hactive Hparse Hp Hput.
  cbn [serve handle] in Hput.
  destruct (put_admin_success _ _ _ _ _ _ Hput eq_refl)
    as (i & a' & db1 & _ & Hi & Hupdate & _ & -> & _).
  rewrite Hparse in Hi. injection Hi as <-.
  apply (updateAdmin_password_only _ _ _ _ _ Hp) in Hupdate.
  apply (verify_accepts _ _ _
           (admin_set (password_only p) (Some (Digest 10 (entropy db) p)) a)).
  - apply (account_updated db); [reflexivity|assumption|exact Hupdate].
  - exact Hactive.
  - cbn. apply String.eqb_refl.
Qed.

Lemma changed_password_logs_in_witness :
  result_of (routes.verify "alice" "new-secret")
    (run (serve (Some alice) (Mutate (UpdateAdmin "1" (password_only "new-secret"))))
         login_db)
  = Ok (DoneUser alice).
Proof.
  apply (changed_password_logs_in login_db _ "alice" "1" "new-secret"
           (Admin.mk 1 "alice" (Digest 10 0 "alice-secret") "Alice A"
                     "alice@example.com" "admin" true None 0)
           alice
           (BAdmin (Admin.mk_public 1 "alice" "Alice A" "alice@example.com"
                                    "admin" true None 0)));
    reflexivity.
Defined.

(** [POST /api/auth/logout] is answered 200 whether or not the session had
    a user, and leaves the session without one: [GET /api/auth/user] is then
    answered 401 "Not authenticated", and every request behind a guard 401
    "Unauthorized", the store left as it was. *)
Lemma logout_ends_session (db : Db) (session : option User) (r : Request) :
  guarded r = true ->
  fst (routes.post_logout session)
  = Respond 200 (BMessage "Logged out successfully")
  /\ routes.get_auth_user (snd (routes.post_logout session))
     = Respond 401 (BMessage "Not authenticated")
  /\ serve (snd (routes.post_logout session)) r db = (Ok unauthorized, db).
Proof.
  intros Hr. split; [reflexivity|]. split; [reflexivity|].
  cbn [routes.post_logout snd].
  destruct r as [| | | | | | |m]; try discriminate; try reflexivity.
  destruct m; reflexivity.
Qed.
